(** * AIProfileGeneratorLinkedIn: profile resolution and news relevance

    A shallow embedding of [backend/linkedin_scraper.py] (class
    [LinkedInScraper]) and [backend/news_collector.py] (class
    [NewsCollector]), and the properties of the resolution pipeline and of
    the relevance scorer that the specification states.

    Conventions of the embedding.
    - A Python [str] is a [string] of the Standard Library.  The text the
      program handles is ASCII; the character classes ([isalnum],
      [isspace], [lower], ...) are Python's on code points below 128, and
      characters above are neither letters, digits nor white space.
    - Python's [None] for an optional string is [None : option string].
    - A [dict] literal is an insertion-ordered association list built by
      successive assignment (a later duplicate key overwrites the value and
      keeps the position of the first).
    - Network access, the clock and the HTML parser are outside the
      program: a fetched page is the record of the answers it gives to the
      queries the scraper asks of it, requests go through a world whose
      answers are arbitrary, and every request is logged.  The delays
      ([time.sleep]), the choice of request headers and the messages
      printed have no part in what is proved and are left out, as is the
      parameter [additional_keywords], which the code never reads. *)

From Stdlib Require Import Bool Arith ZArith List Ascii String Lia Sorted Permutation.
Import ListNotations.

Local Open Scope string_scope.
Local Open Scope list_scope.

(** ** Python string primitives *)
Module Py.

Definition code (c : ascii) : nat := nat_of_ascii c.

Definition between (lo hi : nat) (c : ascii) : bool :=
  Nat.leb lo (code c) && Nat.leb (code c) hi.

Definition isupper (c : ascii) : bool := between 65 90 c.
Definition islower (c : ascii) : bool := between 97 122 c.
Definition isdigit (c : ascii) : bool := between 48 57 c.
Definition isalpha (c : ascii) : bool := isupper c || islower c.
Definition isalnum (c : ascii) : bool := isalpha c || isdigit c.

(** [str.isspace] on ASCII: TAB, LF, VT, FF, CR, FS, GS, RS, US, SPACE. *)
Definition isspace (c : ascii) : bool :=
  between 9 13 c || between 28 32 c.

Definition lower_char (c : ascii) : ascii :=
  if isupper c then ascii_of_nat (code c + 32) else c.

Definition upper_char (c : ascii) : ascii :=
  if islower c then ascii_of_nat (code c - 32) else c.

Fixpoint map_chars (f : ascii -> ascii) (s : string) : string :=
  match s with
  | EmptyString => EmptyString
  | String c s' => String (f c) (map_chars f s')
  end.

(** [s.lower()] *)
Definition lower (s : string) : string := map_chars lower_char s.

Fixpoint filter_chars (p : ascii -> bool) (s : string) : string :=
  match s with
  | EmptyString => EmptyString
  | String c s' => if p c then String c (filter_chars p s') else filter_chars p s'
  end.

Fixpoint forall_chars (p : ascii -> bool) (s : string) : bool :=
  match s with
  | EmptyString => true
  | String c s' => p c && forall_chars p s'
  end.

(** Truthiness of a string: [if s:]. *)
Definition truthy (s : string) : bool :=
  match s with EmptyString => false | String _ _ => true end.

Fixpoint drop (n : nat) (s : string) : string :=
  match n, s with
  | O, _ => s
  | S _, EmptyString => EmptyString
  | S n', String _ s' => drop n' s'
  end.

(** [s[a:b]] for indexes that are not negative. *)
Definition slice (a b : nat) (s : string) : string := substring a (b - a) s.

(** [s.startswith(p)] *)
Fixpoint startswith (p s : string) : bool :=
  match p with
  | EmptyString => true
  | String a p' =>
      match s with
      | EmptyString => false
      | String b s' => Ascii.eqb a b && startswith p' s'
      end
  end.

(** [sub in s] *)
Fixpoint contains (sub s : string) : bool :=
  startswith sub s ||
  match s with
  | EmptyString => false
  | String _ s' => contains sub s'
  end.

Fixpoint find_from (sub s : string) (pos : nat) : option nat :=
  if startswith sub s then Some pos
  else match s with
       | EmptyString => None
       | String _ s' => find_from sub s' (S pos)
       end.

(** [s.find(sub, start)]; [None] stands for Python's [-1]. *)
Definition find (sub s : string) (start : nat) : option nat :=
  if Nat.leb start (length s) then find_from sub (drop start s) start else None.

(** [s.replace(old, new)] for a non-empty [old]: left to right, matches do
    not overlap.  [skip] counts the characters of the current match that
    are still to be passed over. *)
Fixpoint replace_skip (old new : string) (skip : nat) (s : string) : string :=
  match s with
  | EmptyString => EmptyString
  | String c s' =>
      match skip with
      | S k => replace_skip old new k s'
      | O =>
          if startswith old s
          then new ++ replace_skip old new (length old - 1) s'
          else String c (replace_skip old new 0 s')
      end
  end.

Definition replace (old new s : string) : string := replace_skip old new 0 s.

(** [s.split(sep)] for a non-empty [sep]; [acc] is the part being read. *)
Fixpoint split_skip (sep : string) (skip : nat) (acc s : string) : list string :=
  match s with
  | EmptyString => [acc]
  | String c s' =>
      match skip with
      | S k => split_skip sep k acc s'
      | O =>
          if startswith sep s
          then acc :: split_skip sep (length sep - 1) EmptyString s'
          else split_skip sep 0 (acc ++ String c EmptyString) s'
      end
  end.

Definition split (sep s : string) : list string := split_skip sep 0 EmptyString s.

(** [s.split()]: split on runs of white space, no empty parts. *)
Fixpoint split_ws_acc (acc s : string) : list string :=
  match s with
  | EmptyString => if truthy acc then [acc] else []
  | String c s' =>
      if isspace c
      then (if truthy acc then acc :: split_ws_acc EmptyString s'
            else split_ws_acc EmptyString s')
      else split_ws_acc (acc ++ String c EmptyString) s'
  end.

Definition split_ws (s : string) : list string := split_ws_acc EmptyString s.

Fixpoint lstrip_by (p : ascii -> bool) (s : string) : string :=
  match s with
  | EmptyString => EmptyString
  | String c s' => if p c then lstrip_by p s' else s
  end.

Fixpoint rstrip_by (p : ascii -> bool) (s : string) : string :=
  match s with
  | EmptyString => EmptyString
  | String c s' =>
      let r := rstrip_by p s' in
      if p c && negb (truthy r) then EmptyString else String c r
  end.

(** [s.strip()] *)
Definition strip (s : string) : string := rstrip_by isspace (lstrip_by isspace s).

(** [s.rstrip(ch)] for a single character [ch]. *)
Definition rstrip_char (ch : ascii) (s : string) : string :=
  rstrip_by (Ascii.eqb ch) s.

(** [s.startswith(ch)] for a single character. *)
Definition startswith_char (ch : ascii) (s : string) : bool :=
  match s with
  | EmptyString => false
  | String c _ => Ascii.eqb c ch
  end.

(** [s.title()]: a letter that follows a letter is lower-cased, any other
    letter is upper-cased. *)
Fixpoint title_from (prev_cased : bool) (s : string) : string :=
  match s with
  | EmptyString => EmptyString
  | String c s' =>
      if isalpha c
      then String (if prev_cased then lower_char c else upper_char c) (title_from true s')
      else String c (title_from false s')
  end.

Definition title (s : string) : string := title_from false s.

Definition startswith_alpha (s : string) : bool :=
  match s with
  | EmptyString => false
  | String c _ => isalpha c
  end.

(** [w in words] for a list of strings. *)
Definition mem (w : string) (ws : list string) : bool := existsb (String.eqb w) ws.

(** A [dict]: the items in insertion order.  [d[k] = v] overwrites the
    value of a key that is present and appends a new key. *)
Definition dict (K V : Type) : Type := list (K * V).

Fixpoint dict_set {K V : Type} (eqb : K -> K -> bool) (k : K) (v : V)
    (d : dict K V) : dict K V :=
  match d with
  | [] => [(k, v)]
  | (k', v') :: d' =>
      if eqb k k' then (k', v) :: d' else (k', v') :: dict_set eqb k v d'
  end.

(** The value of a dict display [{k1: v1, k2: v2, ...}]. *)
Definition dict_literal {K V : Type} (eqb : K -> K -> bool) (items : list (K * V))
    : dict K V :=
  fold_left (fun d kv => dict_set eqb (fst kv) (snd kv) d) items [].

(** [d.get(k)] *)
Fixpoint dict_get {K V : Type} (eqb : K -> K -> bool) (k : K) (d : dict K V)
    : option V :=
  match d with
  | [] => None
  | (k', v) :: d' => if eqb k k' then Some v else dict_get eqb k d'
  end.

(** [k in d] *)
Definition dict_mem {K V : Type} (eqb : K -> K -> bool) (k : K) (d : dict K V)
    : bool :=
  match dict_get eqb k d with Some _ => true | None => false end.

(** The double quote character, and a string made of it. *)
Definition dquote : ascii := "034"%char.
Definition dq : string := String dquote EmptyString.

(** [str(x)] inside an f-string for a value that is a string or [None]. *)
Definition fmt (o : option string) : string :=
  match o with Some s => s | None => "None" end.

End Py.

(** ** [urllib.parse]: the three functions the scraper calls *)
Module Urllib.
Import Py.

Definition hex_value (c : ascii) : option nat :=
  if isdigit c then Some (code c - 48)
  else if between 65 70 c then Some (code c - 55)
  else if between 97 102 c then Some (code c - 87)
  else None.

(** [unquote(s)]: every [%XX] with two hexadecimal digits becomes the
    character of that code; any other [%] stays. *)
Fixpoint unquote (s : string) : string :=
  match s with
  | EmptyString => EmptyString
  | String c s' =>
      if Ascii.eqb c "%"
      then match s' with
           | String a (String b rest) =>
               match hex_value a, hex_value b with
               | Some x, Some y => String (ascii_of_nat (16 * x + y)) (unquote rest)
               | _, _ => String c (unquote s')
               end
           | _ => String c (unquote s')
           end
      else String c (unquote s')
  end.

Definition hex_digit (n : nat) : ascii :=
  if Nat.ltb n 10 then ascii_of_nat (48 + n) else ascii_of_nat (55 + n).

Definition quote_safe (c : ascii) : bool :=
  isalnum c || existsb (Ascii.eqb c) ["_"; "."; "-"; "~"; "/"]%char.

(** [quote(s)] with the default [safe='/']. *)
Fixpoint quote (s : string) : string :=
  match s with
  | EmptyString => EmptyString
  | String c s' =>
      if quote_safe c then String c (quote s')
      else String "%" (String (hex_digit (code c / 16))
                         (String (hex_digit (code c mod 16)) (quote s')))
  end.

Definition scheme_char (c : ascii) : bool :=
  isalnum c || existsb (Ascii.eqb c) ["+"; "-"; "."]%char.

(** First position of any of the characters [cs] in [s], else [len(s)]. *)
Fixpoint first_of (cs : list ascii) (s : string) : nat :=
  match s with
  | EmptyString => 0
  | String c s' => if existsb (Ascii.eqb c) cs then 0 else S (first_of cs s')
  end.

Definition before (cs : list ascii) (s : string) : string :=
  substring 0 (first_of cs s) s.

Definition after (cs : list ascii) (s : string) : string :=
  drop (first_of cs s) s.

(** Position of the last ["/"] of [s], if any. *)
Fixpoint rfind_slash (s : string) (pos : nat) : option nat :=
  match s with
  | EmptyString => None
  | String c s' =>
      match rfind_slash s' (S pos) with
      | Some p => Some p
      | None => if Ascii.eqb c "/" then Some pos else None
      end
  end.

(** [_splitparams]: the path loses what follows the first [;] of its last
    segment. *)
Definition strip_params (path : string) : string :=
  match rfind_slash path 0 with
  | Some r => substring 0 r path ++ before [";"%char] (drop r path)
  | None => before [";"%char] path
  end.

Definition uses_params : list string :=
  [ ""; "ftp"; "hdl"; "prospero"; "http"; "imap"; "https"; "shttp"; "rtsp";
    "rtspu"; "sip"; "sips"; "mms"; "sftp"; "tel" ].

(** [urlparse(url)], of which the scraper reads [netloc] and [path]:
    leading control characters and spaces are dropped, TAB, CR and LF are
    removed, a scheme is split off when the text before the first colon is
    one, the authority follows ["//"] up to the first of [/ ? #], the path
    stops at the first [#] or [?], and loses its parameters for the schemes
    that have them.  [None] is the [ValueError] raised for an unmatched
    bracket in the authority; the check of a bracketed host as an IP
    literal, which recent versions of the library add, is left out. *)
Definition urlparse (url : string) : option (string * string) :=
  let url := lstrip_by (fun c => Nat.leb (code c) 32) url in
  let url := filter_chars (fun c => negb (existsb (Ascii.eqb c) ["009"; "013"; "010"]%char)) url in
  let scheme_rest :=
    match find ":" url 0 with
    | Some (S i) =>
        if startswith_alpha url && forall_chars scheme_char (substring 0 (S i) url)
        then (lower (substring 0 (S i) url), drop (S (S i)) url)
        else (EmptyString, url)
    | _ => (EmptyString, url)
    end in
  let scheme := fst scheme_rest in
  let url := snd scheme_rest in
  let netloc_rest :=
    if startswith "//" url
    then (before ["/"; "?"; "#"]%char (drop 2 url), after ["/"; "?"; "#"]%char (drop 2 url))
    else (EmptyString, url) in
  let netloc := fst netloc_rest in
  let path := before ["#"; "?"]%char (snd netloc_rest) in
  let path :=
    if mem scheme uses_params && contains ";" path then strip_params path else path in
  if Bool.eqb (contains "[" netloc) (contains "]" netloc)
  then Some (netloc, path) else None.

End Urllib.

(** ** The parsed page, as the scraper observes it *)
Module Html.

(** An element returned by a selector: its [href] attribute, if it has one,
    and its [get_text()]. *)
Record Element : Type := {
  href : option string;
  text : string
}.

(** A [div.pvs-list__item--line-separated] of a profile section: the text
    of its first [span[aria-hidden=true]], first [span.t-14] and first
    [span.pvs-entity__caption-wrapper], when present. *)
Record ListItem : Type := {
  aria_hidden_span : option string;
  t14_span : option string;
  caption_span : option string
}.

(** A parsed document: [find_all_a_href] is
    [link['href'] for link in soup.find_all('a', href=True)], [get_text] is
    [soup.get_text()], [select] is [soup.select(selector)] in document
    order, and [find_section i] is
    [soup.find('section', {'id': i}) or soup.find('div', {'id': i})]
    followed by [find_all('div', class_='pvs-list__item--line-separated')]. *)
Record Soup : Type := {
  find_all_a_href : list string;
  get_text : string;
  select : string -> list Element;
  find_section : string -> option (list ListItem)
}.

(** [soup.select_one(selector)] *)
Definition select_one (soup : Soup) (selector : string) : option Element :=
  hd_error (select soup selector).

(** [element.get('href', '')] *)
Definition get_href (e : Element) : string :=
  match href e with Some h => h | None => EmptyString end.

End Html.

(** ** Requests, the world that answers them, and the monad of the
    scraper's effects *)
Module Net.
Import Html.

(** [requests.get(url)], [self.session.get(url)] and [requests.head(url)]. *)
Inductive Request : Type :=
  | Get (url : string)
  | SessionGet (url : string)
  | Head (url : string).

Record Response : Type := {
  status_code : nat;
  (** [BeautifulSoup(response.content, 'html.parser')] *)
  content : Soup
}.

(** The world answers a request with a response, or the call raises
    ([None]: time-out, connection error); its state may change. *)
Class World (W : Type) : Type := {
  respond : Request -> W -> option Response * W
}.

(** The state of a run: the world and the requests issued so far, oldest
    first. *)
Record State (W : Type) : Type := {
  world : W;
  log : list Request
}.
Arguments world {W} _.
Arguments log {W} _.

(** A computation returns a value or lets an exception through ([None]). *)
Definition M (W A : Type) : Type := State W -> option A * State W.

Definition ret {W A : Type} (a : A) : M W A := fun st => (Some a, st).

Definition bind {W A B : Type} (c : M W A) (k : A -> M W B) : M W B :=
  fun st =>
    match c st with
    | (Some a, st') => k a st'
    | (None, st') => (None, st')
    end.

(** A pure step that may raise. *)
Definition lift {W A : Type} (o : option A) : M W A := fun st => (o, st).

(** [try: c  except Exception: handler] *)
Definition try_except {W A : Type} (c handler : M W A) : M W A :=
  fun st =>
    match c st with
    | (Some a, st') => (Some a, st')
    | (None, st') => handler st'
    end.

Definition request {W : Type} `{World W} (r : Request) : M W Response :=
  fun st =>
    let (answer, w) := respond r (world st) in
    (answer, {| world := w; log := log st ++ [r] |}).

(** Running a computation from a world, with an empty log. *)
Definition run {W A : Type} (c : M W A) (w : W) : option A * State W :=
  c {| world := w; log := [] |}.

End Net.

Declare Scope net_scope.
Delimit Scope net_scope with net.
Notation "x <- c ;; k" := (Net.bind c (fun x => k))
  (at level 61, c at next level, right associativity) : net_scope.

(** ** [LinkedInScraper] *)
Module Scraper.
Import Py Urllib Html Net.

(** [validate_linkedin_url]; [None] when [urlparse] raises. *)
Definition validate_linkedin_url (url : string) : option bool :=
  match urlparse url with
  | None => None
  | Some (netloc, path) =>
      if negb (contains "linkedin.com" netloc) then Some false
      else if negb (contains "/in/" path) then Some false
      else Some true
  end.

Definition username_delimiters : list string :=
  ["/"; "?"; "&"; "#"; " "; dq; "+"].

Definition username_char (c : ascii) : bool :=
  isalnum c || existsb (Ascii.eqb c) ["-"; "_"]%char.

(** The loop over the delimiters of [_clean_linkedin_url]: the least
    position, from [profile_start] on, of any of them, else [len(url)]. *)
Definition profile_end_of (url : string) (profile_start : nat) : nat :=
  fold_left
    (fun profile_end ch =>
       match find ch url profile_start with
       | Some pos => if Nat.ltb pos profile_end then pos else profile_end
       | None => profile_end
       end)
    username_delimiters (length url).

(** [_clean_linkedin_url(url)]: the canonical profile URL, or [None]. *)
Definition _clean_linkedin_url (url : option string) : option string :=
  match url with
  | None => None
  | Some url =>
      if negb (truthy url) then None
      else
        let url := unquote url in
        let url := replace "%26" "&" (replace "%3D" "=" (replace "%3F" "?" url)) in
        let url := replace dq "" (replace "+" "" (replace "%22" "" url)) in
        if contains "linkedin.com/in/" url then
          match find "linkedin.com/in/" url 0 with
          | Some start =>
              let profile_start :=
                match find "/in/" url start with
                | Some p => p + 4
                | None => 3
                end in
              let profile_end := profile_end_of url profile_start in
              let username := slice profile_start profile_end url in
              if truthy username then
                let username := filter_chars username_char username in
                if truthy username
                   && negb (String.eqb username "")
                   && negb (startswith_char "?" username)
                   && negb (startswith_char "+" username)
                   && negb (startswith_char "%" username)
                   && Nat.leb 2 (length username)
                then Some ("https://www.linkedin.com/in/" ++ username ++ "/")%string
                else None
              else None
          | None => None
          end
        else None
  end.

(** The step the extractor repeats for every candidate:
    [clean_url = self._clean_linkedin_url(raw)], kept when
    [clean_url and self.validate_linkedin_url(clean_url)].  [None] when the
    validation raises. *)
Definition keep_clean (raw : string) : option (list string) :=
  match _clean_linkedin_url (Some raw) with
  | Some clean_url =>
      if truthy clean_url then
        match validate_linkedin_url clean_url with
        | Some true => Some [clean_url]
        | Some false => Some []
        | None => None
        end
      else Some []
  | None => Some []
  end.

(** What the link scan does with one [href]: a redirector link is
    unwrapped and decoded (an exception there skips the link), a direct
    link is cleaned as it is. *)
Definition from_link (href : string) : option (list string) :=
  if contains "/url?q=" href then
    let actual_url :=
      unquote (nth 0 (split "&" (nth 1 (split "/url?q=" href) "")) "") in
    if contains "linkedin.com/in/" actual_url then
      match keep_clean actual_url with
      | Some found => Some found
      | None => Some []
      end
    else Some []
  else if contains "linkedin.com/in/" href then keep_clean href
  else Some [].

(** Results of a loop body that may raise, gathered in order; the first
    exception ends the loop. *)
Fixpoint gather {A : Type} (f : A -> option (list string)) (l : list A)
    : option (list string) :=
  match l with
  | [] => Some []
  | x :: l' =>
      match f x with
      | None => None
      | Some found =>
          match gather f l' with
          | None => None
          | Some more => Some (found ++ more)
          end
      end
  end.

Definition url_prefixes : list string :=
  ["https://www.linkedin.com/in/"; "https://linkedin.com/in/";
   "http://www.linkedin.com/in/"; "http://linkedin.com/in/"].

Definition slug_char (c : ascii) : bool :=
  isalnum c || Ascii.eqb c "-".

Fixpoint take_while (p : ascii -> bool) (s : string) : string :=
  match s with
  | EmptyString => EmptyString
  | String c s' => if p c then String c (take_while p s') else EmptyString
  end.

(** A match of [https?://(?:www\.)?linkedin\.com/in/[a-zA-Z0-9\-]+] at the
    head of [s]. *)
Definition match_profile_url (s : string) : option string :=
  match filter (fun pre => startswith pre s) url_prefixes with
  | pre :: _ =>
      let slug := take_while slug_char (drop (length pre) s) in
      if truthy slug then Some (pre ++ slug)%string else None
  | [] => None
  end.

(** [re.findall(url_pattern, text)]: the matches from left to right,
    without overlap. *)
Fixpoint findall_skip (skip : nat) (s : string) : list string :=
  match s with
  | EmptyString => []
  | String _ s' =>
      match skip with
      | S k => findall_skip k s'
      | O =>
          match match_profile_url s with
          | Some m => m :: findall_skip (length m - 1) s'
          | None => findall_skip 0 s'
          end
      end
  end.

Definition findall_profile_urls (text : string) : list string :=
  findall_skip 0 text.

Definition result_selectors : list string :=
  [ "a[href*=" ++ dq ++ "linkedin.com/in/" ++ dq ++ "]";
    ".g a[href*=" ++ dq ++ "linkedin.com" ++ dq ++ "]";
    ".r a[href*=" ++ dq ++ "linkedin.com" ++ dq ++ "]";
    "h3 a[href*=" ++ dq ++ "linkedin.com" ++ dq ++ "]" ]%string.

(** [_extract_linkedin_urls_from_soup(soup)]: link scan, text scan, then
    the selectors; [None] when an exception leaves the function. *)
Definition _extract_linkedin_urls_from_soup (soup : Soup) : option (list string) :=
  match gather from_link (find_all_a_href soup) with
  | None => None
  | Some links =>
      match gather keep_clean (findall_profile_urls (get_text soup)) with
      | None => None
      | Some texts =>
          match
            gather
              (fun element =>
                 if contains "linkedin.com/in/" (get_href element)
                 then keep_clean (get_href element) else Some [])
              (flat_map (select soup) result_selectors)
          with
          | None => None
          | Some selected => Some (links ++ texts ++ selected)
          end
      end
  end.

(** *** The manual database *)

Definition key_eqb (k1 k2 : string * string) : bool :=
  String.eqb (fst k1) (fst k2) && String.eqb (snd k1) (snd k2).

Definition manual_database : dict (string * string) string :=
  dict_literal key_eqb
    [ (("satya nadella", "microsoft"), "https://www.linkedin.com/in/satyanadella/");
      (("satya nadella", ""), "https://www.linkedin.com/in/satyanadella/");
      (("tim cook", "apple"), "https://www.linkedin.com/in/tim-cook-1b4ee/");
      (("tim cook", ""), "https://www.linkedin.com/in/tim-cook-1b4ee/");
      (("sundar pichai", "google"), "https://www.linkedin.com/in/sundarpichai/");
      (("sundar pichai", ""), "https://www.linkedin.com/in/sundarpichai/");
      (("elon musk", "tesla"), "https://www.linkedin.com/in/elonmusk/");
      (("elon musk", ""), "https://www.linkedin.com/in/elonmusk/");
      (("jeff bezos", "amazon"), "https://www.linkedin.com/in/jeffreybezos/");
      (("jeff bezos", ""), "https://www.linkedin.com/in/jeffreybezos/");
      (("mark zuckerberg", "meta"), "https://www.linkedin.com/in/markzuckerberg/");
      (("mark zuckerberg", "facebook"), "https://www.linkedin.com/in/markzuckerberg/");
      (("mark zuckerberg", ""), "https://www.linkedin.com/in/markzuckerberg/");
      (("reid hoffman", "linkedin"), "https://www.linkedin.com/in/reidhoffman/");
      (("reid hoffman", ""), "https://www.linkedin.com/in/reidhoffman/");
      (("jensen huang", "nvidia"), "https://www.linkedin.com/in/jenhsunhuang/");
      (("jensen huang", ""), "https://www.linkedin.com/in/jenhsunhuang/");
      (("melinda gates", ""), "https://www.linkedin.com/in/melindagates/");
      (("melinda french gates", ""), "https://www.linkedin.com/in/melindagates/");
      (("bill gates", ""), "https://www.linkedin.com/in/williamhgates/");
      (("warren buffett", ""), "https://www.linkedin.com/in/warrenbuffett/");
      (("richard branson", "virgin"), "https://www.linkedin.com/in/virginbranson/");
      (("richard branson", ""), "https://www.linkedin.com/in/virginbranson/");
      (("simon sinek", ""), "https://www.linkedin.com/in/simon-sinek-2609923/");
      (("daniel pink", ""), "https://www.linkedin.com/in/danielpink/");
      (("adam grant", ""), "https://www.linkedin.com/in/adamgrant/");
      (("david ackley", "bts"), "https://www.linkedin.com/in/daveackley/");
      (("david ackley", ""), "https://www.linkedin.com/in/daveackley/") ].

(** The loop of the partial company match: the first item, in the order of
    the dict, of the same name whose company contains the queried one or is
    contained in it. *)
Fixpoint partial_company_match (name_lower company_lower : string)
    (items : dict (string * string) string) : option string :=
  match items with
  | [] => None
  | ((db_name, db_company), url) :: rest =>
      if String.eqb db_name name_lower
         && (contains company_lower db_company || contains db_company company_lower)
      then Some url
      else partial_company_match name_lower company_lower rest
  end.

(** The three lookups of [check_manual_database] on normalized inputs,
    over any database. *)
Definition lookup_database (db : dict (string * string) string)
    (name_lower company_lower : string) : option string :=
  if dict_mem key_eqb (name_lower, company_lower) db
  then dict_get key_eqb (name_lower, company_lower) db
  else if dict_mem key_eqb (name_lower, "") db
  then dict_get key_eqb (name_lower, "") db
  else if truthy company_lower
  then partial_company_match name_lower company_lower db
  else None.

(** [check_manual_database(person_name, company_name)] *)
Definition check_manual_database (person_name company_name : string) : option string :=
  let name_lower := strip (lower person_name) in
  let company_lower := if truthy company_name then strip (lower company_name) else "" in
  lookup_database manual_database name_lower company_lower.

(** *** The two nickname maps *)

(** [nickname_map] of [construct_linkedin_url]. *)
Definition constructor_nickname_map : dict string string :=
  dict_literal String.eqb
    [ ("david", "dave"); ("michael", "mike"); ("william", "bill");
      ("robert", "bob"); ("richard", "rick"); ("james", "jim");
      ("thomas", "tom"); ("christopher", "chris"); ("anthony", "tony");
      ("matthew", "matt"); ("daniel", "dan"); ("andrew", "andy");
      ("benjamin", "ben"); ("jonathan", "jon"); ("joseph", "joe");
      ("joshua", "josh"); ("nicholas", "nick"); ("timothy", "tim");
      ("steven", "steve"); ("charles", "chuck"); ("gregory", "greg");
      ("patrick", "pat"); ("samuel", "sam"); ("alexander", "alex");
      ("frederick", "fred"); ("douglas", "doug"); ("stephen", "steve");
      ("edward", "ed"); ("eugene", "gene"); ("frank", "frank");
      ("gerald", "jerry"); ("harold", "harry"); ("leonard", "len");
      ("martin", "marty"); ("paul", "paul"); ("ronald", "ron");
      ("donald", "don"); ("kenneth", "ken") ].

(** [nickname_map] of [url_matches_person_name]; the display writes the
    key ['steve'] twice. *)
Definition matcher_nickname_map : dict string string :=
  dict_literal String.eqb
    [ ("david", "dave"); ("dave", "david");
      ("michael", "mike"); ("mike", "michael");
      ("william", "bill"); ("bill", "william");
      ("robert", "bob"); ("bob", "robert");
      ("richard", "rick"); ("rick", "richard");
      ("james", "jim"); ("jim", "james");
      ("thomas", "tom"); ("tom", "thomas");
      ("christopher", "chris"); ("chris", "christopher");
      ("timothy", "tim"); ("tim", "timothy");
      ("daniel", "dan"); ("dan", "daniel");
      ("andrew", "andy"); ("andy", "andrew");
      ("benjamin", "ben"); ("ben", "benjamin");
      ("matthew", "matt"); ("matt", "matthew");
      ("jonathan", "jon"); ("jon", "jonathan");
      ("joseph", "joe"); ("joe", "joseph");
      ("joshua", "josh"); ("josh", "joshua");
      ("nicholas", "nick"); ("nick", "nicholas");
      ("steven", "steve"); ("steve", "steven");
      ("stephen", "steve"); ("steve", "stephen");
      ("alexander", "alex"); ("alex", "alexander");
      ("anthony", "tony"); ("tony", "anthony");
      ("charles", "chuck"); ("chuck", "charles");
      ("gregory", "greg"); ("greg", "gregory");
      ("patrick", "pat"); ("pat", "patrick");
      ("samuel", "sam"); ("sam", "samuel");
      ("frederick", "fred"); ("fred", "frederick");
      ("douglas", "doug"); ("doug", "douglas");
      ("edward", "ed"); ("ed", "edward");
      ("ronald", "ron"); ("ron", "ronald");
      ("donald", "don"); ("don", "donald");
      ("kenneth", "ken"); ("ken", "kenneth") ].

(** [nickname_map[w]] when [w in nickname_map]. *)
Definition nickname (table : dict string string) (w : string) : option string :=
  dict_get String.eqb w table.

(** [[w]] followed by its nickname, when it has one. *)
Definition with_nickname (table : dict string string) (w : string) : list string :=
  match nickname table w with
  | Some n => [w; n]
  | None => [w]
  end.

(** [s[0]] of a non-empty string, as a string. *)
Definition first_char (s : string) : string := substring 0 1 s.

(** *** [url_matches_person_name] *)
Definition url_matches_person_name (linkedin_url person_name : string) : bool :=
  if contains "/in/" linkedin_url then
    let username :=
      nth 0 (split "?" (nth 0 (split "/" (nth 1 (split "/in/" linkedin_url) "")) "")) "" in
    let username_lower := lower username in
    let name_words :=
      map lower (filter (fun word => Nat.ltb 1 (length word)) (split_ws person_name)) in
    let expanded_name_words := flat_map (with_nickname matcher_nickname_map) name_words in
    if existsb (fun word => contains word username_lower) expanded_name_words then true
    else if Nat.leb 2 (List.length name_words) then
      let first_name := nth 0 name_words "" in
      let last_name := last name_words "" in
      let first_variations := with_nickname matcher_nickname_map first_name in
      existsb
        (fun first_var =>
           existsb (fun variation => contains variation username_lower)
             [ first_var ++ last_name;
               first_var ++ "-" ++ last_name;
               first_var ++ "." ++ last_name;
               first_var ++ "_" ++ last_name;
               first_char first_var ++ last_name ]%string)
        first_variations
    else false
  else false.

(** *** Profiles *)
Record Experience : Type := {
  exp_title : string;
  exp_company : string;
  exp_duration : string
}.

Record Education : Type := {
  edu_school : string;
  edu_degree : string;
  edu_years : string
}.

(** The dict that [scrape_profile] and [create_mock_profile_data] return,
    with its eight keys. *)
Record ProfileData : Type := {
  name : string;
  title : string;
  company : string;
  location : string;
  about : string;
  experience : list Experience;
  education : list Education;
  url : string
}.

(** The [return] statement of [validate_profile_match] that is reached. *)
Inductive MatchRule : Type :=
  | EmptyName        (* a name is empty: False *)
  | ExactMatch       (* method 1: True *)
  | WordMatch        (* method 2: True *)
  | InitialsMatch    (* method 3: True *)
  | CompanyAccount   (* method 4: False *)
  | NoMatch.         (* the last line: False *)

Definition accepts (r : MatchRule) : bool :=
  match r with
  | ExactMatch | WordMatch | InitialsMatch => true
  | EmptyName | CompanyAccount | NoMatch => false
  end.

(** The counting loop of method 2. *)
Definition count_matching_words (searched_words profile_words : list string) : nat :=
  fold_left
    (fun matching_words word =>
       if Nat.ltb 1 (length word) && mem word profile_words
       then matching_words + 1 else matching_words)
    searched_words 0.

Definition word_match (searched_words profile_words : list string) : bool :=
  Nat.leb (Nat.min 2 (List.length searched_words))
          (count_matching_words searched_words profile_words).

Definition initials_match (searched_words : list string) (profile_name : string) : bool :=
  if Nat.leb 2 (List.length searched_words) then
    let first_initial :=
      if truthy (nth 0 searched_words "") then first_char (nth 0 searched_words "") else "" in
    let last_name := last searched_words "" in
    truthy first_initial
    && contains last_name profile_name
    && contains (lower first_initial) profile_name
  else false.

(** [validate_profile_match], with the statement that decides. *)
Definition validate_profile_match_rule (profile_data : ProfileData)
    (searched_name searched_company : string) : MatchRule :=
  let profile_name := strip (lower (name profile_data)) in
  let searched_name_lower := strip (lower searched_name) in
  if negb (truthy profile_name) || negb (truthy searched_name_lower) then EmptyName
  else if String.eqb profile_name searched_name_lower then ExactMatch
  else
    let searched_words := split_ws searched_name_lower in
    let profile_words := split_ws profile_name in
    if word_match searched_words profile_words then WordMatch
    else if initials_match searched_words profile_name then InitialsMatch
    else if truthy searched_company
            && contains (lower searched_company) (lower (company profile_data))
    then CompanyAccount
    else NoMatch.

(** [validate_profile_match(profile_data, searched_name, searched_company)] *)
Definition validate_profile_match (profile_data : ProfileData)
    (searched_name searched_company : string) : bool :=
  accepts (validate_profile_match_rule profile_data searched_name searched_company).

(** The name, title and company that [create_mock_profile_data] makes up
    for a username. *)
Definition mock_identity (username : string) : string * string * string :=
  if mem username ["satyanadella"; "satya-nadella"]
  then ("Satya Nadella", "Chairman and CEO", "Microsoft")
  else if mem username ["tim-cook-1b4ee"; "timcook"]
  then ("Tim Cook", "Chief Executive Officer", "Apple")
  else if mem username ["sundarpichai"]
  then ("Sundar Pichai", "Chief Executive Officer", "Google")
  else (Py.title (replace "-" " " username), "Executive", "Technology Company").

(** [url_parts[1].rstrip('/')] of [create_mock_profile_data]. *)
Definition username_segment (linkedin_url : string) : string :=
  rstrip_char "/" (nth 1 (split "/in/" linkedin_url) "").

(** [create_mock_profile_data(linkedin_url)] *)
Definition create_mock_profile_data (linkedin_url : string) : ProfileData :=
  let url_parts := split "/in/" linkedin_url in
  let '(mock_name, mock_title, mock_company) :=
    if Nat.ltb 1 (List.length url_parts)
    then mock_identity (username_segment linkedin_url)
    else ("Professional", "Executive", "Company") in
  {| name := mock_name;
     title := mock_title;
     company := mock_company;
     location := "United States";
     about := "Experienced " ++ lower mock_title
              ++ " with a demonstrated history of working in the technology industry.";
     experience :=
       [ {| exp_title := mock_title; exp_company := mock_company;
            exp_duration := "2020 - Present" |} ];
     education :=
       [ {| edu_school := "University"; edu_degree := "Bachelor of Science";
            edu_years := "1990 - 1994" |} ];
     url := linkedin_url |}.

(** *** Field extraction from a profile page *)

(** The selector loops of the [extract_*] functions: the first selector
    for which [f] gives a value, else [""]. *)
Fixpoint first_text (f : string -> option string) (selectors : list string) : string :=
  match selectors with
  | [] => ""
  | selector :: rest =>
      match f selector with
      | Some value => value
      | None => first_text f rest
      end
  end.

(** [element.get_text().strip()] of [select_one(selector)], kept when
    [keep] holds. *)
Definition stripped_text (soup : Soup) (keep : string -> bool) (selector : string)
    : option string :=
  match select_one soup selector with
  | Some element =>
      let value := strip (text element) in
      if keep value then Some value else None
  | None => None
  end.

Definition extract_name (soup : Soup) : string :=
  first_text (stripped_text soup truthy)
    [ "h1.text-heading-xlarge";
      "h1.top-card-layout__title";
      ".pv-text-details__left-panel h1";
      ".ph5 h1";
      "h1[class*=" ++ dq ++ "text-heading" ++ dq ++ "]" ]%string.

Definition extract_title (soup : Soup) : string :=
  first_text
    (stripped_text soup
       (fun title => truthy title && negb (contains "at" (slice 0 10 (lower title)))))
    [ ".text-body-medium.break-words";
      ".top-card-layout__headline";
      ".pv-text-details__left-panel .text-body-medium";
      "h2.top-card-layout__headline" ].

Definition extract_company (soup : Soup) : string :=
  match
    List.find (fun t => contains " at " t)
      (map (fun element => strip (text element))
         (select soup ".text-body-medium.break-words, .top-card-layout__headline"))
  with
  | Some t => strip (last (split " at " t) "")
  | None =>
      first_text (stripped_text soup truthy)
        [ ".pv-text-details__right-panel span";
          ".top-card-layout__headline + div" ]
  end.

Definition extract_location (soup : Soup) : string :=
  first_text
    (stripped_text soup (fun location => truthy location && Nat.ltb 2 (length location)))
    [ ".text-body-small.inline";
      ".top-card-layout__headline + div + div";
      ".pv-text-details__left-panel .text-body-small" ].

Definition extract_about (soup : Soup) : string :=
  slice 0 500
    (first_text
       (stripped_text soup (fun about => truthy about && Nat.ltb 50 (length about)))
       [ ".pv-shared-text-with-see-more span[aria-hidden=" ++ dq ++ "true" ++ dq ++ "]";
         ".core-section-container__content .pv-about-section p";
         "[data-field=" ++ dq ++ "summary" ++ dq ++ "] .pv-shared-text-with-see-more span" ]%string).

(** [extract_company_from_exp_item] and its three siblings: the stripped
    text of the span, or [""]. *)
Definition span_text (span : option string) : string :=
  match span with Some t => strip t | None => "" end.

(** The items of a section that have a non-empty first
    [span[aria-hidden=true]], among the first [limit]. *)
Definition titled_items (limit : nat) (section : option (list ListItem)) : list ListItem :=
  match section with
  | Some items =>
      filter (fun item => truthy (span_text (aria_hidden_span item))) (firstn limit items)
  | None => []
  end.

Definition extract_experience (soup : Soup) : list Experience :=
  map (fun item =>
         {| exp_title := span_text (aria_hidden_span item);
            exp_company := span_text (t14_span item);
            exp_duration := span_text (caption_span item) |})
      (titled_items 3 (find_section soup "experience")).

Definition extract_education (soup : Soup) : list Education :=
  map (fun item =>
         {| edu_school := span_text (aria_hidden_span item);
            edu_degree := span_text (t14_span item);
            edu_years := span_text (caption_span item) |})
      (titled_items 2 (find_section soup "education")).

(** *** The functions that go to the network *)
Section WithWorld.
Context {W : Type} `{World W}.
Local Open Scope net_scope.

(** [test_linkedin_url(url)] *)
Definition test_linkedin_url (url : string) : M W bool :=
  try_except
    (response <- request (Head url) ;;
     ret (existsb (Nat.eqb (status_code response)) [200; 302; 301]))
    (ret false).

(** The loop of [google_search_linkedin] over its search URLs.  [None]: the
    function has returned [[]] on a 429; [Some l]: the loop is over with
    [linkedin_urls = l]. *)
Fixpoint google_attempts (search_urls : list string) : M W (option (list string)) :=
  match search_urls with
  | [] => ret (Some [])
  | search_url :: rest =>
      response <- request (Get search_url) ;;
      if Nat.eqb (status_code response) 429 then ret None
      else if negb (Nat.eqb (status_code response) 200) then google_attempts rest
      else
        found_urls <- lift (_extract_linkedin_urls_from_soup (content response)) ;;
        match found_urls with
        | _ :: _ => ret (Some found_urls)
        | [] => google_attempts rest
        end
  end.

(** Duplicates removed, order kept. *)
Fixpoint unique (seen urls : list string) : list string :=
  match urls with
  | [] => []
  | url :: rest =>
      if mem url seen then unique seen rest else url :: unique (url :: seen) rest
  end.

(** [google_search_linkedin(query)] *)
Definition google_search_linkedin (query : string) : M W (list string) :=
  try_except
    (attempt <-
       google_attempts
         [ "https://www.google.com/search?q=" ++ quote query ++ "&num=10";
           "https://www.google.com/search?q=" ++ quote query ++ "&num=10&hl=en&lr=lang_en";
           "https://www.google.com/search?q=" ++ quote query ++ "&ie=utf-8&oe=utf-8" ]%string ;;
     match attempt with
     | None => ret []
     | Some linkedin_urls => ret (firstn 5 (unique [] linkedin_urls))
     end)
    (ret []).

(** A loop that returns the first candidate kept; [None] when a step
    raises. *)
Fixpoint first_kept {A : Type} (f : A -> option (list string)) (l : list A)
    : option (option string) :=
  match l with
  | [] => Some None
  | x :: l' =>
      match f x with
      | None => None
      | Some (clean_url :: _) => Some (Some clean_url)
      | Some [] => first_kept f l'
      end
  end.

Fixpoint duckduckgo_attempts (search_terms : list string) : M W (option string) :=
  match search_terms with
  | [] => ret None
  | search_term :: rest =>
      response <- request (Get ("https://duckduckgo.com/html/?q=" ++ quote search_term)) ;;
      if Nat.eqb (status_code response) 200 then
        from_links <-
          lift (first_kept
                  (fun href => if contains "linkedin.com/in/" href
                               then keep_clean href else Some [])
                  (find_all_a_href (content response))) ;;
        match from_links with
        | Some clean_url => ret (Some clean_url)
        | None =>
            from_text <-
              lift (first_kept keep_clean
                      (findall_profile_urls (get_text (content response)))) ;;
            match from_text with
            | Some clean_url => ret (Some clean_url)
            | None => duckduckgo_attempts rest
            end
        end
      else duckduckgo_attempts rest
  end.

(** [duckduckgo_search_linkedin(person_name, company_name)] *)
Definition duckduckgo_search_linkedin (person_name company_name : string)
    : M W (option string) :=
  try_except
    (duckduckgo_attempts
       (([ person_name ++ " linkedin";
           dq ++ person_name ++ dq ++ " linkedin";
           person_name ++ " site:linkedin.com/in" ]%string)
        ++ (if truthy company_name
            then [ person_name ++ " " ++ company_name ++ " linkedin";
                   dq ++ person_name ++ dq ++ " " ++ dq ++ company_name ++ dq
                   ++ " linkedin" ]%string
            else [])))
    (ret None).

(** The patterns of [construct_linkedin_url] for one first name. *)
Definition name_patterns (fname last_name : string) : list string :=
  if truthy last_name
  then [ fname ++ last_name;
         fname ++ "-" ++ last_name;
         first_char fname ++ last_name;
         fname ++ "." ++ last_name;
         fname ++ "_" ++ last_name;
         last_name ++ fname;
         last_name ++ "-" ++ fname ]%string
  else [fname].

Definition pattern_char (c : ascii) : bool :=
  isalnum c || existsb (Ascii.eqb c) ["-"; "."; "_"]%char.

(** The URLs that [construct_linkedin_url] tries, in order; [None] for a
    name without words. *)
Definition constructed_urls (person_name : string) : option (list string) :=
  let name_parts := split_ws (lower person_name) in
  match name_parts with
  | [] => None
  | first_name :: _ =>
      let last_name :=
        if Nat.ltb 1 (List.length name_parts) then last name_parts "" else "" in
      let first_name_variations := with_nickname constructor_nickname_map first_name in
      let url_patterns :=
        flat_map (fun fname => name_patterns fname last_name) first_name_variations in
      Some (map (fun pattern =>
                   "https://www.linkedin.com/in/" ++ filter_chars pattern_char pattern ++ "/")%string
                url_patterns)
  end.

Fixpoint first_accessible (urls : list string) : M W (option string) :=
  match urls with
  | [] => ret None
  | url :: rest =>
      ok <- test_linkedin_url url ;;
      if ok then ret (Some url) else first_accessible rest
  end.

(** [construct_linkedin_url(person_name, company_name)] *)
Definition construct_linkedin_url (person_name company_name : string)
    : M W (option string) :=
  try_except
    (match constructed_urls person_name with
     | None => ret None
     | Some urls => first_accessible urls
     end)
    (ret None).

(** [if x:] for a string or [None]. *)
Definition truthy_opt (o : option string) : bool :=
  match o with Some s => truthy s | None => false end.

(** The loop of [search_linkedin_profile] over its search queries.
    [Some url]: the function returns [url]; [None]: the loop is over. *)
Fixpoint search_attempts (person_name : string) (search_queries : list string)
    : M W (option string) :=
  match search_queries with
  | [] => ret None
  | search_query :: rest =>
      linkedin_urls <- google_search_linkedin search_query ;;
      match linkedin_urls with
      | [] => search_attempts person_name rest
      | first_url :: _ =>
          match
            List.find (fun url => url_matches_person_name url person_name)
                      (firstn 3 linkedin_urls)
          with
          | Some url => ret (Some url)
          | None => ret (Some first_url)
          end
      end
  end.

Definition search_queries_for (person_name company_name : string) : list string :=
  filter truthy
    [ dq ++ person_name ++ dq ++ " site:linkedin.com/in/";
      if truthy company_name
      then dq ++ person_name ++ dq ++ " site:linkedin.com/in/ " ++ dq ++ company_name ++ dq
      else "";
      dq ++ person_name ++ dq ++ " linkedin profile" ]%string.

(** [search_linkedin_profile(person_name, company_name)] *)
Definition search_linkedin_profile (person_name company_name : string)
    : M W (option string) :=
  try_except
    (let manual_result := check_manual_database person_name company_name in
     if truthy_opt manual_result then ret manual_result
     else
       searched <- search_attempts person_name (search_queries_for person_name company_name) ;;
       match searched with
       | Some url => ret (Some url)
       | None =>
           duckduckgo_result <- duckduckgo_search_linkedin person_name company_name ;;
           if truthy_opt duckduckgo_result then ret duckduckgo_result
           else
             constructed_url <- construct_linkedin_url person_name company_name ;;
             match constructed_url with
             | Some url =>
                 if truthy url then
                   test_result <- test_linkedin_url url ;;
                   if test_result then ret (Some url) else ret None
                 else ret None
             | None => ret None
             end
       end)
    (ret None).

(** [scrape_profile(linkedin_url)].  The validation of the URL is outside
    the [try]. *)
Definition scrape_profile (linkedin_url : string) : M W (option ProfileData) :=
  valid <- lift (validate_linkedin_url linkedin_url) ;;
  if negb valid then ret None
  else
    try_except
      (response <- request (SessionGet linkedin_url) ;;
       if Nat.eqb (status_code response) 999
       then ret (Some (create_mock_profile_data linkedin_url))
       else if Nat.eqb (status_code response) 429 then ret None
       else if negb (Nat.eqb (status_code response) 200) then ret None
       else
         let soup := content response in
         let profile_data :=
           {| name := extract_name soup;
              title := extract_title soup;
              company := extract_company soup;
              location := extract_location soup;
              about := extract_about soup;
              experience := extract_experience soup;
              education := extract_education soup;
              url := linkedin_url |} in
         if negb (truthy (name profile_data))
         then ret (Some (create_mock_profile_data linkedin_url))
         else ret (Some profile_data))
      (ret None).

(** [scrape_profile_by_name(person_name, company_name)] *)
Definition scrape_profile_by_name (person_name company_name : string)
    : M W (option ProfileData) :=
  linkedin_url <- search_linkedin_profile person_name company_name ;;
  match linkedin_url with
  | Some url =>
      if truthy url then
        profile_data <- scrape_profile url ;;
        match profile_data with
        | Some data =>
            if validate_profile_match data person_name company_name
            then ret (Some data) else ret None
        | None => ret None
        end
      else ret None
  | None => ret None
  end.

End WithWorld.

(** The requests of a log that went to the primary search backend. *)
Definition to_google (r : Request) : bool :=
  match r with
  | Get url => startswith "https://www.google.com/" url
  | _ => false
  end.

End Scraper.

(** ** [NewsCollector]: the relevance score *)
Module News.
Import Py.
Local Open Scope Z_scope.

(** The [processed_article] dict, of which the scorer reads four keys; a
    value is a string or [None]. *)
Record Article : Type := {
  title : option string;
  description : option string;
  published_at : option string;
  source : option string
}.

Definition digit (c : ascii) : option Z :=
  if isdigit c then Some (Z.of_nat (code c) - 48) else None.

(** [%m]: [1[0-2]|0[1-9]|[1-9]], followed by the [-] of the format. *)
Definition parse_month (s : string) : option (Z * string) :=
  match s with
  | String a (String "-" rest) =>
      match digit a with
      | Some m => if 1 <=? m then Some (m, rest) else None
      | None => None
      end
  | String a (String b (String "-" rest)) =>
      match digit a, digit b with
      | Some x, Some y =>
          let m := 10 * x + y in
          if (1 <=? m) && (m <=? 12) then Some (m, rest) else None
      | _, _ => None
      end
  | _ => None
  end.

(** [%d]: the first of [3[0-1]|[1-2]\d|0[1-9]|[1-9]| [1-9]] that matches,
    which must then reach the end of the text. *)
Definition parse_day (s : string) : option Z :=
  match s with
  | String a EmptyString =>
      match digit a with
      | Some d => if 1 <=? d then Some d else None
      | None => None
      end
  | String a (String b EmptyString) =>
      match digit a, digit b with
      | Some x, Some y =>
          let d := 10 * x + y in
          if (1 <=? d) && (d <=? 31) then Some d else None
      | None, Some y =>
          if Ascii.eqb a " " && (1 <=? y) then Some y else None
      | _, _ => None
      end
  | _ => None
  end.

Definition is_leap (y : Z) : bool :=
  (y mod 4 =? 0) && (negb (y mod 100 =? 0) || (y mod 400 =? 0)).

Definition days_in_month (y m : Z) : Z :=
  if m =? 2 then (if is_leap y then 29 else 28)
  else if (m =? 4) || (m =? 6) || (m =? 9) || (m =? 11) then 30
  else 31.

Definition days_before_month (y m : Z) : Z :=
  fold_left (fun acc k => acc + days_in_month y (Z.of_nat k))
            (seq 1 (Z.to_nat (m - 1))) 0.

(** [date(y, m, d).toordinal()]: day 1 is 0001-01-01. *)
Definition toordinal (y m d : Z) : Z :=
  let y' := y - 1 in
  y' * 365 + y' / 4 - y' / 100 + y' / 400 + days_before_month y m + d.

(** [datetime.strptime(s, '%Y-%m-%d')], as the ordinal of the date; [None]
    is the [ValueError]. *)
Definition strptime_ymd (s : string) : option Z :=
  match s with
  | String a (String b (String c (String d (String "-" rest)))) =>
      match digit a, digit b, digit c, digit d with
      | Some y3, Some y2, Some y1, Some y0 =>
          let y := 1000 * y3 + 100 * y2 + 10 * y1 + y0 in
          match parse_month rest with
          | Some (m, rest') =>
              match parse_day rest' with
              | Some dd =>
                  if (1 <=? y) && (dd <=? days_in_month y m)
                  then Some (toordinal y m dd) else None
              | None => None
              end
          | None => None
          end
      | _, _, _, _ => None
      end
  | _ => None
  end.

(** The [try] block of the recency bonus:
    [(datetime.now() - strptime(article['published_at'][:10])).days], where
    [today] is the ordinal of the current date; [None] when it raises. *)
Definition days_ago (today : Z) (article : Article) : option Z :=
  match published_at article with
  | Some text =>
      match strptime_ymd (slice 0 10 text) with
      | Some pub_date => Some (today - pub_date)
      | None => None
      end
  | None => None
  end.

Definition credible_sources : list string :=
  [ "reuters"; "bloomberg"; "wall street journal"; "financial times";
    "techcrunch"; "forbes"; "business insider"; "cnbc"; "bbc";
    "associated press"; "axios"; "politico" ].

Definition business_keywords : list string :=
  [ "ceo"; "executive"; "company"; "business"; "announces"; "appointed";
    "leadership"; "interview"; "strategy"; "investment"; "funding";
    "merger"; "acquisition"; "partnership"; "conference"; "speaking" ].

Definition negative_keywords : list string :=
  [ "sports"; "entertainment"; "celebrity"; "gossip" ].

(** The text the scorer searches:
    [f"{article['title']} {article['description']}".lower()]. *)
Definition content_of (article : Article) : string :=
  lower (fmt (title article) ++ " " ++ fmt (description article)).

(** [calculate_relevance_score(article, person_name, company_name)] at the
    date [today]; [None] when the call raises (a source that is [None]). *)
Definition calculate_relevance_score (today : Z) (article : Article)
    (person_name company_name : string) : option Z :=
  let score := 0 in
  let content := content_of article in
  let person_name_lower := lower person_name in
  let company_name_lower := if truthy company_name then lower company_name else "" in
  let score := if contains person_name_lower content then score + 30 else score in
  let score :=
    if truthy company_name_lower && contains company_name_lower content
    then score + 20 else score in
  let score :=
    match days_ago today article with
    | Some days => score + Z.max 0 (20 - days)
    | None => score
    end in
  match source article with
  | None => None
  | Some source_text =>
      let source_name := lower source_text in
      let score :=
        if existsb (fun credible_source => contains credible_source source_name)
                   credible_sources
        then score + 10 else score in
      let score :=
        fold_left (fun score keyword => if contains keyword content then score + 2 else score)
                  business_keywords score in
      let score :=
        fold_left (fun score keyword => if contains keyword content then score - 5 else score)
                  negative_keywords score in
      Some (Z.max 0 score)
  end.

(** *** Processing and ranking *)

(** [MAX_NEWS_ARTICLES] of [config.py]. *)
Definition MAX_NEWS_ARTICLES : nat := 5.

(** [validate_api_key] for the key [api_key]. *)
Definition validate_api_key (api_key : string) : bool :=
  negb (negb (truthy api_key) || String.eqb api_key "your_news_api_key_here").

(** [build_search_query(person_name, company_name, person_title)] *)
Definition build_search_query (person_name company_name person_title : string) : string :=
  let query_parts := [(dq ++ person_name ++ dq)%string] in
  let query_parts :=
    if truthy company_name
    then (query_parts ++ [(dq ++ company_name ++ dq)%string])%list else query_parts in
  let query_parts :=
    if truthy person_title
    then (query_parts
          ++ filter (fun word =>
                       mem word ["ceo"; "cto"; "cfo"; "president"; "founder";
                                 "director"; "manager"])
                    (split_ws (lower person_title)))%list
    else query_parts in
  (String.concat " OR " query_parts
   ++ " AND (business OR company OR executive OR announcement OR interview OR leadership)")%string.

(** A value of the JSON answer that should be a string: the key may be
    missing, or hold [null]. *)
Inductive Field : Type :=
  | Missing
  | Null
  | Str (s : string).

(** [d.get(key, '')] *)
Definition get_or_empty (f : Field) : option string :=
  match f with
  | Missing => Some ""
  | Null => None
  | Str s => Some s
  end.

(** The [source] of an article of the answer: missing, [null], or an
    object with a [name]. *)
Inductive RawSource : Type :=
  | SourceMissing
  | SourceNull
  | SourceObject (name : Field).

(** [article.get('source', {}).get('name', '')]; the outer [None] is the
    [AttributeError] for a [null] source. *)
Definition source_name (s : RawSource) : option (option string) :=
  match s with
  | SourceMissing => Some (Some "")
  | SourceNull => None
  | SourceObject name => Some (get_or_empty name)
  end.

(** An article as the News API sends it. *)
Record RawArticle : Type := {
  raw_title : Field;
  raw_description : Field;
  raw_url : Field;
  raw_publishedAt : Field;
  raw_source : RawSource;
  raw_author : Field
}.

(** A [processed_article] with its score: the four keys the scorer reads,
    and the three others. *)
Record ProcessedArticle : Type := {
  scored : Article;
  url : option string;
  author : option string;
  relevance_score : Z
}.

(** [if x:] for a string or [None]. *)
Definition truthy_opt (o : option string) : bool :=
  match o with Some s => truthy s | None => false end.

(** The body of the loop of [process_articles]: the article to append, or
    [None] when the article is skipped (no title, no URL, a score below 10,
    or an exception). *)
Definition process_article (today : Z) (person_name company_name : string)
    (article : RawArticle) : option ProcessedArticle :=
  match source_name (raw_source article) with
  | None => None
  | Some source_value =>
      let processed_article :=
        {| title := get_or_empty (raw_title article);
           description := get_or_empty (raw_description article);
           published_at := get_or_empty (raw_publishedAt article);
           source := source_value |} in
      let article_url := get_or_empty (raw_url article) in
      if negb (truthy_opt (title processed_article)) || negb (truthy_opt article_url)
      then None
      else
        match calculate_relevance_score today processed_article person_name company_name with
        | None => None
        | Some score =>
            if 10 <=? score
            then Some {| scored := processed_article;
                         url := article_url;
                         author := get_or_empty (raw_author article);
                         relevance_score := score |}
            else None
        end
  end.

(** [process_articles(articles, person_name, company_name)] *)
Fixpoint process_articles (today : Z) (articles : list RawArticle)
    (person_name company_name : string) : list ProcessedArticle :=
  match articles with
  | [] => []
  | article :: rest =>
      match process_article today person_name company_name article with
      | Some processed_article =>
          processed_article :: process_articles today rest person_name company_name
      | None => process_articles today rest person_name company_name
      end
  end.

(** [articles.sort(key=lambda x: x['relevance_score'], reverse=True)]: the
    sort is stable, so an article goes before the first one that does not
    score more than it does. *)
Fixpoint insert_by_score (a : ProcessedArticle) (sorted : list ProcessedArticle)
    : list ProcessedArticle :=
  match sorted with
  | [] => [a]
  | b :: rest =>
      if relevance_score b <=? relevance_score a
      then a :: b :: rest
      else b :: insert_by_score a rest
  end.

Definition sort_by_score (articles : list ProcessedArticle) : list ProcessedArticle :=
  fold_right insert_by_score [] articles.

(** The body of the answer of the News API, [response.json()]. *)
Record NewsData : Type := {
  status : Field;
  (** [data.get('articles', [])]; [None] for [null] *)
  articles : option (list RawArticle)
}.

(** The answer to the request of a search: its status code, and its body,
    [None] when [response.json()] raises. *)
Record NewsResponse : Type := {
  news_status_code : nat;
  json : option NewsData
}.

(** [search_person_news(person_name, company_name, person_title)] for the
    key [api_key] at the date [today], given the answer to its request
    ([None] when the request raises). *)
Definition search_person_news (api_key : string) (today : Z)
    (response : option NewsResponse) (person_name company_name person_title : string)
    : list ProcessedArticle :=
  if negb (validate_api_key api_key) then []
  else
    match response with
    | None => []
    | Some response =>
        if Nat.eqb (news_status_code response) 429 then []
        else if Nat.eqb (news_status_code response) 401 then []
        else if negb (Nat.eqb (news_status_code response) 200) then []
        else
          match json response with
          | None => []
          | Some data =>
              match status data with
              | Str "ok" =>
                  match articles data with
                  | Some (article :: rest) =>
                      firstn MAX_NEWS_ARTICLES
                        (sort_by_score
                           (process_articles today (article :: rest)
                              person_name company_name))
                  | _ => []
                  end
              | _ => []
              end
          end
    end.

(** [get_company_news(company_name)], in the same way. *)
Definition get_company_news (api_key : string) (today : Z)
    (response : option NewsResponse) (company_name : string) : list ProcessedArticle :=
  if negb (truthy company_name) || negb (validate_api_key api_key) then []
  else
    match response with
    | None => []
    | Some response =>
        if Nat.eqb (news_status_code response) 200 then
          match json response with
          | Some data =>
              match articles data with
              | Some found => firstn 3 (process_articles today found "" company_name)
              | None => []
              end
          | None => []
          end
        else []
    end.

End News.

(** ** Concrete inputs *)
Module Examples.
Import Py Html Net.

(** The redirector link of the specification's scenario, and the same link
    to the profile host. *)
Definition redirect_example_com : string :=
  "/url?q=https%3A%2F%2Fexample.com%2Fin%2Fjdoe%26sa%3DU".

Definition redirect_linkedin_com : string :=
  "/url?q=https%3A%2F%2Flinkedin.com%2Fin%2Fjdoe%26sa%3DU".

(** A page whose only content is one link. *)
Definition page_with_link (target : string) : Soup :=
  {| find_all_a_href := [target];
     get_text := "";
     select := fun _ => [];
     find_section := fun _ => None |}.

Definition empty_page : Soup :=
  {| find_all_a_href := [];
     get_text := "";
     select := fun _ => [];
     find_section := fun _ => None |}.

(** The company-named candidate of the Matcher scenario. *)
Definition acme_official : Scraper.ProfileData :=
  {| Scraper.name := "Acme Corp Official";
     Scraper.title := "";
     Scraper.company := "Acme Corp";
     Scraper.location := "";
     Scraper.about := "";
     Scraper.experience := [];
     Scraper.education := [];
     Scraper.url := "https://www.linkedin.com/in/acme-corp/" |}.


(** 2024-05-20, as an ordinal. *)
Definition evaluation_day : Z := 739026.

(** The news item of the scoring scenario, published on the evaluation
    day, with an empty description and a source off the credible list. *)
Definition acme_item : News.Article :=
  {| News.title := Some "Acme announces new CEO";
     News.description := Some "";
     News.published_at := Some "2024-05-20T08:00:00Z";
     News.source := Some "Example Times" |}.

(** The same item with the person's name as its description. *)
Definition acme_item_with_person : News.Article :=
  {| News.title := Some "Acme announces new CEO";
     News.description := Some "Jane Doe";
     News.published_at := Some "2024-05-20T08:00:00Z";
     News.source := Some "Example Times" |}.

(** Two items that differ by one positive keyword. *)
Definition one_keyword_item : News.Article :=
  {| News.title := Some "Quarterly strategy";
     News.description := None;
     News.published_at := None;
     News.source := Some "Reuters" |}.

Definition two_keyword_item : News.Article :=
  {| News.title := Some "Quarterly strategy and funding";
     News.description := None;
     News.published_at := None;
     News.source := Some "Reuters" |}.

(** A world without state: every request has a fixed answer. *)
Record FixedWorld : Type := {
  answer : Request -> option Response
}.

#[global] Instance FixedWorld_World : World FixedWorld :=
  {| respond := fun r w => (answer w r, w) |}.

(** The primary search backend answers 429 to everything; the other hosts
    cannot be reached. *)
Definition rate_limited : FixedWorld :=
  {| answer := fun r =>
       if Scraper.to_google r
       then Some {| status_code := 429; content := empty_page |}
       else None |}.

(** Every request is answered with the given status and an empty page. *)
Definition always (status : nat) : FixedWorld :=
  {| answer := fun _ => Some {| status_code := status; content := empty_page |} |}.

(** An answer of the News API with four articles: one without URL, one
    about sports, one from Reuters, one with a [null] source name. *)
Definition company_answer : list News.RawArticle :=
  [ {| News.raw_title := News.Str "Acme opens a plant";
       News.raw_description := News.Null;
       News.raw_url := News.Missing;
       News.raw_publishedAt := News.Str "2024-05-19T10:00:00Z";
       News.raw_source := News.SourceObject (News.Str "Reuters");
       News.raw_author := News.Null |};
    {| News.raw_title := News.Str "Sports, gossip, celebrity and entertainment";
       News.raw_description := News.Str "nothing else";
       News.raw_url := News.Str "https://news.example/a";
       News.raw_publishedAt := News.Null;
       News.raw_source := News.SourceMissing;
       News.raw_author := News.Missing |};
    {| News.raw_title := News.Str "Acme announces funding";
       News.raw_description := News.Str "";
       News.raw_url := News.Str "https://news.example/b";
       News.raw_publishedAt := News.Str "2024-05-20";
       News.raw_source := News.SourceObject (News.Str "Reuters");
       News.raw_author := News.Missing |};
    {| News.raw_title := News.Str "Acme strategy";
       News.raw_description := News.Str "";
       News.raw_url := News.Str "https://news.example/c";
       News.raw_publishedAt := News.Str "2024-05-20";
       News.raw_source := News.SourceObject News.Null;
       News.raw_author := News.Missing |} ].

End Examples.

(** ** The specification's wording, for comparison with the code *)
Module Spec.
Import Py.

(** An entry of the Static Identity Table hits at stage three when it has
    the queried name and its organization contains the queried one, or is
    contained in it. *)
Definition partial_hit (name organization : string)
    (entry : (string * string) * string) : bool :=
  String.eqb (fst (fst entry)) name
  && (contains organization (snd (fst entry))
      || contains (snd (fst entry)) organization).


(** The normal form of a name or an organization. *)
Definition normalize (s : string) : string := strip (lower s).

(** An equivalence table is symmetric when it maps [b] to [a] whenever it
    maps [a] to [b]. *)
Definition symmetric (table : dict string string) : Prop :=
  forall a b : string,
    Scraper.nickname table a = Some b -> Scraper.nickname table b = Some a.

(** The query tokens of length greater than 1 that appear verbatim among
    the candidate's known-name tokens. *)
Definition overlapping_tokens (query_tokens candidate_tokens : list string)
    : list string :=
  filter (fun t => Nat.ltb 1 (length t) && mem t candidate_tokens) query_tokens.

(** Rule 2 of the Matcher: at least [min(2, token_count)] of them, where
    [token_count] counts all the tokens of the query. *)
Definition token_overlap (query_tokens candidate_tokens : list string) : Prop :=
  Nat.min 2 (List.length query_tokens)
  <= List.length (overlapping_tokens query_tokens candidate_tokens).

(** The distinct positive business-relevance keywords that appear in a
    text, and the negative ones. *)
Definition matched_keywords (content : string) : list string :=
  filter (fun keyword => contains keyword content) News.business_keywords.

Definition matched_negative (content : string) : list string :=
  filter (fun keyword => contains keyword content) News.negative_keywords.

(** Two items that a query scores alike but for the positive keywords of
    their text: same source and date, and the person, the organization and
    the negative keywords appear in both or in neither. *)
Definition all_else_equal (person organization : string) (a1 a2 : News.Article)
    : Prop :=
  News.source a1 = News.source a2
  /\ News.published_at a1 = News.published_at a2
  /\ contains (lower person) (News.content_of a1)
     = contains (lower person) (News.content_of a2)
  /\ contains (lower organization) (News.content_of a1)
     = contains (lower organization) (News.content_of a2)
  /\ matched_negative (News.content_of a1) = matched_negative (News.content_of a2).

(** Order on the results of the scorer; a call that raises compares with
    nothing but another that raises. *)
Definition score_le (r1 r2 : option Z) : Prop :=
  match r1, r2 with
  | Some s1, Some s2 => (s1 <= s2)%Z
  | None, None => True
  | _, _ => False
  end.

(** The terms of the relevance score. *)
Definition person_points (person content : string) : Z :=
  if contains (lower person) content then 30%Z else 0%Z.

Definition organization_points (organization content : string) : Z :=
  if truthy organization && contains (lower organization) content then 20%Z else 0%Z.

Definition recency_points (today : Z) (article : News.Article) : Z :=
  match News.days_ago today article with
  | Some days => Z.max 0 (20 - days)
  | None => 0%Z
  end.

Definition credibility_points (source_text : string) : Z :=
  if existsb (fun credible => contains credible (lower source_text)) News.credible_sources
  then 10%Z else 0%Z.

Definition keyword_points (content : string) : Z :=
  (2 * Z.of_nat (List.length (matched_keywords content))
   - 5 * Z.of_nat (List.length (matched_negative content)))%Z.

(** [with_person] is an item like [without], but for the person's name,
    which its text also contains: same source and date, and the
    organization and the keywords appear in both or in neither. *)
Definition differs_by_person (person organization : string)
    (without with_person : News.Article) : Prop :=
  News.source with_person = News.source without
  /\ News.published_at with_person = News.published_at without
  /\ contains (lower person) (News.content_of without) = false
  /\ contains (lower person) (News.content_of with_person) = true
  /\ contains (lower organization) (News.content_of with_person)
     = contains (lower organization) (News.content_of without)
  /\ matched_keywords (News.content_of with_person)
     = matched_keywords (News.content_of without)
  /\ matched_negative (News.content_of with_person)
     = matched_negative (News.content_of without).

(** The requests of a run that went to the primary search backend, in
    order. *)
Definition google_requests {W : Type} (st : Net.State W) : list Net.Request :=
  filter Scraper.to_google (Net.log st).

(** A computation that sends nothing to the primary search backend. *)
Definition off_google {W A : Type} (c : Net.M W A) : Prop :=
  forall st : Net.State W, google_requests (snd (c st)) = google_requests st.

(** The first search URL that [google_search_linkedin] builds for a
    query. *)
Definition first_search_url (query : string) : string :=
  "https://www.google.com/search?q=" ++ Urllib.quote query ++ "&num=10".

(** A world without state whose primary search backend answers every
    request with the rate-limit status. *)
Definition google_rate_limits (w : Examples.FixedWorld) : Prop :=
  forall url : string,
    startswith "https://www.google.com/" url = true ->
    exists page : Html.Soup,
      Examples.answer w (Net.Get url)
      = Some {| Net.status_code := 429; Net.content := page |}.

(** A canonical profile URL: [https://www.linkedin.com/in/<username>/] with
    a username of two characters at least, all of them letters, digits,
    [-] or [_]. *)
Definition canonical (u : string) : Prop :=
  exists username : string,
    u = ("https://www.linkedin.com/in/" ++ username ++ "/")%string
    /\ forall_chars Scraper.username_char username = true
    /\ 2 <= length username.

(** A profile URL in the wider sense of the URL constructor: the username
    may be short and may hold a [.]. *)
Definition profile_url (u : string) : Prop :=
  exists username : string,
    u = ("https://www.linkedin.com/in/" ++ username ++ "/")%string
    /\ forall_chars Scraper.pattern_char username = true.

(** The same, as a test: [u] is rebuilt from what stands between the prefix
    and the last character. *)
Definition is_profile_url (u : string) : bool :=
  String.eqb u
    ("https://www.linkedin.com/in/"
     ++ filter_chars Scraper.pattern_char (slice 28 (length u - 1) u) ++ "/").

(** Every value that a computation can return satisfies [Q]. *)
Definition returns {W A : Type} (c : Net.M W A) (Q : A -> Prop) : Prop :=
  forall (st st' : Net.State W) (a : A), c st = (Some a, st') -> Q a.

(** A computation lets no exception through. *)
Definition never_raises {W A : Type} (c : Net.M W A) : Prop :=
  forall st : Net.State W, exists (a : A) (st' : Net.State W), c st = (Some a, st').

(** A computation adds at most [n] requests to the log, each of them
    satisfying [p], and removes none. *)
Definition sends {W A : Type} (c : Net.M W A) (p : Net.Request -> Prop) (n : nat)
    : Prop :=
  forall st : Net.State W,
    exists sent : list Net.Request,
      Net.log (snd (c st)) = (Net.log st ++ sent)%list
      /\ Forall p sent
      /\ List.length sent <= n.

(** The requests that the resolution may send: searches on the two
    backends and probes of profile URLs. *)
Definition search_request (r : Net.Request) : Prop :=
  match r with
  | Net.Get url =>
      startswith "https://www.google.com/search?q=" url = true
      \/ startswith "https://duckduckgo.com/html/?q=" url = true
  | Net.Head url => profile_url url
  | Net.SessionGet _ => False
  end.

(** The articles are in the order of their scores, highest first. *)
Definition by_score_descending (l : list News.ProcessedArticle) : Prop :=
  StronglySorted
    (fun a b => (News.relevance_score b <= News.relevance_score a)%Z) l.

(** In a world without state, the probe of [url] succeeds: its [HEAD]
    request is answered with one of the statuses that [test_linkedin_url]
    accepts. *)
Definition probe_succeeds (w : Examples.FixedWorld) (url : string) : bool :=
  match Examples.answer w (Net.Head url) with
  | Some response => existsb (Nat.eqb (Net.status_code response)) [200; 302; 301]
  | None => false
  end.

(** The elements of a list up to the first that passes the test [p], that
    one included; the whole list when none passes. *)
Fixpoint up_to_first {A : Type} (p : A -> bool) (l : list A) : list A :=
  match l with
  | [] => []
  | x :: rest => if p x then [x] else x :: up_to_first p rest
  end.

(** An article of the answer that [process_articles] can score: it has a
    title and a URL, and its source is missing or is an object whose name
    is missing or a string. *)
Definition well_formed (article : News.RawArticle) : bool :=
  News.truthy_opt (News.get_or_empty (News.raw_title article))
  && News.truthy_opt (News.get_or_empty (News.raw_url article))
  && match News.source_name (News.raw_source article) with
     | Some (Some _) => true
     | _ => false
     end.

End Spec.

(** * Properties *)

Import Py Urllib Html Net.
Local Open Scope string_scope.

(** ** Facts about the string primitives *)

Lemma ascii_eqb_false_iff (a b : ascii) : Ascii.eqb a b = false <-> a <> b.
Proof.
  destruct (Ascii.eqb_spec a b) as [E | E]; split; intro Hn;
    congruence || (intro; congruence) || auto.
Qed.

Lemma startswith_mismatch (ch c : ascii) (old s : string) :
  Ascii.eqb c ch = false -> startswith (String ch old) (String c s) = false.
Proof.
  intro E. simpl. rewrite Ascii.eqb_sym, E. reflexivity.
Qed.

Lemma forall_chars_app (p : ascii -> bool) (s t : string) :
  forall_chars p (s ++ t) = forall_chars p s && forall_chars p t.
Proof.
  induction s as [| c s IH]; simpl; [reflexivity |].
  rewrite IH, andb_assoc. reflexivity.
Qed.

Lemma forall_chars_weaken (p q : ascii -> bool) (s : string) :
  (forall c, p c = true -> q c = true) ->
  forall_chars p s = true -> forall_chars q s = true.
Proof.
  intros Hpq. induction s as [| c s IH]; simpl; [reflexivity |].
  intro Hs. apply andb_true_iff in Hs as [Hc Hs].
  rewrite (Hpq _ Hc), (IH Hs). reflexivity.
Qed.

Lemma filter_chars_forall (p : ascii -> bool) (s : string) :
  forall_chars p (filter_chars p s) = true.
Proof.
  induction s as [| c s IH]; simpl; [reflexivity |].
  destruct (p c) eqn:E; simpl; [rewrite E |]; exact IH.
Qed.

Lemma filter_chars_id (p : ascii -> bool) (s : string) :
  forall_chars p s = true -> filter_chars p s = s.
Proof.
  induction s as [| c s IH]; simpl; [reflexivity |].
  intro Hs. apply andb_true_iff in Hs as [Hc Hs].
  rewrite Hc, (IH Hs). reflexivity.
Qed.

(** A text without the first character of [old] is left alone by
    [replace]. *)
Lemma replace_absent (ch : ascii) (old new s : string) :
  forall_chars (fun c => negb (Ascii.eqb c ch)) s = true ->
  replace (String ch old) new s = s.
Proof.
  unfold replace. induction s as [| c s IH]; [reflexivity |].
  cbn [forall_chars]. intro Hs. apply andb_true_iff in Hs as [Hc Hs].
  apply negb_true_iff in Hc.
  cbn [replace_skip]. rewrite (startswith_mismatch _ _ _ _ Hc), (IH Hs).
  reflexivity.
Qed.

Lemma unquote_absent (s : string) :
  forall_chars (fun c => negb (Ascii.eqb c "%")) s = true -> unquote s = s.
Proof.
  induction s as [| c s IH]; [reflexivity |].
  cbn [forall_chars]. intro Hs. apply andb_true_iff in Hs as [Hc Hs].
  apply negb_true_iff in Hc. cbn [unquote]. rewrite Hc, (IH Hs). reflexivity.
Qed.

Lemma find_from_absent (ch : ascii) (s : string) (pos : nat) :
  forall_chars (fun c => negb (Ascii.eqb c ch)) s = true ->
  find_from (String ch "") s pos = None.
Proof.
  revert pos. induction s as [| c s IH]; intros pos; [reflexivity |].
  cbn [forall_chars]. intro Hs. apply andb_true_iff in Hs as [Hc Hs].
  apply negb_true_iff in Hc.
  cbn [find_from]. rewrite (startswith_mismatch _ _ _ _ Hc). apply IH, Hs.
Qed.

Lemma find_from_first (ch : ascii) (s rest : string) (pos : nat) :
  forall_chars (fun c => negb (Ascii.eqb c ch)) s = true ->
  find_from (String ch "") (s ++ String ch rest) pos = Some (pos + length s).
Proof.
  revert pos. induction s as [| c s IH]; intros pos.
  - intros _. simpl. rewrite Ascii.eqb_refl. simpl. f_equal. lia.
  - cbn [forall_chars]. intro Hs. apply andb_true_iff in Hs as [Hc Hs].
    apply negb_true_iff in Hc.
    change ((String c s ++ String ch rest)%string)
      with (String c (s ++ String ch rest)).
    cbn [find_from]. rewrite (startswith_mismatch _ _ _ _ Hc), (IH _ Hs).
    f_equal. simpl. lia.
Qed.

Lemma substring_app_left (s t : string) : substring 0 (length s) (s ++ t) = s.
Proof.
  induction s as [| c s IH]; simpl.
  - destruct t; reflexivity.
  - rewrite IH. reflexivity.
Qed.

Lemma length_app (s t : string) : length (s ++ t) = length s + length t.
Proof. induction s as [| c s IH]; simpl; [reflexivity | rewrite IH; reflexivity]. Qed.

Lemma truthy_length (s : string) : truthy s = true <-> 1 <= length s.
Proof. destruct s; simpl; split; intro Hs; (discriminate || lia || reflexivity). Qed.

(** ** Canonicalization *)

(** The characters that survive in a username are none of the characters
    that the cleaning decodes, removes or stops at. *)
Lemma username_char_plain (c : ascii) :
  Scraper.username_char c = true ->
  forallb (fun d => negb (Ascii.eqb c d))
          ["%"; "+"; dquote; "/"; "?"; "&"; "#"; " "]%char = true.
Proof.
  destruct c as [[] [] [] [] [] [] [] []]; vm_compute; intro Hc;
    (reflexivity || discriminate Hc).
Qed.

Lemma username_chars_free (ch : ascii) (w : string) :
  In ch ["%"; "+"; dquote; "/"; "?"; "&"; "#"; " "]%char ->
  forall_chars Scraper.username_char w = true ->
  forall_chars (fun c => negb (Ascii.eqb c ch)) w = true.
Proof.
  intros Hin. apply forall_chars_weaken. intros c Hc.
  pose proof (username_char_plain c Hc) as Hall.
  rewrite forallb_forall in Hall. apply Hall, Hin.
Qed.

(** A canonical URL holds none of [%], [+] and the double quote. *)
Lemma canonical_free (ch : ascii) (w : string) :
  In ch ["%"; "+"; dquote]%char ->
  forall_chars Scraper.username_char w = true ->
  forall_chars (fun c => negb (Ascii.eqb c ch))
    ("https://www.linkedin.com/in/" ++ w ++ "/") = true.
Proof.
  intros Hin Hw.
  rewrite !forall_chars_app, (username_chars_free ch w); [| | exact Hw].
  - destruct Hin as [<- | [<- | [<- | []]]]; vm_compute; reflexivity.
  - simpl in Hin |- *. intuition.
Qed.

Lemma canonical_start (w : string) :
  let url := ("https://www.linkedin.com/in/" ++ w ++ "/")%string in
  contains "linkedin.com/in/" url = true
  /\ find "linkedin.com/in/" url 0 = Some 12
  /\ find "/in/" url 12 = Some 24.
Proof. vm_compute. repeat split. Qed.

Lemma canonical_find (ch : string) (w : string) :
  find ch ("https://www.linkedin.com/in/" ++ w ++ "/") 28
  = find_from ch (w ++ "/") 28.
Proof. unfold find. vm_compute Nat.leb. reflexivity. Qed.

Lemma canonical_profile_end (w : string) :
  forall_chars Scraper.username_char w = true ->
  Scraper.profile_end_of ("https://www.linkedin.com/in/" ++ w ++ "/") 28
  = 28 + length w.
Proof.
  intro Hw.
  assert (Hfree : forall ch,
             In ch ["?"; "&"; "#"; " "; dquote; "+"]%char ->
             find_from (String ch "") (w ++ "/") 28 = None).
  { intros ch Hin. apply find_from_absent.
    rewrite forall_chars_app, (username_chars_free ch w); [| | exact Hw].
    - simpl in Hin.
      destruct Hin as [<- | [<- | [<- | [<- | [<- | [<- | []]]]]]]; reflexivity.
    - simpl in Hin |- *. intuition. }
  unfold Scraper.profile_end_of, Scraper.username_delimiters, dq.
  cbn [fold_left]. rewrite !canonical_find.
  rewrite (find_from_first "/" w "" 28)
    by (apply username_chars_free; [simpl; intuition | exact Hw]).
  rewrite !Hfree by (simpl; intuition).
  rewrite !length_app. cbn [length].
  destruct (Nat.ltb_spec (28 + length w) (28 + (length w + 1))); [reflexivity | lia].
Qed.

(** The cleaning leaves a canonical URL as it is. *)
Lemma clean_canonical (w : string) :
  forall_chars Scraper.username_char w = true ->
  2 <= length w ->
  Scraper._clean_linkedin_url (Some ("https://www.linkedin.com/in/" ++ w ++ "/"))
  = Some ("https://www.linkedin.com/in/" ++ w ++ "/")%string.
Proof.
  intros Hw Hlen.
  unfold Scraper._clean_linkedin_url.
  change (truthy ("https://www.linkedin.com/in/" ++ w ++ "/")) with true.
  cbn [negb].
  rewrite unquote_absent by (apply canonical_free; [simpl; intuition | exact Hw]).
  unfold dq.
  set (u := "https://www.linkedin.com/in/" ++ w ++ "/").
  assert (Hfree : forall ch, In ch ["%"; "+"; dquote]%char ->
            forall_chars (fun c => negb (Ascii.eqb c ch)) u = true)
    by (intros ch Hin; apply canonical_free; assumption).
  rewrite (replace_absent "%" "3F" "?" u) by (apply Hfree; simpl; intuition).
  rewrite (replace_absent "%" "3D" "=" u) by (apply Hfree; simpl; intuition).
  rewrite (replace_absent "%" "26" "&" u) by (apply Hfree; simpl; intuition).
  rewrite (replace_absent "%" "22" "" u) by (apply Hfree; simpl; intuition).
  rewrite (replace_absent "+" "" "" u) by (apply Hfree; simpl; intuition).
  rewrite (replace_absent dquote "" "" u) by (apply Hfree; simpl; intuition).
  clear Hfree. subst u.
  destruct (canonical_start w) as (Hin & Hstart & Hprofile).
  cbv zeta. rewrite Hin, Hstart, Hprofile.
  change (24 + 4) with 28.
  rewrite (canonical_profile_end w Hw).
  unfold slice. replace (28 + length w - 28) with (length w) by lia.
  change (substring 28 (length w) ("https://www.linkedin.com/in/" ++ w ++ "/"))
    with (substring 0 (length w) (w ++ "/")).
  rewrite substring_app_left, (filter_chars_id _ _ Hw).
  destruct w as [| c w']; [simpl in Hlen; lia |].
  cbn [forall_chars] in Hw. apply andb_true_iff in Hw as [Hc _].
  pose proof (username_char_plain c Hc) as Hplain.
  cbn [forallb] in Hplain.
  repeat (apply andb_true_iff in Hplain as [?H Hplain]).
  cbn [truthy String.eqb startswith_char andb negb].
  repeat match goal with
         | Hn : negb (Ascii.eqb c ?d) = true |- context [Ascii.eqb c ?d] =>
             rewrite (proj1 (negb_true_iff _) Hn)
         end.
  cbn [negb andb].
  destruct (Nat.leb_spec 2 (length (String c w'))); [reflexivity | lia].
Qed.

(** What the cleaning returns is canonical. *)
Lemma clean_shape (x : option string) (u : string) :
  Scraper._clean_linkedin_url x = Some u ->
  exists w : string,
    u = ("https://www.linkedin.com/in/" ++ w ++ "/")%string
    /\ forall_chars Scraper.username_char w = true
    /\ 2 <= length w.
Proof.
  unfold Scraper._clean_linkedin_url.
  destruct x as [url |]; [| discriminate].
  destruct (negb (truthy url)); [discriminate |].
  cbv zeta.
  match goal with |- context [contains "linkedin.com/in/" ?v] => set (cleaned := v) end.
  destruct (contains "linkedin.com/in/" cleaned); [| discriminate].
  destruct (find "linkedin.com/in/" cleaned 0) as [start |]; [| discriminate].
  match goal with |- context [filter_chars Scraper.username_char ?v] => set (raw := v) end.
  destruct (truthy raw); [| discriminate].
  match goal with |- (if ?b then _ else _) = _ -> _ => destruct b eqn:Hvalid end;
    [| discriminate].
  intros [= <-]. exists (filter_chars Scraper.username_char raw).
  split; [reflexivity |]. split; [apply filter_chars_forall |].
  apply andb_true_iff in Hvalid as [_ Hlen]. apply Nat.leb_le, Hlen.
Qed.

(** C6.  Candidate-identifier canonicalization is idempotent: applying
    [_clean_linkedin_url] to its own result, a canonical URL or [None],
    gives that result again. *)
Theorem clean_linkedin_url_idempotent (x : option string) :
  Scraper._clean_linkedin_url (Scraper._clean_linkedin_url x)
  = Scraper._clean_linkedin_url x.
Proof.
  destruct (Scraper._clean_linkedin_url x) as [u |] eqn:Hclean; [| reflexivity].
  destruct (clean_shape x u Hclean) as (w & -> & Hw & Hlen).
  apply clean_canonical; assumption.
Qed.

(** ** The redirector scenario *)

(** C7, as stated, fails: the link of the scenario points to
    [example.com], its target lacks the profile marker
    [linkedin.com/in/], and the pipeline discards it. *)
Lemma redirect_example_com_discarded :
  Scraper.from_link Examples.redirect_example_com = Some []
  /\ Scraper._extract_linkedin_urls_from_soup
       (Examples.page_with_link Examples.redirect_example_com) = Some []
  /\ Scraper._clean_linkedin_url (Some Examples.redirect_example_com) = None.
Proof. vm_compute. repeat split. Qed.

(** C7, amended.  The same redirector link to the profile host is
    unwrapped and percent-decoded to [https://linkedin.com/in/jdoe&sa=U],
    the username is cut at the first delimiter, and the pipeline produces
    the canonical URL of [jdoe]. *)
Theorem redirect_linkedin_com_canonical :
  unquote (nth 0 (split "&" (nth 1 (split "/url?q=" Examples.redirect_linkedin_com) "")) "")
  = "https://linkedin.com/in/jdoe&sa=U"
  /\ Scraper._clean_linkedin_url (Some "https://linkedin.com/in/jdoe&sa=U")
     = Some "https://www.linkedin.com/in/jdoe/"
  /\ Scraper.from_link Examples.redirect_linkedin_com
     = Some ["https://www.linkedin.com/in/jdoe/"]
  /\ Scraper._extract_linkedin_urls_from_soup
       (Examples.page_with_link Examples.redirect_linkedin_com)
     = Some ["https://www.linkedin.com/in/jdoe/"].
Proof. vm_compute. repeat split. Qed.

(** ** The manual database *)

Lemma key_eqb_eq (k1 k2 : string * string) : Scraper.key_eqb k1 k2 = true <-> k1 = k2.
Proof.
  destruct k1 as [n1 c1], k2 as [n2 c2]. unfold Scraper.key_eqb. simpl.
  rewrite andb_true_iff, !String.eqb_eq. split; [intros [-> ->] | intros [= -> ->]]; auto.
Qed.

Lemma dict_get_In {K V : Type} (eqb : K -> K -> bool) (k : K) (v : V) (d : dict K V) :
  (forall a b, eqb a b = true -> a = b) ->
  dict_get eqb k d = Some v -> In (k, v) d.
Proof.
  intro Heq. induction d as [| [k' v'] d IH]; simpl; [discriminate |].
  destruct (eqb k k') eqn:E.
  - intros [= ->]. left. rewrite (Heq _ _ E). reflexivity.
  - intro Hget. right. exact (IH Hget).
Qed.

(** The loop of the partial match returns the first partial hit. *)
Lemma partial_company_match_find (name company : string)
    (items : dict (string * string) string) :
  Scraper.partial_company_match name company items
  = option_map snd (List.find (Spec.partial_hit name company) items).
Proof.
  induction items as [| [[db_name db_company] url] items IH]; [reflexivity |].
  simpl. unfold Spec.partial_hit at 1. simpl.
  destruct (String.eqb db_name name
            && (contains company db_company || contains db_company company));
    [reflexivity | exact IH].
Qed.



(** Every name of the manual database also has an entry without company. *)
Lemma manual_database_defaults :
  forallb (fun entry => dict_mem Scraper.key_eqb (fst (fst entry), "") Scraper.manual_database)
          Scraper.manual_database = true.
Proof. vm_compute. reflexivity. Qed.

Lemma manual_database_no_partial (name company : string) :
  dict_get Scraper.key_eqb (name, "") Scraper.manual_database = None ->
  List.find (Spec.partial_hit name company) Scraper.manual_database = None.
Proof.
  intro Hnone.
  destruct (List.find _ _) as [entry |] eqn:Hfind; [| reflexivity].
  apply find_some in Hfind as [Hin Hhit].
  pose proof manual_database_defaults as Hall.
  rewrite forallb_forall in Hall. specialize (Hall entry Hin).
  unfold Spec.partial_hit in Hhit. apply andb_true_iff in Hhit as [Hname _].
  apply String.eqb_eq in Hname. rewrite Hname in Hall.
  unfold dict_mem in Hall. rewrite Hnone in Hall. discriminate.
Qed.





(** ** The nickname tables *)

Lemma nickname_In (table : dict string string) (a b : string) :
  Scraper.nickname table a = Some b -> In (a, b) table.
Proof.
  apply dict_get_In. intros x y E. apply String.eqb_eq, E.
Qed.

(** C3, as stated, fails: the table of the URL Constructor maps [david]
    to [dave] and has no entry for [dave]; the table of the Matcher maps
    [steven] to [steve] and [steve] to [stephen]. *)
Lemma nickname_tables_not_symmetric :
  ~ Spec.symmetric Scraper.constructor_nickname_map
  /\ ~ Spec.symmetric Scraper.matcher_nickname_map.
Proof.
  split; intro Hsym.
  - specialize (Hsym "david" "dave" eq_refl). vm_compute in Hsym. discriminate.
  - specialize (Hsym "steven" "steve" eq_refl). vm_compute in Hsym. discriminate.
Qed.

(** C3, amended.  In the table of the Matcher every pair is mapped both
    ways, the key [steven] apart; the table of the URL Constructor goes one
    way, from a given name to its short form: it has no entry for a short
    form that differs from the name. *)
Theorem nickname_tables_direction (a b : string) :
  (Scraper.nickname Scraper.matcher_nickname_map a = Some b ->
   a <> "steven" ->
   Scraper.nickname Scraper.matcher_nickname_map b = Some a)
  /\ (Scraper.nickname Scraper.constructor_nickname_map a = Some b ->
      a <> b ->
      Scraper.nickname Scraper.constructor_nickname_map b = None).
Proof.
  split; intros Hmap Hne; apply nickname_In in Hmap.
  - assert (Hall :
        forallb (fun kv =>
                   String.eqb (fst kv) "steven"
                   || match Scraper.nickname Scraper.matcher_nickname_map (snd kv) with
                      | Some k => String.eqb k (fst kv)
                      | None => false
                      end)
                Scraper.matcher_nickname_map = true) by (vm_compute; reflexivity).
    rewrite forallb_forall in Hall. specialize (Hall _ Hmap). simpl in Hall.
    apply orb_true_iff in Hall as [Hsteven | Hback].
    + apply String.eqb_eq in Hsteven. contradiction.
    + destruct (Scraper.nickname Scraper.matcher_nickname_map b); [| discriminate].
      apply String.eqb_eq in Hback. congruence.
  - assert (Hall :
        forallb (fun kv =>
                   String.eqb (fst kv) (snd kv)
                   || match Scraper.nickname Scraper.constructor_nickname_map (snd kv) with
                      | Some _ => false
                      | None => true
                      end)
                Scraper.constructor_nickname_map = true) by (vm_compute; reflexivity).
    rewrite forallb_forall in Hall. specialize (Hall _ Hmap). simpl in Hall.
    apply orb_true_iff in Hall as [Hsame | Hnone].
    + apply String.eqb_eq in Hsame. contradiction.
    + destruct (Scraper.nickname Scraper.constructor_nickname_map b);
        [discriminate | reflexivity].
Qed.

Lemma nickname_tables_direction_witness :
  Scraper.nickname Scraper.matcher_nickname_map "dave" = Some "david"
  /\ Scraper.nickname Scraper.constructor_nickname_map "dave" = None.
Proof.
  split.
  - apply (proj1 (nickname_tables_direction "david" "dave")).
    + vm_compute. reflexivity.
    + discriminate.
  - apply (proj2 (nickname_tables_direction "david" "dave")).
    + vm_compute. reflexivity.
    + discriminate.
Defined.

(** ** The Matcher *)

(** The counting loop of method 2 counts the overlapping tokens. *)
Lemma count_loop_filter {A : Type} (f : A -> bool) (l : list A) (k : nat) :
  fold_left (fun n x => if f x then n + 1 else n) l k
  = k + List.length (filter f l).
Proof.
  revert k. induction l as [| x l IH]; intro k; simpl; [lia |].
  rewrite IH. destruct (f x); simpl; lia.
Qed.

Lemma count_matching_words_overlap (searched_words profile_words : list string) :
  Scraper.count_matching_words searched_words profile_words
  = List.length (Spec.overlapping_tokens searched_words profile_words).
Proof.
  unfold Scraper.count_matching_words, Spec.overlapping_tokens.
  rewrite count_loop_filter. reflexivity.
Qed.

Lemma word_match_overlap (searched_words profile_words : list string) :
  Scraper.word_match searched_words profile_words = true
  <-> Spec.token_overlap searched_words profile_words.
Proof.
  unfold Scraper.word_match, Spec.token_overlap.
  rewrite count_matching_words_overlap. apply Nat.leb_le.
Qed.

Lemma truthy_nonempty (s : string) : truthy s = true <-> s <> "".
Proof. destruct s; simpl; split; intro Hs; congruence || reflexivity. Qed.

(** C4, as stated, fails: for the query name [Acme Corp] without further
    context, the candidate [Acme Corp Official] of [Acme Corp] is not
    rejected by rule 4; rule 2 accepts it. *)
Lemma acme_official_not_rejected :
  Scraper.validate_profile_match Examples.acme_official "Acme Corp" "" = true
  /\ Scraper.validate_profile_match_rule Examples.acme_official "Acme Corp" ""
     <> Scraper.CompanyAccount.
Proof. vm_compute. split; [reflexivity | discriminate]. Qed.

(** C4, amended.  For the query name [Acme Corp], with or without an
    organization, the Matcher accepts the candidate [Acme Corp Official] by
    rule 2: both tokens of the query are among the tokens of the known
    name, and rule 4 is not reached.  For every candidate and every query,
    rule 4 decides exactly when both names are non-empty, rules 1 to 3
    fail, an organization is supplied and its text, in lower case, is part
    of the candidate's organization text in lower case; it then rejects, as
    the last rule would: the organization never changes the verdict.  For
    that candidate, [Jane Doe] of [Acme Corp] is rejected by rule 4, and
    [Jane Doe] of [Acme Corporation] by the last rule. *)
Theorem acme_official_rules (profile_data : Scraper.ProfileData)
    (searched_name searched_company : string) :
  Scraper.validate_profile_match_rule Examples.acme_official "Acme Corp" searched_company
  = Scraper.WordMatch
  /\ Scraper.validate_profile_match Examples.acme_official "Acme Corp" searched_company
     = true
  /\ (Scraper.validate_profile_match_rule profile_data searched_name searched_company
      = Scraper.CompanyAccount
      <-> Spec.normalize (Scraper.name profile_data) <> ""
          /\ Spec.normalize searched_name <> ""
          /\ Spec.normalize (Scraper.name profile_data) <> Spec.normalize searched_name
          /\ ~ Spec.token_overlap (split_ws (Spec.normalize searched_name))
                 (split_ws (Spec.normalize (Scraper.name profile_data)))
          /\ Scraper.initials_match (split_ws (Spec.normalize searched_name))
               (Spec.normalize (Scraper.name profile_data)) = false
          /\ searched_company <> ""
          /\ contains (lower searched_company) (lower (Scraper.company profile_data))
             = true)
  /\ (Scraper.validate_profile_match_rule profile_data searched_name searched_company
      = Scraper.CompanyAccount ->
      Scraper.validate_profile_match profile_data searched_name searched_company = false)
  /\ Scraper.validate_profile_match profile_data searched_name searched_company
     = Scraper.validate_profile_match profile_data searched_name ""
  /\ Scraper.validate_profile_match_rule Examples.acme_official "Jane Doe" "Acme Corp"
     = Scraper.CompanyAccount
  /\ Scraper.validate_profile_match Examples.acme_official "Jane Doe" "Acme Corp" = false
  /\ Scraper.validate_profile_match_rule Examples.acme_official "Jane Doe" "Acme Corporation"
     = Scraper.NoMatch.
Proof.
  split; [vm_compute; reflexivity |]. split; [vm_compute; reflexivity |].
  split; [| split; [| split; [| vm_compute; repeat split]]].
  - unfold Scraper.validate_profile_match_rule. cbv zeta.
    fold (Spec.normalize (Scraper.name profile_data)). fold (Spec.normalize searched_name).
    set (pn := Spec.normalize (Scraper.name profile_data)).
    set (sn := Spec.normalize searched_name).
    rewrite <- word_match_overlap, <- !truthy_nonempty.
    destruct (truthy pn), (truthy sn); simpl;
      try (split; [discriminate | intros (? & ? & _); discriminate]).
    destruct (String.eqb_spec pn sn) as [Heq | Hne].
    { split; [discriminate | intros (_ & _ & Hdiff & _); contradiction]. }
    destruct (Scraper.word_match (split_ws sn) (split_ws pn)).
    { split; [discriminate | intros (_ & _ & _ & Hword & _); contradiction Hword; reflexivity]. }
    destruct (Scraper.initials_match (split_ws sn) pn).
    { split; [discriminate | intros (_ & _ & _ & _ & ? & _); discriminate]. }
    destruct (truthy searched_company) eqn:Hcompany; simpl.
    + destruct (contains (lower searched_company) (lower (Scraper.company profile_data))).
      * split; [intros _ | reflexivity].
        repeat split; auto; discriminate.
      * split; [discriminate | intros (_ & _ & _ & _ & _ & _ & ?); discriminate].
    + split; [discriminate | intros (_ & _ & _ & _ & _ & Hc & _); discriminate].
  - unfold Scraper.validate_profile_match. intros ->. reflexivity.
  - unfold Scraper.validate_profile_match, Scraper.validate_profile_match_rule. cbv zeta.
    destruct (negb _ || negb _); [reflexivity |].
    destruct (String.eqb _ _); [reflexivity |].
    destruct (Scraper.word_match _ _); [reflexivity |].
    destruct (Scraper.initials_match _ _); [reflexivity |].
    destruct (truthy searched_company && _); reflexivity.
Qed.



(** ** The relevance score *)
Section RelevanceScore.
Local Open Scope Z_scope.

Lemma keyword_loop (content : string) (step : Z) (keywords : list string) (score : Z) :
  fold_left
    (fun score keyword => if contains keyword content then score + step else score)
    keywords score
  = score
    + step * Z.of_nat (List.length (filter (fun keyword => contains keyword content) keywords)).
Proof.
  revert score. induction keywords as [| keyword keywords IH]; intro score; simpl; [lia |].
  rewrite IH. destruct (contains keyword content); simpl List.length; lia.
Qed.

Lemma truthy_lower (s : string) : truthy (lower s) = truthy s.
Proof. destruct s; reflexivity. Qed.

(** The score is the sum of its terms, floored at 0; the call raises only
    for a source that is [None]. *)
Lemma score_terms (today : Z) (article : News.Article) (person company : string) :
  News.calculate_relevance_score today article person company
  = match News.source article with
    | None => None
    | Some source_text =>
        Some (Z.max 0
                (Spec.person_points person (News.content_of article)
                 + Spec.organization_points company (News.content_of article)
                 + Spec.recency_points today article
                 + Spec.credibility_points source_text
                 + Spec.keyword_points (News.content_of article)))
    end.
Proof.
  unfold News.calculate_relevance_score. cbv zeta.
  destruct (News.source article) as [source_text |]; [| reflexivity].
  rewrite (keyword_loop _ (-5)), (keyword_loop _ 2).
  unfold Spec.person_points, Spec.organization_points, Spec.recency_points,
    Spec.credibility_points, Spec.keyword_points, Spec.matched_keywords,
    Spec.matched_negative.
  f_equal. f_equal.
  replace (truthy (if truthy company then lower company else "")
           && contains (if truthy company then lower company else "")
                (News.content_of article))%bool
    with (truthy company && contains (lower company) (News.content_of article))%bool
    by (destruct company; reflexivity).
  destruct (contains (lower person) (News.content_of article));
    destruct (truthy company && contains (lower company) (News.content_of article))%bool;
    destruct (News.days_ago today article);
    destruct (existsb _ News.credible_sources); lia.
Qed.

Lemma recency_same_date (today : Z) (a1 a2 : News.Article) :
  News.published_at a1 = News.published_at a2 ->
  Spec.recency_points today a1 = Spec.recency_points today a2.
Proof.
  intro Hdate. unfold Spec.recency_points, News.days_ago. rewrite Hdate. reflexivity.
Qed.

(** C2.  The relevance score that the scorer returns is a non-negative
    integer (and it returns one whenever the source of the item is a
    string); between two items that a query scores alike but for the
    positive keywords of their text, the one with at least as many distinct
    positive keywords scores at least as much. *)
Theorem relevance_score_nonneg_monotone (today : Z) (person organization : string)
    (a1 a2 : News.Article) :
  match News.calculate_relevance_score today a1 person organization with
  | Some score => 0 <= score
  | None => News.source a1 = None
  end
  /\ (Spec.all_else_equal person organization a1 a2 ->
      (List.length (Spec.matched_keywords (News.content_of a1))
       <= List.length (Spec.matched_keywords (News.content_of a2)))%nat ->
      Spec.score_le
        (News.calculate_relevance_score today a1 person organization)
        (News.calculate_relevance_score today a2 person organization)).
Proof.
  rewrite !score_terms. split.
  - destruct (News.source a1); [lia | reflexivity].
  - intros (Hsource & Hdate & Hperson & Horg & Hneg) Hkeywords.
    rewrite <- Hsource. destruct (News.source a1) as [source_text |]; simpl; [| exact I].
    rewrite (recency_same_date today a1 a2 Hdate).
    unfold Spec.person_points, Spec.organization_points, Spec.keyword_points.
    rewrite Hperson, Horg, Hneg. lia.
Qed.

Lemma relevance_score_nonneg_monotone_witness :
  Spec.score_le
    (News.calculate_relevance_score Examples.evaluation_day Examples.one_keyword_item
       "Jane Doe" "Acme Corp")
    (News.calculate_relevance_score Examples.evaluation_day Examples.two_keyword_item
       "Jane Doe" "Acme Corp").
Proof.
  apply (proj2 (relevance_score_nonneg_monotone Examples.evaluation_day
                  "Jane Doe" "Acme Corp"
                  Examples.one_keyword_item Examples.two_keyword_item)).
  - vm_compute. repeat split.
  - vm_compute. repeat constructor.
Defined.

Lemma map_chars_app (f : ascii -> ascii) (s t : string) :
  map_chars f (s ++ t) = (map_chars f s ++ map_chars f t)%string.
Proof. induction s as [| c s IH]; simpl; [reflexivity | rewrite IH; reflexivity]. Qed.

Lemma startswith_app (p s t : string) :
  startswith p s = true -> startswith p (s ++ t) = true.
Proof.
  revert s. induction p as [| a p IH]; intros s; [reflexivity |].
  destruct s as [| b s]; simpl; [discriminate |].
  intro Hp. apply andb_true_iff in Hp as [Hab Hp].
  rewrite Hab, (IH _ Hp). reflexivity.
Qed.

Lemma contains_app (sub s t : string) :
  contains sub s = true -> contains sub (s ++ t) = true.
Proof.
  induction s as [| c s IH].
  - simpl. rewrite orb_false_r. intro Hp.
    destruct sub; [destruct t; reflexivity | discriminate].
  - cbn [contains]. change ((String c s ++ t)%string) with (String c (s ++ t)).
    cbn [contains]. intro Hs. apply orb_true_iff in Hs as [Hp | Hs].
    + change (String c (s ++ t)) with ((String c s ++ t)%string).
      rewrite (startswith_app _ _ _ Hp). reflexivity.
    + rewrite (IH Hs). apply orb_true_r.
Qed.

Lemma two_in_list (x y : string) (l : list string) :
  In x l -> In y l -> x <> y -> (2 <= List.length l)%nat.
Proof.
  intros Hx Hy Hne. destruct l as [| a [| b l]]; simpl in *; [tauto | | lia].
  destruct Hx as [-> | []], Hy as [-> | []]. congruence.
Qed.

(** The title of the scenario brings the keywords [announces] and [ceo]. *)
Lemma acme_title_keywords (article : News.Article) :
  News.title article = Some "Acme announces new CEO" ->
  (2 <= List.length (Spec.matched_keywords (News.content_of article)))%nat.
Proof.
  intro Htitle.
  assert (Hin : forall keyword,
             contains keyword "acme announces new ceo" = true ->
             contains keyword (News.content_of article) = true).
  { intros keyword Hk. unfold News.content_of, lower. rewrite Htitle. simpl fmt.
    rewrite map_chars_app. apply contains_app. exact Hk. }
  apply (two_in_list "announces" "ceo"); [| | discriminate];
    apply filter_In; (split; [simpl; tauto | apply Hin; reflexivity]).
Qed.

Lemma matched_negative_bound (content : string) :
  (List.length (Spec.matched_negative content) <= 4)%nat.
Proof.
  unfold Spec.matched_negative.
  change 4%nat with (List.length News.negative_keywords).
  generalize News.negative_keywords. intro l.
  induction l as [| k l IH]; simpl; [lia |].
  destruct (contains k content); simpl; lia.
Qed.

(** C8, as stated, fails: the title [Acme announces new CEO] does not
    contain the organization [Acme Corp]; with nothing else in the text the
    item scores 20 for recency and 2 for each of its two keywords, 24 and
    not 44. *)
Lemma acme_item_without_organization_points :
  News.title Examples.acme_item = Some "Acme announces new CEO"
  /\ News.days_ago Examples.evaluation_day Examples.acme_item = Some 0
  /\ contains (lower "Jane Doe") (News.content_of Examples.acme_item) = false
  /\ News.calculate_relevance_score Examples.evaluation_day Examples.acme_item
       "Jane Doe" "Acme Corp" = Some 24
  /\ 20 + 20
     + 2 * Z.of_nat (List.length (Spec.matched_keywords (News.content_of Examples.acme_item)))
     = 44.
Proof. vm_compute. repeat split. Qed.

(** C8, amended.  For an item titled [Acme announces new CEO], published
    on the evaluation day, from a source that is a string, the queried
    organization being [Acme Corp] and the person's name absent from the
    text, the score is 20 for recency, plus 2 for every positive keyword
    matched (at least [announces] and [ceo]) less 5 for every negative one,
    plus 10 for a credible source, plus 20 for the organization only when
    the text contains [acme corp], which the title alone does not; an item
    that differs by containing the person's name scores exactly 30 more,
    so strictly more. *)
Theorem acme_announcement_score (today : Z) (person source_text : string)
    (article with_person : News.Article) :
  News.title article = Some "Acme announces new CEO" ->
  News.source article = Some source_text ->
  News.days_ago today article = Some 0 ->
  Spec.differs_by_person person "Acme Corp" article with_person ->
  let score :=
    (if contains "acme corp" (News.content_of article) then 20 else 0)
    + 20
    + Spec.credibility_points source_text
    + Spec.keyword_points (News.content_of article) in
  News.calculate_relevance_score today article person "Acme Corp" = Some score
  /\ News.calculate_relevance_score today with_person person "Acme Corp"
     = Some (score + 30)
  /\ score < score + 30
  /\ (2 <= List.length (Spec.matched_keywords (News.content_of article)))%nat
  /\ contains "acme corp" (lower "Acme announces new CEO") = false.
Proof.
  intros Htitle Hsource Htoday (Hsource' & Hdate & Habsent & Hpresent & Horg & Hkw & Hneg) score.
  pose proof (acme_title_keywords article Htitle) as Htwo.
  pose proof (matched_negative_bound (News.content_of article)) as Hfour.
  assert (Hcred : 0 <= Spec.credibility_points source_text)
    by (unfold Spec.credibility_points; destruct (existsb _ _); lia).
  assert (Hscore : 0 <= score).
  { subst score. unfold Spec.keyword_points.
    destruct (contains "acme corp" (News.content_of article)); lia. }
  rewrite !score_terms, Hsource', Hsource.
  rewrite (recency_same_date today with_person article Hdate).
  unfold Spec.recency_points. rewrite Htoday.
  unfold Spec.person_points, Spec.organization_points, Spec.keyword_points in *.
  rewrite Habsent, Hpresent, Horg, Hkw, Hneg.
  change (lower "Acme Corp") with "acme corp". change (truthy "Acme Corp") with true.
  cbn [andb]. subst score.
  repeat split; try (f_equal; lia); try lia; exact Htwo.
Qed.

Lemma acme_announcement_score_witness :
  News.calculate_relevance_score Examples.evaluation_day Examples.acme_item
    "Jane Doe" "Acme Corp" = Some 24
  /\ News.calculate_relevance_score Examples.evaluation_day Examples.acme_item_with_person
       "Jane Doe" "Acme Corp" = Some 54.
Proof.
  destruct (acme_announcement_score Examples.evaluation_day "Jane Doe" "Example Times"
              Examples.acme_item Examples.acme_item_with_person)
    as (Hwithout & Hwith & _).
  - reflexivity.
  - reflexivity.
  - vm_compute. reflexivity.
  - vm_compute. repeat split.
  - rewrite Hwithout, Hwith. vm_compute. split; reflexivity.
Defined.

End RelevanceScore.

(** ** The fallback of [scrape_profile] *)

Lemma split_skip_length (sep : string) (skip : nat) (acc s : string) :
  1 <= List.length (split_skip sep skip acc s).
Proof.
  revert skip acc. induction s as [| c s IH]; intros skip acc; simpl; [lia |].
  destruct skip as [| k]; [| apply IH].
  destruct (startswith sep (String c s)); [simpl; lia | apply IH].
Qed.

(** A text that contains the separator splits in two parts at least. *)
Lemma split_contains (sep s : string) :
  sep <> "" -> contains sep s = true -> 2 <= List.length (split sep s).
Proof.
  intros Hsep. unfold split. generalize "" as acc.
  induction s as [| c s IH]; intros acc Hin.
  - destruct sep; [congruence | discriminate].
  - cbn [contains] in Hin. cbn [split_skip].
    destruct (startswith sep (String c s)).
    + pose proof (split_skip_length sep (length sep - 1) "" s). simpl. lia.
    + simpl in Hin. apply IH, Hin.
Qed.









(** ** Requests to the primary search backend *)
Section GoogleRequests.
Context {W : Type} `{World W}.

Lemma off_google_ret {A : Type} (a : A) : Spec.off_google (W := W) (ret a).
Proof. intro st. reflexivity. Qed.

Lemma off_google_lift {A : Type} (o : option A) : Spec.off_google (W := W) (lift o).
Proof. intro st. reflexivity. Qed.

Lemma off_google_bind {A B : Type} (c : M W A) (k : A -> M W B) :
  Spec.off_google c -> (forall a, Spec.off_google (k a)) -> Spec.off_google (bind c k).
Proof.
  intros Hc Hk st. unfold bind. specialize (Hc st).
  destruct (c st) as [[a |] st']; simpl in *; [| exact Hc].
  rewrite (Hk a st'). exact Hc.
Qed.

Lemma off_google_try {A : Type} (c handler : M W A) :
  Spec.off_google c -> Spec.off_google handler -> Spec.off_google (try_except c handler).
Proof.
  intros Hc Hh st. unfold try_except. specialize (Hc st).
  destruct (c st) as [[a |] st']; simpl in *; [exact Hc |].
  rewrite (Hh st'). exact Hc.
Qed.

Lemma off_google_request (r : Request) :
  Scraper.to_google r = false -> Spec.off_google (request r).
Proof.
  intros Hr st. unfold request, Spec.google_requests.
  destruct (respond r (world st)) as [answer w]. simpl.
  rewrite filter_app. simpl. rewrite Hr. apply app_nil_r.
Qed.

Lemma off_google_test_linkedin_url (url : string) :
  Spec.off_google (Scraper.test_linkedin_url url).
Proof.
  apply off_google_try; [| apply off_google_ret].
  apply off_google_bind; [apply off_google_request; reflexivity |].
  intro response. apply off_google_ret.
Qed.

Lemma off_google_first_accessible (urls : list string) :
  Spec.off_google (Scraper.first_accessible urls).
Proof.
  induction urls as [| url urls IH]; [apply off_google_ret |].
  apply off_google_bind; [apply off_google_test_linkedin_url |].
  intros []; [apply off_google_ret | exact IH].
Qed.

Lemma off_google_construct (person_name company_name : string) :
  Spec.off_google (Scraper.construct_linkedin_url person_name company_name).
Proof.
  apply off_google_try; [| apply off_google_ret].
  destruct (Scraper.constructed_urls person_name);
    [apply off_google_first_accessible | apply off_google_ret].
Qed.

Lemma off_google_duckduckgo_attempts (search_terms : list string) :
  Spec.off_google (Scraper.duckduckgo_attempts search_terms).
Proof.
  induction search_terms as [| term terms IH]; [apply off_google_ret |].
  apply off_google_bind; [apply off_google_request; reflexivity |].
  intro response. cbv beta.
  destruct (Nat.eqb (status_code response) 200); [| exact IH].
  apply off_google_bind; [apply off_google_lift |].
  intros [clean_url |]; [apply off_google_ret |].
  apply off_google_bind; [apply off_google_lift |].
  intros [clean_url |]; [apply off_google_ret | exact IH].
Qed.

Lemma off_google_duckduckgo (person_name company_name : string) :
  Spec.off_google (Scraper.duckduckgo_search_linkedin person_name company_name).
Proof.
  apply off_google_try; [apply off_google_duckduckgo_attempts | apply off_google_ret].
Qed.

(** What follows the primary search in [search_linkedin_profile] sends
    nothing to the primary backend. *)
Lemma off_google_fallbacks (person_name company_name : string) :
  Spec.off_google
    (bind (Scraper.duckduckgo_search_linkedin person_name company_name)
       (fun duckduckgo_result =>
          if Scraper.truthy_opt duckduckgo_result then ret duckduckgo_result
          else
            bind (Scraper.construct_linkedin_url person_name company_name)
              (fun constructed_url =>
                 match constructed_url with
                 | Some url =>
                     if truthy url then
                       bind (Scraper.test_linkedin_url url)
                         (fun test_result =>
                            if test_result then ret (Some url) else ret None)
                     else ret None
                 | None => ret None
                 end))).
Proof.
  apply off_google_bind; [apply off_google_duckduckgo |].
  intro result. destruct (Scraper.truthy_opt result); [apply off_google_ret |].
  apply off_google_bind; [apply off_google_construct |].
  intros [url |]; [| apply off_google_ret].
  destruct (truthy url); [| apply off_google_ret].
  apply off_google_bind; [apply off_google_test_linkedin_url |].
  intros []; apply off_google_ret.
Qed.

End GoogleRequests.

(** On a rate limit [google_search_linkedin] stops after its first request
    and returns the empty list, as it does when nothing is found. *)
Lemma google_search_rate_limited (w : Examples.FixedWorld) (query : string)
    (st : State Examples.FixedWorld) :
  Spec.google_rate_limits w ->
  world st = w ->
  Scraper.google_search_linkedin query st
  = (Some [], {| world := w; log := (log st ++ [Get (Spec.first_search_url query)])%list |}).
Proof.
  intros Hlimit Hworld.
  destruct (Hlimit (Spec.first_search_url query) eq_refl) as [page Hanswer].
  unfold Scraper.google_search_linkedin, try_except, bind.
  cbn [Scraper.google_attempts]. unfold bind, request.
  cbn [respond Examples.FixedWorld_World]. rewrite Hworld.
  fold (Spec.first_search_url query). rewrite Hanswer. reflexivity.
Qed.

(** The caller cannot tell the rate limit from an empty result, and goes
    on with every remaining query variant. *)
Lemma search_attempts_rate_limited (w : Examples.FixedWorld) (person_name : string)
    (search_queries : list string) (st : State Examples.FixedWorld) :
  Spec.google_rate_limits w ->
  world st = w ->
  Scraper.search_attempts person_name search_queries st
  = (Some None,
     {| world := w;
        log := (log st ++ map (fun q => Get (Spec.first_search_url q)) search_queries)%list |}).
Proof.
  intros Hlimit. revert st.
  induction search_queries as [| q qs IH]; intros st Hworld.
  - simpl. rewrite app_nil_r. destruct st as [w0 l]. simpl in *. subst. reflexivity.
  - cbn [Scraper.search_attempts]. unfold bind at 1.
    rewrite (google_search_rate_limited w q st Hlimit Hworld).
    rewrite IH by reflexivity. cbn [log map]. rewrite <- app_assoc. reflexivity.
Qed.

Lemma first_search_url_to_google (search_queries : list string) :
  filter Scraper.to_google (map (fun q => Get (Spec.first_search_url q)) search_queries)
  = map (fun q => Get (Spec.first_search_url q)) search_queries.
Proof.
  induction search_queries as [| q qs IH]; [reflexivity |].
  cbn [map filter]. change (Scraper.to_google (Get (Spec.first_search_url q))) with true.
  cbv iota. rewrite IH. reflexivity.
Qed.

Lemma google_requests_try_bind {W A B : Type} (c : M W A) (k : A -> M W B)
    (handler : M W B) (st st1 : State W) (a : A) :
  c st = (Some a, st1) ->
  Spec.off_google (k a) ->
  Spec.off_google handler ->
  Spec.google_requests (snd (try_except (bind c k) handler st))
  = Spec.google_requests st1.
Proof.
  intros Hc Hk Hh. unfold try_except, bind. rewrite Hc.
  specialize (Hk st1). destruct (k a st1) as [[b |] st2]; simpl in *; [exact Hk |].
  rewrite (Hh st2). exact Hk.
Qed.

(** In a world whose primary backend rate-limits every request, the
    resolution of a name that is not in the manual database sends that
    backend one request for every query variant. *)
Lemma rate_limited_resolution (w : Examples.FixedWorld) (person_name company_name : string) :
  Spec.google_rate_limits w ->
  Scraper.check_manual_database person_name company_name = None ->
  Spec.google_requests (snd (run (Scraper.search_linkedin_profile person_name company_name) w))
  = map (fun q => Get (Spec.first_search_url q))
        (Scraper.search_queries_for person_name company_name).
Proof.
  intros Hlimit Hmanual.
  unfold run, Scraper.search_linkedin_profile. cbv zeta. rewrite Hmanual.
  cbn [Scraper.truthy_opt].
  erewrite google_requests_try_bind; cycle 1.
  - rewrite (search_attempts_rate_limited w person_name _
               {| world := w; log := [] |} Hlimit eq_refl).
    cbn [log app]. reflexivity.
  - apply off_google_fallbacks.
  - apply off_google_ret.
  - unfold Spec.google_requests. cbn [log]. apply first_search_url_to_google.
Qed.

(** C9, on the code.  The primary backend answers 429 to the first request
    of the resolution of [Jane Doe] at [Acme Corp]; the resolution then
    sends it two more requests, one for each remaining query variant. *)
Theorem rate_limit_keeps_querying :
  Examples.answer Examples.rate_limited
    (Get "https://www.google.com/search?q=%22Jane%20Doe%22%20site%3Alinkedin.com/in/&num=10")
  = Some {| status_code := 429; content := Examples.empty_page |}
  /\ Spec.google_requests
       (snd (run (Scraper.search_linkedin_profile "Jane Doe" "Acme Corp")
                 Examples.rate_limited))
     = [ Get "https://www.google.com/search?q=%22Jane%20Doe%22%20site%3Alinkedin.com/in/&num=10";
         Get "https://www.google.com/search?q=%22Jane%20Doe%22%20site%3Alinkedin.com/in/%20%22Acme%20Corp%22&num=10";
         Get "https://www.google.com/search?q=%22Jane%20Doe%22%20linkedin%20profile&num=10" ].
Proof.
  split; [reflexivity |].
  rewrite rate_limited_resolution.
  - vm_compute. reflexivity.
  - intros url Hgoogle. exists Examples.empty_page.
    unfold Examples.rate_limited. cbn [Examples.answer Scraper.to_google].
    rewrite Hgoogle. reflexivity.
  - vm_compute. reflexivity.
Qed.

(** * Further properties of the code *)

(** ** Profile URLs and their validation *)

Lemma pattern_char_plain (c : ascii) :
  Scraper.pattern_char c = true ->
  forallb (fun d => negb (Ascii.eqb c d))
          ["009"; "010"; "013"; "#"; "?"; ";"; "["; "]"; "/"]%char = true.
Proof.
  destruct c as [[] [] [] [] [] [] [] []]; vm_compute; intro Hc;
    (reflexivity || discriminate Hc).
Qed.

Lemma username_char_pattern (c : ascii) :
  Scraper.username_char c = true -> Scraper.pattern_char c = true.
Proof.
  unfold Scraper.username_char, Scraper.pattern_char. simpl.
  destruct (isalnum c); simpl; [reflexivity |].
  destruct (Ascii.eqb c "-"); simpl; [reflexivity |].
  destruct (Ascii.eqb c "_"); simpl; [| discriminate].
  intros _. apply orb_true_r.
Qed.

Lemma pattern_chars_none_of (cs : list ascii) (w : string) :
  incl cs ["009"; "010"; "013"; "#"; "?"; ";"; "["; "]"; "/"]%char ->
  forall_chars Scraper.pattern_char w = true ->
  forall_chars (fun c => negb (existsb (Ascii.eqb c) cs)) w = true.
Proof.
  intros Hincl. apply forall_chars_weaken. intros c Hc.
  pose proof (pattern_char_plain c Hc) as Hall. rewrite forallb_forall in Hall.
  apply negb_true_iff.
  destruct (existsb (Ascii.eqb c) cs) eqn:Hex; [| reflexivity].
  apply existsb_exists in Hex as (d & Hd & Hcd).
  specialize (Hall d (Hincl d Hd)). rewrite Hcd in Hall. discriminate.
Qed.

Lemma first_of_none (cs : list ascii) (s : string) :
  forall_chars (fun c => negb (existsb (Ascii.eqb c) cs)) s = true ->
  first_of cs s = length s.
Proof.
  induction s as [| c s IH]; simpl; [reflexivity |].
  intro Hs. apply andb_true_iff in Hs as [Hc Hs].
  apply negb_true_iff in Hc. rewrite Hc, (IH Hs). reflexivity.
Qed.

Lemma substring_all (s : string) : substring 0 (length s) s = s.
Proof. induction s as [| c s IH]; simpl; [reflexivity | rewrite IH; reflexivity]. Qed.

Lemma before_none (cs : list ascii) (s : string) :
  forall_chars (fun c => negb (existsb (Ascii.eqb c) cs)) s = true ->
  before cs s = s.
Proof. intro Hs. unfold before. rewrite (first_of_none _ _ Hs). apply substring_all. Qed.

Lemma contains_char_none (ch : ascii) (s : string) :
  forall_chars (fun c => negb (existsb (Ascii.eqb c) [ch])) s = true ->
  contains (String ch "") s = false.
Proof.
  induction s as [| c s IH]; simpl; [reflexivity |].
  intro Hs. apply andb_true_iff in Hs as [Hc Hs].
  rewrite orb_false_r in Hc. apply negb_true_iff in Hc.
  rewrite Ascii.eqb_sym, Hc, (IH Hs). reflexivity.
Qed.

(** What [urlparse] reads in a profile URL. *)
Lemma urlparse_profile_url (w : string) :
  forall_chars Scraper.pattern_char w = true ->
  urlparse ("https://www.linkedin.com/in/" ++ w ++ "/")
  = Some ("www.linkedin.com", "/in/" ++ w ++ "/").
Proof.
  intro Hw.
  assert (Hfree : forall cs,
             incl cs ["009"; "010"; "013"; "#"; "?"; ";"; "["; "]"]%char ->
             forall prefix,
               forall_chars (fun c => negb (existsb (Ascii.eqb c) cs)) prefix = true ->
               forall_chars (fun c => negb (existsb (Ascii.eqb c) cs))
                 (prefix ++ w ++ "/") = true).
  { intros cs Hincl prefix Hprefix.
    rewrite !forall_chars_app, Hprefix, (pattern_chars_none_of cs w); [| | exact Hw].
    - simpl. rewrite andb_true_r. apply negb_true_iff.
      destruct (existsb (Ascii.eqb "/") cs) eqn:Hex; [| reflexivity].
      apply existsb_exists in Hex as (d & Hd & Hcd).
      apply Ascii.eqb_eq in Hcd. subst d. apply Hincl in Hd.
      simpl in Hd. intuition discriminate.
    - intros d Hd. apply Hincl in Hd. simpl in Hd |- *. intuition. }
  unfold urlparse.
  change (lstrip_by (fun c => Nat.leb (code c) 32)
            ("https://www.linkedin.com/in/" ++ w ++ "/"))
    with ("https://www.linkedin.com/in/" ++ w ++ "/").
  rewrite (filter_chars_id _ ("https://www.linkedin.com/in/" ++ w ++ "/"))
    by (apply (Hfree ["009"; "013"; "010"]%char);
        [intros d Hd; simpl in Hd |- *; intuition | reflexivity]).
  change (find ":" ("https://www.linkedin.com/in/" ++ w ++ "/") 0) with (Some 5).
  cbv beta iota zeta.
  change (startswith_alpha ("https://www.linkedin.com/in/" ++ w ++ "/")
          && forall_chars scheme_char
               (substring 0 5 ("https://www.linkedin.com/in/" ++ w ++ "/")))%bool
    with true.
  cbv beta iota. cbn [fst snd].
  change (lower (substring 0 5 ("https://www.linkedin.com/in/" ++ w ++ "/")))
    with "https".
  change (drop 6 ("https://www.linkedin.com/in/" ++ w ++ "/"))
    with ("//www.linkedin.com/in/" ++ w ++ "/").
  change (startswith "//" ("//www.linkedin.com/in/" ++ w ++ "/")) with true.
  cbv beta iota. cbn [fst snd].
  change (before ["/"; "?"; "#"]%char (drop 2 ("//www.linkedin.com/in/" ++ w ++ "/")))
    with "www.linkedin.com".
  change (after ["/"; "?"; "#"]%char (drop 2 ("//www.linkedin.com/in/" ++ w ++ "/")))
    with ("/in/" ++ w ++ "/").
  rewrite (before_none ["#"; "?"]%char ("/in/" ++ w ++ "/"))
    by (apply (Hfree ["#"; "?"]%char);
        [intros d Hd; simpl in Hd |- *; intuition | reflexivity]).
  rewrite (contains_char_none ";" ("/in/" ++ w ++ "/"))
    by (apply (Hfree [";"]%char);
        [intros d Hd; simpl in Hd |- *; intuition | reflexivity]).
  rewrite andb_false_r. reflexivity.
Qed.

Lemma profile_url_valid (u : string) :
  Spec.profile_url u -> Scraper.validate_linkedin_url u = Some true.
Proof.
  intros (w & -> & Hw). unfold Scraper.validate_linkedin_url.
  rewrite (urlparse_profile_url w Hw). reflexivity.
Qed.

Lemma canonical_profile_url (u : string) : Spec.canonical u -> Spec.profile_url u.
Proof.
  intros (w & -> & Hw & _). exists w. split; [reflexivity |].
  revert Hw. apply forall_chars_weaken, username_char_pattern.
Qed.

Lemma clean_result_valid (x : option string) (u : string) :
  Scraper._clean_linkedin_url x = Some u ->
  Spec.canonical u /\ Scraper.validate_linkedin_url u = Some true.
Proof.
  intro Hclean. apply clean_shape in Hclean.
  split; [exact Hclean | apply profile_url_valid, canonical_profile_url, Hclean].
Qed.

(** X1.  Whatever [_clean_linkedin_url] returns is a canonical profile URL
    and passes [validate_linkedin_url], so that the test
    [clean_url and self.validate_linkedin_url(clean_url)] of the callers
    never drops a cleaned URL and never raises. *)
Theorem clean_linkedin_url_valid (x : option string) (u : string) :
  Scraper._clean_linkedin_url x = Some u ->
  Spec.canonical u /\ Scraper.validate_linkedin_url u = Some true.
Proof. apply clean_result_valid. Qed.

Lemma clean_linkedin_url_valid_witness :
  Spec.canonical "https://www.linkedin.com/in/test/"
  /\ Scraper.validate_linkedin_url "https://www.linkedin.com/in/test/" = Some true.
Proof.
  apply (clean_linkedin_url_valid (Some "https://linkedin.com/in/test%20user")).
  vm_compute. reflexivity.
Defined.

(** ** Candidate extraction *)

Lemma canonical_truthy (u : string) : Spec.canonical u -> truthy u = true.
Proof. intros (w & -> & _). reflexivity. Qed.

(** [keep_clean] keeps exactly what [_clean_linkedin_url] returns. *)
Lemma keep_clean_result (raw : string) :
  exists found : list string,
    Scraper.keep_clean raw = Some found /\ Forall Spec.canonical found.
Proof.
  unfold Scraper.keep_clean.
  destruct (Scraper._clean_linkedin_url (Some raw)) as [u |] eqn:Hclean.
  - destruct (clean_result_valid _ _ Hclean) as [Hcanonical Hvalid].
    rewrite (canonical_truthy u Hcanonical), Hvalid.
    exists [u]. split; [reflexivity | constructor; [exact Hcanonical | constructor]].
  - exists []. split; [reflexivity | constructor].
Qed.

Lemma from_link_result (href : string) :
  exists found : list string,
    Scraper.from_link href = Some found /\ Forall Spec.canonical found.
Proof.
  unfold Scraper.from_link.
  destruct (contains "/url?q=" href).
  - match goal with |- context [if contains "linkedin.com/in/" ?t then _ else _] =>
      destruct (contains "linkedin.com/in/" t); [destruct (keep_clean_result t) as (found & -> & Hfound) |]
    end.
    + exists found. split; [reflexivity | exact Hfound].
    + exists []. split; [reflexivity | constructor].
  - destruct (contains "linkedin.com/in/" href); [apply keep_clean_result |].
    exists []. split; [reflexivity | constructor].
Qed.

Lemma gather_result {A : Type} (f : A -> option (list string)) (l : list A) :
  (forall x, exists found, f x = Some found /\ Forall Spec.canonical found) ->
  exists found, Scraper.gather f l = Some found /\ Forall Spec.canonical found.
Proof.
  intro Hf. induction l as [| x l (more & Hmore & Hcanonical)].
  - exists []. split; [reflexivity | constructor].
  - destruct (Hf x) as (found & Hx & Hfound). simpl. rewrite Hx, Hmore.
    exists (found ++ more)%list. split; [reflexivity | apply Forall_app; split; assumption].
Qed.

Lemma extract_result_canonical (soup : Soup) :
  exists found : list string,
    Scraper._extract_linkedin_urls_from_soup soup = Some found
    /\ Forall Spec.canonical found.
Proof.
  unfold Scraper._extract_linkedin_urls_from_soup.
  destruct (gather_result Scraper.from_link (find_all_a_href soup) from_link_result)
    as (links & -> & Hlinks).
  destruct (gather_result Scraper.keep_clean
              (Scraper.findall_profile_urls (get_text soup)) keep_clean_result)
    as (texts & -> & Htexts).
  match goal with |- context [Scraper.gather ?f ?l] =>
    destruct (gather_result f l) as (selected & -> & Hselected)
  end.
  - intro element. destruct (contains "linkedin.com/in/" (get_href element));
      [apply keep_clean_result | exists []; split; [reflexivity | constructor]].
  - exists (links ++ texts ++ selected)%list. split; [reflexivity |].
    repeat (apply Forall_app; split); assumption.
Qed.

(** X2.  For every page, [_extract_linkedin_urls_from_soup] returns a list
    (no exception leaves it) and every URL of the list is a canonical
    profile URL. *)
Theorem extract_linkedin_urls_canonical (soup : Soup) :
  exists found : list string,
    Scraper._extract_linkedin_urls_from_soup soup = Some found
    /\ Forall Spec.canonical found.
Proof. apply extract_result_canonical. Qed.

(** ** The primary search *)

Lemma unique_incl (seen urls : list string) (u : string) :
  In u (Scraper.unique seen urls) -> In u urls /\ ~ In u seen.
Proof.
  revert seen. induction urls as [| url urls IH]; intros seen; simpl; [tauto |].
  destruct (mem url seen) eqn:Hmem.
  - intro Hin. apply IH in Hin. tauto.
  - intros [<- | Hin].
    + split; [left; reflexivity |]. intro Hseen.
      assert (mem url seen = true); [| congruence].
      apply existsb_exists. exists url. split; [exact Hseen | apply String.eqb_refl].
    + apply IH in Hin as [Hin Hnot]. split; [right; exact Hin |].
      intro Hseen. apply Hnot. right. exact Hseen.
Qed.

Lemma unique_NoDup (seen urls : list string) : NoDup (Scraper.unique seen urls).
Proof.
  revert seen. induction urls as [| url urls IH]; intros seen; simpl; [constructor |].
  destruct (mem url seen); [apply IH |].
  constructor; [| apply IH].
  intro Hin. apply unique_incl in Hin as [_ Hnot]. apply Hnot. left. reflexivity.
Qed.

Lemma firstn_NoDup {A : Type} (n : nat) (l : list A) : NoDup l -> NoDup (firstn n l).
Proof.
  revert n. induction l as [| x l IH]; intros n Hl; destruct n; simpl; try constructor.
  - inversion Hl as [| ? ? Hx Hrest]; subst. intro Hin. apply Hx.
    rewrite <- (firstn_skipn n l). apply in_or_app. left. exact Hin.
  - inversion Hl; subst. apply IH. assumption.
Qed.

Lemma firstn_In {A : Type} (n : nat) (l : list A) (x : A) :
  In x (firstn n l) -> In x l.
Proof.
  intro Hin. rewrite <- (firstn_skipn n l). apply in_or_app. left. exact Hin.
Qed.

Lemma firstn_Forall {A : Type} (P : A -> Prop) (n : nat) (l : list A) :
  Forall P l -> Forall P (firstn n l).
Proof.
  intro Hl. rewrite <- (firstn_skipn n l) in Hl. apply Forall_app in Hl. tauto.
Qed.

Section PrimarySearch.
Context {W : Type} `{World W}.

Lemma request_log (r : Request) (st : State W) :
  log (snd (request r st)) = (log st ++ [r])%list.
Proof. unfold request. destruct (respond r (world st)). reflexivity. Qed.

(** The loop over the search URLs: it sends the first [n] of them. *)
Lemma google_attempts_run (search_urls : list string) (st : State W) :
  exists (n : nat) (r : option (option (list string))) (st' : State W),
    Scraper.google_attempts search_urls st = (r, st')
    /\ log st' = (log st ++ map Get (firstn n search_urls))%list
    /\ n <= List.length search_urls
    /\ (search_urls <> [] -> 1 <= n)
    /\ match r with
       | Some (Some found) => Forall Spec.canonical found
       | _ => True
       end.
Proof.
  revert st. induction search_urls as [| url urls IH]; intro st.
  - exists 0, (Some (Some [])), st. simpl. rewrite app_nil_r.
    split; [reflexivity |]. split; [reflexivity |]. split; [lia |].
    split; [congruence | constructor].
  - cbn [Scraper.google_attempts]. unfold bind at 1.
    pose proof (request_log (Get url) st) as Hlog.
    assert (Hstop : forall (r : option (option (list string))) (st1 : State W),
               log st1 = (log st ++ [Get url])%list ->
               match r with Some (Some found) => Forall Spec.canonical found | _ => True end ->
               exists n r' st',
                 (r, st1) = (r', st')
                 /\ log st' = (log st ++ map Get (firstn n (url :: urls)))%list
                 /\ n <= List.length (url :: urls)
                 /\ (url :: urls <> [] -> 1 <= n)
                 /\ match r' with
                    | Some (Some found) => Forall Spec.canonical found
                    | _ => True
                    end).
    { intros r st1 Hst1 Hr. exists 1, r, st1. cbn [firstn map].
      split; [reflexivity |]. split; [exact Hst1 |]. split; [simpl; lia |].
      split; [lia | exact Hr]. }
    destruct (request (Get url) st) as [[response |] st1]; cbn [fst snd] in Hlog.
    + destruct (Nat.eqb (status_code response) 429); [apply Hstop; [exact Hlog | exact I] |].
      assert (Hrest : exists n r st',
                 Scraper.google_attempts urls st1 = (r, st')
                 /\ log st' = (log st ++ map Get (firstn n (url :: urls)))%list
                 /\ n <= List.length (url :: urls)
                 /\ (url :: urls <> [] -> 1 <= n)
                 /\ match r with
                    | Some (Some found) => Forall Spec.canonical found
                    | _ => True
                    end).
      { destruct (IH st1) as (n & r & st' & Hrun & Hn & Hle & _ & Hfound).
        exists (S n), r, st'. rewrite Hn, Hlog, <- app_assoc.
        cbn [firstn map app List.length].
        split; [exact Hrun |]. split; [reflexivity |]. split; [lia |].
        split; [lia | exact Hfound]. }
      destruct (negb (Nat.eqb (status_code response) 200)); [exact Hrest |].
      unfold bind, lift.
      destruct (extract_result_canonical (content response))
        as (found & -> & Hfound).
      destruct found as [| first_url more]; [exact Hrest |].
      apply Hstop; [exact Hlog | exact Hfound].
    + apply Hstop; [exact Hlog | exact I].
Qed.

Lemma google_search_run (query : string) (st : State W) :
  exists (found : list string) (st' : State W) (n : nat),
    Scraper.google_search_linkedin query st = (Some found, st')
    /\ NoDup found
    /\ List.length found <= 5
    /\ Forall Spec.canonical found
    /\ 1 <= n <= 3
    /\ log st'
       = (log st
          ++ map Get
               (firstn n
                  [ "https://www.google.com/search?q=" ++ quote query ++ "&num=10";
                    "https://www.google.com/search?q=" ++ quote query
                    ++ "&num=10&hl=en&lr=lang_en";
                    "https://www.google.com/search?q=" ++ quote query
                    ++ "&ie=utf-8&oe=utf-8" ]%string))%list.
Proof.
  unfold Scraper.google_search_linkedin, try_except, bind.
  match goal with |- context [Scraper.google_attempts ?urls st] =>
    destruct (google_attempts_run urls st)
      as (n & r & st1 & -> & Hlog & Hle & Hone & Hfound);
    destruct r as [[found |] |]
  end.
  - exists (firstn 5 (Scraper.unique [] found)), st1, n. cbn [ret].
    split; [reflexivity |]. split; [apply firstn_NoDup, unique_NoDup |].
    split; [apply firstn_le_length |].
    split.
    { apply firstn_Forall. apply Forall_forall. intros u Hu.
      apply unique_incl in Hu as [Hu _]. rewrite Forall_forall in Hfound. auto. }
    split; [| exact Hlog].
    split; [apply Hone; discriminate | simpl in Hle; lia].
  - exists [], st1, n. cbn [ret].
    split; [reflexivity |]. split; [constructor |]. split; [simpl; lia |].
    split; [constructor |]. split; [| exact Hlog].
    split; [apply Hone; discriminate | simpl in Hle; lia].
  - exists [], st1, n. cbn [ret].
    split; [reflexivity |]. split; [constructor |]. split; [simpl; lia |].
    split; [constructor |]. split; [| exact Hlog].
    split; [apply Hone; discriminate | simpl in Hle; lia].
Qed.

(** X3.  [google_search_linkedin] never raises; it returns at most five
    URLs, without duplicates, each of them a canonical profile URL; and it
    sends one, two or three requests, the first search URLs of the query in
    their order. *)
Theorem google_search_linkedin_result (query : string) (st : State W) :
  exists (found : list string) (st' : State W) (n : nat),
    Scraper.google_search_linkedin query st = (Some found, st')
    /\ NoDup found
    /\ List.length found <= 5
    /\ Forall Spec.canonical found
    /\ 1 <= n <= 3
    /\ log st'
       = (log st
          ++ map Get
               (firstn n
                  [ "https://www.google.com/search?q=" ++ quote query ++ "&num=10";
                    "https://www.google.com/search?q=" ++ quote query
                    ++ "&num=10&hl=en&lr=lang_en";
                    "https://www.google.com/search?q=" ++ quote query
                    ++ "&ie=utf-8&oe=utf-8" ]%string))%list.
Proof. apply google_search_run. Qed.

End PrimarySearch.

(** ** The manual database, continued *)

Lemma is_profile_url_sound (u : string) :
  Spec.is_profile_url u = true -> Spec.profile_url u.
Proof.
  unfold Spec.is_profile_url. intro Hu. apply String.eqb_eq in Hu.
  exists (filter_chars Scraper.pattern_char (slice 28 (length u - 1) u)).
  split; [exact Hu | apply filter_chars_forall].
Qed.

Lemma lookup_database_In (db : dict (string * string) string) (name company u : string) :
  Scraper.lookup_database db name company = Some u ->
  exists key, In (key, u) db.
Proof.
  unfold Scraper.lookup_database, dict_mem.
  destruct (dict_get Scraper.key_eqb (name, company) db) as [v |] eqn:Hexact.
  - intros [= <-]. exists (name, company).
    eapply dict_get_In; [| exact Hexact]. intros a b. apply key_eqb_eq.
  - destruct (dict_get Scraper.key_eqb (name, "") db) as [v |] eqn:Hdefault.
    + intros [= <-]. exists (name, "").
      eapply dict_get_In; [| exact Hdefault]. intros a b. apply key_eqb_eq.
    + destruct (truthy company); [| discriminate].
      rewrite partial_company_match_find.
      destruct (List.find _ db) as [[key v] |] eqn:Hfind; [| discriminate].
      intros [= <-]. exists key. apply find_some in Hfind. tauto.
Qed.

Lemma manual_database_profile_urls (person_name company_name u : string) :
  Scraper.check_manual_database person_name company_name = Some u ->
  Spec.profile_url u.
Proof.
  intro Hhit. apply lookup_database_In in Hhit as (key & Hin).
  assert (Hall : forallb (fun entry => Spec.is_profile_url (snd entry))
                   Scraper.manual_database = true) by (vm_compute; reflexivity).
  rewrite forallb_forall in Hall. apply is_profile_url_sound. exact (Hall _ Hin).
Qed.

Lemma profile_url_truthy (u : string) : Spec.profile_url u -> truthy u = true.
Proof. intros (w & -> & _). reflexivity. Qed.

(** X4.  A name found in the manual database is resolved without any
    request: [search_linkedin_profile] returns the stored URL and leaves
    the world and the log as they were; the stored URL passes
    [validate_linkedin_url]. *)
Theorem manual_hit_without_request {W : Type} `{World W}
    (person_name company_name u : string) (st : State W) :
  Scraper.check_manual_database person_name company_name = Some u ->
  Scraper.search_linkedin_profile person_name company_name st = (Some (Some u), st)
  /\ Scraper.validate_linkedin_url u = Some true.
Proof.
  intro Hhit. pose proof (manual_database_profile_urls _ _ _ Hhit) as Hurl.
  split; [| apply profile_url_valid, Hurl].
  unfold Scraper.search_linkedin_profile, try_except. cbv zeta. rewrite Hhit.
  cbn [Scraper.truthy_opt]. rewrite (profile_url_truthy u Hurl). reflexivity.
Qed.

Lemma manual_hit_without_request_witness :
  Scraper.search_linkedin_profile "Satya Nadella" "Microsoft"
    {| world := Examples.rate_limited; log := [] |}
  = (Some (Some "https://www.linkedin.com/in/satyanadella/"),
     {| world := Examples.rate_limited; log := [] |})
  /\ Scraper.validate_linkedin_url "https://www.linkedin.com/in/satyanadella/" = Some true.
Proof.
  apply manual_hit_without_request. vm_compute. reflexivity.
Defined.

(** In the manual database the entry of a name with a company holds the
    URL of the entry of the name alone. *)
Lemma manual_database_same_url :
  forallb (fun entry =>
             match dict_get Scraper.key_eqb (fst (fst entry), "") Scraper.manual_database with
             | Some u => String.eqb u (snd entry)
             | None => false
             end)
          Scraper.manual_database = true.
Proof. vm_compute. reflexivity. Qed.

Lemma lookup_manual_database_name_only (name company : string) :
  Scraper.lookup_database Scraper.manual_database name company
  = dict_get Scraper.key_eqb (name, "") Scraper.manual_database.
Proof.
  unfold Scraper.lookup_database, dict_mem.
  destruct (dict_get Scraper.key_eqb (name, company) Scraper.manual_database)
    as [u |] eqn:Hexact.
  - apply (dict_get_In Scraper.key_eqb) in Hexact; [| intros a b; apply key_eqb_eq].
    pose proof manual_database_same_url as Hall. rewrite forallb_forall in Hall.
    specialize (Hall _ Hexact). cbn [fst snd] in Hall.
    destruct (dict_get Scraper.key_eqb (name, "") Scraper.manual_database);
      [| discriminate].
    apply String.eqb_eq in Hall. congruence.
  - destruct (dict_get Scraper.key_eqb (name, "") Scraper.manual_database) eqn:Hdefault;
      [reflexivity |].
    destruct (truthy company); [| reflexivity].
    rewrite partial_company_match_find, (manual_database_no_partial _ _ Hdefault).
    reflexivity.
Qed.

(** X5.  What [check_manual_database] returns depends on the name alone,
    up to case and surrounding white space: two queries whose names have
    the same normal form get the same answer, whatever their companies
    are. *)
Theorem check_manual_database_name_only
    (person_name1 company_name1 person_name2 company_name2 : string) :
  Spec.normalize person_name1 = Spec.normalize person_name2 ->
  Scraper.check_manual_database person_name1 company_name1
  = Scraper.check_manual_database person_name2 company_name2.
Proof.
  intro Hname. unfold Scraper.check_manual_database. cbv zeta.
  rewrite !lookup_manual_database_name_only.
  fold (Spec.normalize person_name1). fold (Spec.normalize person_name2).
  rewrite Hname. reflexivity.
Qed.

Lemma check_manual_database_name_only_witness :
  Scraper.check_manual_database "  TIM Cook " "Pear"
  = Scraper.check_manual_database "tim cook" "".
Proof.
  apply check_manual_database_name_only. vm_compute. reflexivity.
Defined.

(** ** The two matchers, continued *)

Lemma startswith_app_drop (a b s : string) :
  startswith (a ++ b) s = true -> startswith b (drop (length a) s) = true.
Proof.
  revert s. induction a as [| x a IH]; intros s; [intro Hs; exact Hs |].
  destruct s as [| y s]; simpl; [discriminate |].
  intro Hs. apply andb_true_iff in Hs as [_ Hs]. apply IH, Hs.
Qed.

Lemma startswith_contains (b s : string) :
  startswith b s = true -> contains b s = true.
Proof. intro Hb. destruct s; simpl; rewrite Hb; reflexivity. Qed.

Lemma contains_drop (b : string) (n : nat) (s : string) :
  contains b (drop n s) = true -> contains b s = true.
Proof.
  revert s. induction n as [| n IH]; intros s; [intro Hb; exact Hb |].
  destruct s as [| c s]; [intro Hb; exact Hb |].
  cbn [drop]. intro Hb. cbn [contains]. rewrite (IH _ Hb). apply orb_true_r.
Qed.

(** A text that contains [a ++ b] contains [b]. *)
Lemma contains_app_right (a b s : string) :
  contains (a ++ b) s = true -> contains b s = true.
Proof.
  induction s as [| c s IH].
  - simpl. rewrite orb_false_r. intro Hs.
    apply startswith_app_drop, startswith_contains, contains_drop in Hs. exact Hs.
  - cbn [contains]. intro Hs. apply orb_true_iff in Hs as [Hs | Hs].
    + apply startswith_app_drop, startswith_contains, contains_drop in Hs. exact Hs.
    + rewrite (IH Hs). apply orb_true_r.
Qed.

Lemma last_In (l : list string) : l <> [] -> In (last l "") l.
Proof.
  induction l as [| x l IH]; [congruence |]. intros _.
  destruct l as [| y l]; [left; reflexivity |].
  right. apply IH. discriminate.
Qed.

Lemma with_nickname_In (table : dict string string) (w : string) (l : list string) :
  In w l -> In w (flat_map (Scraper.with_nickname table) l).
Proof.
  intro Hin. apply in_flat_map. exists w. split; [exact Hin |].
  unfold Scraper.with_nickname. destruct (Scraper.nickname table w); left; reflexivity.
Qed.

(** X6.  [url_matches_person_name] is decided by its first test alone: a
    URL is accepted exactly when it has the marker [/in/] and its username
    contains, in lower case, one of the words of the name longer than one
    character or the nickname of one.  The name patterns of its second
    test never accept a URL that the first has not accepted. *)
Theorem url_matches_person_name_words (linkedin_url person_name : string) :
  Scraper.url_matches_person_name linkedin_url person_name
  = contains "/in/" linkedin_url
    && existsb
         (fun word =>
            contains word
              (lower (nth 0 (split "?" (nth 0 (split "/" (nth 1 (split "/in/" linkedin_url) "")) "")) "")))
         (flat_map (Scraper.with_nickname Scraper.matcher_nickname_map)
            (map lower
               (filter (fun word => Nat.ltb 1 (length word)) (split_ws person_name)))).
Proof.
  unfold Scraper.url_matches_person_name.
  destruct (contains "/in/" linkedin_url); [| reflexivity]. cbv zeta. cbn [andb].
  set (username_lower := lower _).
  set (name_words := map lower _).
  destruct (existsb (fun word => contains word username_lower) _) eqn:Hwords;
    [reflexivity |].
  destruct (Nat.leb_spec 2 (List.length name_words)) as [Hlen | _]; [| reflexivity].
  assert (Hlast : contains (last name_words "") username_lower = false).
  { destruct (contains (last name_words "") username_lower) eqn:Hin; [| reflexivity].
    assert (existsb (fun word => contains word username_lower)
              (flat_map (Scraper.with_nickname Scraper.matcher_nickname_map) name_words)
            = true); [| congruence].
    apply existsb_exists. exists (last name_words ""). split; [| exact Hin].
    apply with_nickname_In, last_In. destruct name_words; [simpl in Hlen; lia | discriminate]. }
  apply not_true_is_false. intro Hpattern.
  apply existsb_exists in Hpattern as (first_var & _ & Hvariation).
  apply existsb_exists in Hvariation as (variation & Hin & Hcontained).
  assert (Hsuffix : contains (last name_words "") username_lower = true);
    [| congruence].
  cbn [In] in Hin.
  destruct Hin as [<- | [<- | [<- | [<- | [<- | []]]]]];
    repeat (apply contains_app_right in Hcontained); exact Hcontained.
Qed.

Lemma filter_all {A : Type} (f : A -> bool) (l : list A) :
  forallb f l = true -> filter f l = l.
Proof.
  induction l as [| x l IH]; simpl; [reflexivity |].
  intro Hl. apply andb_true_iff in Hl as [Hx Hl]. rewrite Hx, (IH Hl). reflexivity.
Qed.

Lemma split_ws_acc_nil (acc s : string) :
  split_ws_acc acc s = [] -> acc = "" /\ forall_chars isspace s = true.
Proof.
  revert acc. induction s as [| c s IH]; intros acc; simpl.
  - destruct acc; [auto | discriminate].
  - destruct (isspace c).
    + destruct (truthy acc) eqn:Hacc; [discriminate |].
      intro Hs. apply IH in Hs as [_ Hs]. destruct acc; [auto | discriminate].
    + intro Hs. apply IH in Hs as [Hacc _]. destruct acc; discriminate.
Qed.

Lemma lstrip_by_head (p : ascii -> bool) (s : string) :
  match lstrip_by p s with
  | EmptyString => True
  | String c _ => p c = false
  end.
Proof.
  induction s as [| c s IH]; simpl; [exact I |].
  destruct (p c) eqn:Hc; [exact IH | exact Hc].
Qed.

Lemma rstrip_by_head (p : ascii -> bool) (s : string) (c : ascii) (r : string) :
  rstrip_by p s = String c r -> exists r', s = String c r'.
Proof.
  destruct s as [| d s]; simpl; [discriminate |].
  destruct (p d && negb (truthy (rstrip_by p s))); [discriminate |].
  intros [= -> _]. exists s. reflexivity.
Qed.

(** A normalized name that is not empty has a word. *)
Lemma normalize_words (s : string) :
  Spec.normalize s <> "" -> split_ws (Spec.normalize s) <> [].
Proof.
  unfold Spec.normalize, strip. intros Hne Hwords.
  apply split_ws_acc_nil in Hwords as [_ Hspaces].
  destruct (rstrip_by isspace (lstrip_by isspace (lower s))) as [| c r] eqn:Hstrip;
    [congruence |].
  apply rstrip_by_head in Hstrip as (r' & Hhead).
  pose proof (lstrip_by_head isspace (lower s)) as Hc. rewrite Hhead in Hc.
  simpl in Hspaces. rewrite Hc in Hspaces. discriminate.
Qed.

(** X7.  [validate_profile_match] accepts a profile whose name holds every
    word of the searched name, in any order and among other words, when
    these words are longer than one character. *)
Theorem all_words_present_accepted (profile_data : Scraper.ProfileData)
    (searched_name searched_company : string) :
  Spec.normalize searched_name <> "" ->
  forallb
    (fun word =>
       Nat.ltb 1 (length word)
       && mem word (split_ws (Spec.normalize (Scraper.name profile_data))))
    (split_ws (Spec.normalize searched_name)) = true ->
  Scraper.validate_profile_match profile_data searched_name searched_company = true.
Proof.
  intros Hsearched Hall.
  pose proof (normalize_words searched_name Hsearched) as Hwords.
  unfold Scraper.validate_profile_match, Scraper.validate_profile_match_rule. cbv zeta.
  fold (Spec.normalize (Scraper.name profile_data)). fold (Spec.normalize searched_name).
  set (pn := Spec.normalize (Scraper.name profile_data)) in *.
  set (sn := Spec.normalize searched_name) in *.
  apply truthy_nonempty in Hsearched. rewrite Hsearched.
  destruct (truthy pn) eqn:Hprofile.
  - cbn [negb orb]. destruct (String.eqb pn sn); [reflexivity |].
    assert (Hword : Scraper.word_match (split_ws sn) (split_ws pn) = true).
    { apply word_match_overlap. unfold Spec.token_overlap, Spec.overlapping_tokens.
      rewrite (filter_all _ _ Hall). apply Nat.le_min_r. }
    rewrite Hword. reflexivity.
  - destruct pn; [| discriminate]. exfalso.
    destruct (split_ws sn) as [| word rest]; [congruence |].
    simpl in Hall. rewrite andb_false_r in Hall. discriminate.
Qed.

Lemma all_words_present_accepted_witness :
  Scraper.validate_profile_match Examples.acme_official "corp ACME" "" = true.
Proof.
  apply all_words_present_accepted; [discriminate | vm_compute; reflexivity].
Defined.

(** ** What the requests of a computation are *)
Section Requests.
Context {W : Type} `{World W}.

Lemma sends_ret {A : Type} (a : A) (p : Request -> Prop) :
  Spec.sends (W := W) (ret a) p 0.
Proof. intro st. exists []. simpl. rewrite app_nil_r. auto. Qed.

Lemma sends_lift {A : Type} (o : option A) (p : Request -> Prop) :
  Spec.sends (W := W) (lift o) p 0.
Proof. intro st. exists []. simpl. rewrite app_nil_r. auto. Qed.

Lemma sends_request (r : Request) (p : Request -> Prop) :
  p r -> Spec.sends (request r) p 1.
Proof.
  intros Hr st. exists [r]. rewrite request_log.
  split; [reflexivity |]. split; [constructor; [exact Hr | constructor] | simpl; lia].
Qed.

Lemma sends_bind {A B : Type} (c : M W A) (k : A -> M W B) (p : Request -> Prop)
    (n m : nat) :
  Spec.sends c p n -> (forall a, Spec.sends (k a) p m) -> Spec.sends (bind c k) p (n + m).
Proof.
  intros Hc Hk st. unfold bind. destruct (Hc st) as (sent & Hlog & Hp & Hlen).
  destruct (c st) as [[a |] st1]; cbn [snd] in *.
  - destruct (Hk a st1) as (sent' & Hlog' & Hp' & Hlen').
    exists (sent ++ sent')%list. rewrite Hlog', Hlog, app_assoc.
    split; [reflexivity |]. split; [apply Forall_app; auto | rewrite List.length_app; lia].
  - exists sent. split; [exact Hlog |]. split; [exact Hp | lia].
Qed.

Lemma sends_try {A : Type} (c handler : M W A) (p : Request -> Prop) (n m : nat) :
  Spec.sends c p n -> Spec.sends handler p m -> Spec.sends (try_except c handler) p (n + m).
Proof.
  intros Hc Hh st. unfold try_except. destruct (Hc st) as (sent & Hlog & Hp & Hlen).
  destruct (c st) as [[a |] st1]; cbn [snd] in *.
  - exists sent. split; [exact Hlog |]. split; [exact Hp | lia].
  - destruct (Hh st1) as (sent' & Hlog' & Hp' & Hlen').
    exists (sent ++ sent')%list. rewrite Hlog', Hlog, app_assoc.
    split; [reflexivity |]. split; [apply Forall_app; auto | rewrite List.length_app; lia].
Qed.

Lemma sends_weaken {A : Type} (c : M W A) (p q : Request -> Prop) (n m : nat) :
  (forall r, p r -> q r) -> n <= m -> Spec.sends c p n -> Spec.sends c q m.
Proof.
  intros Hpq Hnm Hc st. destruct (Hc st) as (sent & Hlog & Hp & Hlen).
  exists sent. split; [exact Hlog |].
  split; [eapply Forall_impl; [exact Hpq | exact Hp] | lia].
Qed.

Lemma returns_ret {A : Type} (a : A) (Q : A -> Prop) :
  Q a -> Spec.returns (W := W) (ret a) Q.
Proof. intros Ha st st' b [= <- _]. exact Ha. Qed.

Lemma returns_lift {A : Type} (o : option A) (Q : A -> Prop) :
  (forall a, o = Some a -> Q a) -> Spec.returns (W := W) (lift o) Q.
Proof. intros Ho st st' b [= -> _]. apply Ho. reflexivity. Qed.

Lemma returns_bind {A B : Type} (c : M W A) (k : A -> M W B)
    (P : A -> Prop) (Q : B -> Prop) :
  Spec.returns c P -> (forall a, P a -> Spec.returns (k a) Q) ->
  Spec.returns (bind c k) Q.
Proof.
  intros Hc Hk st st' b. unfold bind.
  destruct (c st) as [[a |] st1] eqn:Hrun; [| discriminate].
  intro Hb. exact (Hk a (Hc _ _ _ Hrun) _ _ _ Hb).
Qed.

Lemma returns_try {A : Type} (c handler : M W A) (Q : A -> Prop) :
  Spec.returns c Q -> Spec.returns handler Q -> Spec.returns (try_except c handler) Q.
Proof.
  intros Hc Hh st st' a. unfold try_except.
  destruct (c st) as [[b |] st1] eqn:Hrun.
  - intros [= <- <-]. exact (Hc _ _ _ Hrun).
  - apply Hh.
Qed.

Lemma returns_any {A : Type} (c : M W A) : Spec.returns c (fun _ => True).
Proof. intros st st' a _. exact I. Qed.

Lemma never_raises_ret {A : Type} (a : A) : Spec.never_raises (W := W) (ret a).
Proof. intro st. exists a, st. reflexivity. Qed.

Lemma never_raises_try {A : Type} (c handler : M W A) :
  Spec.never_raises handler -> Spec.never_raises (try_except c handler).
Proof.
  intros Hh st. unfold try_except. destruct (c st) as [[a |] st1].
  - exists a, st1. reflexivity.
  - apply Hh.
Qed.

Lemma never_raises_bind {A B : Type} (c : M W A) (k : A -> M W B) :
  Spec.never_raises c -> (forall a, Spec.never_raises (k a)) ->
  Spec.never_raises (bind c k).
Proof.
  intros Hc Hk st. unfold bind. destruct (Hc st) as (a & st1 & ->). apply Hk.
Qed.

End Requests.

(** ** [scrape_profile], continued *)
Section ScrapeProfile.
Context {W : Type} `{World W}.

Lemma scrape_profile_run (linkedin_url : string) (st : State W) :
  exists (r : option (option Scraper.ProfileData)) (st' : State W),
    Scraper.scrape_profile linkedin_url st = (r, st')
    /\ (log st' = log st \/ log st' = (log st ++ [SessionGet linkedin_url])%list)
    /\ (Scraper.validate_linkedin_url linkedin_url <> Some true ->
        st' = st /\ forall profile_data, r <> Some (Some profile_data))
    /\ (forall profile_data,
           r = Some (Some profile_data) -> Scraper.url profile_data = linkedin_url)
    /\ (r = None -> Scraper.validate_linkedin_url linkedin_url = None).
Proof.
  unfold Scraper.scrape_profile, bind at 1, lift.
  destruct (Scraper.validate_linkedin_url linkedin_url) as [[|] |].
  - cbn [negb]. unfold try_except, bind, request.
    destruct (respond (SessionGet linkedin_url) (world st)) as [[response |] w].
    + assert (Hmock : Scraper.url (Scraper.create_mock_profile_data linkedin_url)
                      = linkedin_url).
      { unfold Scraper.create_mock_profile_data.
        destruct (if Nat.ltb 1 _ then _ else _) as [[n t] c]. reflexivity. }
      destruct (Nat.eqb (status_code response) 999);
        [| destruct (Nat.eqb (status_code response) 429);
           [| destruct (negb (Nat.eqb (status_code response) 200));
              [| match goal with |- context [if negb (truthy ?n) then _ else _] =>
                   destruct (negb (truthy n)) end]]];
        eexists; eexists; (split; [reflexivity |]); cbn [log];
        (split; [right; reflexivity |]); (split; [congruence |]);
        (split; [| discriminate]); intros profile_data [= <-];
        (exact Hmock || reflexivity).
    + eexists; eexists; (split; [reflexivity |]); cbn [log].
      split; [right; reflexivity |]. split; [congruence |].
      split; [intros ? [=] | discriminate].
  - cbn [negb]. exists (Some None), st. split; [reflexivity |].
    split; [left; reflexivity |]. split; [intros _; split; [reflexivity | intros ? [=]] |].
    split; [intros ? [=] | discriminate].
  - exists None, st. split; [reflexivity |].
    split; [left; reflexivity |]. split; [intros _; split; [reflexivity | discriminate] |].
    split; [discriminate | reflexivity].
Qed.

(** X8.  [scrape_profile] sends one request at most, a fetch of the URL it
    was given, and none at all for a URL that [validate_linkedin_url] does
    not accept: it then returns [None] and leaves the world as it is.  A
    profile that it returns carries the URL that was asked for, and an
    exception leaves it only when the validation itself raises. *)
Theorem scrape_profile_single_request (linkedin_url : string) (st : State W) :
  exists (r : option (option Scraper.ProfileData)) (st' : State W),
    Scraper.scrape_profile linkedin_url st = (r, st')
    /\ (log st' = log st \/ log st' = (log st ++ [SessionGet linkedin_url])%list)
    /\ (Scraper.validate_linkedin_url linkedin_url <> Some true ->
        st' = st /\ forall profile_data, r <> Some (Some profile_data))
    /\ (forall profile_data,
           r = Some (Some profile_data) -> Scraper.url profile_data = linkedin_url)
    /\ (r = None -> Scraper.validate_linkedin_url linkedin_url = None).
Proof. apply scrape_profile_run. Qed.

(** X9.  For a URL that passes the validation, a fetch that raises, or is
    answered with a status other than 200 and 999 (429, 403, 404, ...),
    makes [scrape_profile] return [None]; no exception leaves it. *)
Theorem scrape_profile_failure (linkedin_url : string) (st : State W)
    (answer : option Response) (w : W) :
  Scraper.validate_linkedin_url linkedin_url = Some true ->
  respond (SessionGet linkedin_url) (world st) = (answer, w) ->
  (forall response, answer = Some response ->
     status_code response <> 200 /\ status_code response <> 999) ->
  Scraper.scrape_profile linkedin_url st
  = (Some None, {| world := w; log := (log st ++ [SessionGet linkedin_url])%list |}).
Proof.
  intros Hvalid Hrespond Hstatus.
  unfold Scraper.scrape_profile, bind, lift, try_except, request.
  rewrite Hvalid. cbn [negb]. rewrite Hrespond.
  destruct answer as [response |]; [| reflexivity].
  destruct (Hstatus response eq_refl) as [H200 H999].
  apply Nat.eqb_neq in H200, H999. rewrite H999, H200.
  destruct (Nat.eqb (status_code response) 429); reflexivity.
Qed.

End ScrapeProfile.

Lemma scrape_profile_failure_witness :
  Scraper.scrape_profile "https://www.linkedin.com/in/john-doe/"
    {| world := Examples.always 404; log := [] |}
  = (Some None,
     {| world := Examples.always 404;
        log := [SessionGet "https://www.linkedin.com/in/john-doe/"] |}).
Proof.
  apply (scrape_profile_failure "https://www.linkedin.com/in/john-doe/"
           {| world := Examples.always 404; log := [] |}
           (Some {| status_code := 404; content := Examples.empty_page |})).
  - vm_compute. reflexivity.
  - reflexivity.
  - intros response [= <-]. split; discriminate.
Defined.

Lemma scrape_profile_single_request_witness :
  snd (Scraper.scrape_profile "https://example.com/in/john-doe/"
         {| world := Examples.always 200; log := [] |})
  = {| world := Examples.always 200; log := [] |}.
Proof.
  destruct (scrape_profile_single_request "https://example.com/in/john-doe/"
              {| world := Examples.always 200; log := [] |})
    as (r & st' & Hrun & _ & Hinvalid & _).
  rewrite Hrun. apply Hinvalid. vm_compute. discriminate.
Defined.

(** ** The URL constructor *)

Lemma constructed_url_profile (pattern : string) :
  Spec.profile_url
    ("https://www.linkedin.com/in/" ++ filter_chars Scraper.pattern_char pattern ++ "/").
Proof.
  exists (filter_chars Scraper.pattern_char pattern).
  split; [reflexivity | apply filter_chars_forall].
Qed.

Lemma constructed_urls_run (person_name : string) :
  match Scraper.constructed_urls person_name with
  | None => split_ws (lower person_name) = []
  | Some urls =>
      In (List.length urls) [1; 2; 7; 14]
      /\ Forall Spec.profile_url urls
  end.
Proof.
  unfold Scraper.constructed_urls.
  destruct (split_ws (lower person_name)) as [| first_name rest]; [reflexivity |].
  cbv zeta. split.
  - rewrite length_map. unfold Scraper.with_nickname, Scraper.name_patterns.
    destruct (Scraper.nickname _ first_name);
      destruct (truthy (if Nat.ltb 1 _ then _ else _)); simpl; tauto.
  - apply Forall_forall. intros u Hu. apply in_map_iff in Hu as (pattern & <- & _).
    apply constructed_url_profile.
Qed.

Lemma split_ws_acc_truthy (acc s w : string) :
  In w (split_ws_acc acc s) -> truthy w = true.
Proof.
  revert acc. induction s as [| c s IH]; intros acc; cbn [split_ws_acc].
  - destruct (truthy acc) eqn:Hacc; [| intros []].
    intros [<- | []]. exact Hacc.
  - destruct (isspace c); [| apply IH].
    destruct (truthy acc) eqn:Hacc; [| apply IH].
    intros [<- | Hw]; [exact Hacc | exact (IH _ Hw)].
Qed.

Lemma last_member {A : Type} (l : list A) (d : A) : l <> [] -> In (last l d) l.
Proof.
  induction l as [| x l IH]; [congruence |].
  intros _. destruct l as [| y l]; [left; reflexivity |].
  right. apply IH. discriminate.
Qed.

(** X10.  For a name without words the URL constructor has nothing to
    try; otherwise it tries 1 URL for a single word and 7 for a longer
    name, and twice as many (2 or 14) when the first word has a nickname
    in its table; every one of them is a profile URL that
    [validate_linkedin_url] accepts. *)
Theorem constructed_urls_shape (person_name : string) :
  match Scraper.constructed_urls person_name with
  | None => split_ws (lower person_name) = []
  | Some urls =>
      exists (first_name : string) (others : list string),
        split_ws (lower person_name) = first_name :: others
        /\ List.length urls
           = (match others with [] => 1 | _ :: _ => 7 end)
             * (match Scraper.nickname Scraper.constructor_nickname_map first_name with
                | Some _ => 2
                | None => 1
                end)
        /\ Forall Spec.profile_url urls
        /\ Forall (fun u => Scraper.validate_linkedin_url u = Some true) urls
  end.
Proof.
  pose proof (constructed_urls_run person_name) as Hrun.
  unfold Scraper.constructed_urls in *.
  destruct (split_ws (lower person_name)) as [| first_name others] eqn:Hwords;
    [reflexivity |].
  cbv zeta in *. destruct Hrun as [_ Hurls].
  exists first_name, others. split; [reflexivity |].
  split; [| split; [exact Hurls | eapply Forall_impl; [| exact Hurls]; apply profile_url_valid]].
  rewrite length_map. unfold Scraper.with_nickname, Scraper.name_patterns.
  assert (Hlast : truthy (if Nat.ltb 1 (List.length (first_name :: others))
                          then last (first_name :: others) "" else "")
                  = match others with [] => false | _ :: _ => true end).
  { destruct others as [| second others]; [reflexivity |].
    assert (Hword : forall w, In w (first_name :: second :: others) -> truthy w = true).
    { intros w Hw. rewrite <- Hwords in Hw. exact (split_ws_acc_truthy _ _ _ Hw). }
    cbn [List.length Nat.ltb Nat.leb]. apply Hword.
    apply last_member. discriminate. }
  rewrite Hlast.
  destruct (Scraper.nickname _ first_name); destruct others; reflexivity.
Qed.

Section ConstructorProbes.
Context {W : Type} `{World W}.

Lemma test_linkedin_url_never_raises (url : string) :
  Spec.never_raises (Scraper.test_linkedin_url url).
Proof. apply never_raises_try, never_raises_ret. Qed.

Lemma test_linkedin_url_sends (url : string) (p : Request -> Prop) :
  p (Head url) -> Spec.sends (Scraper.test_linkedin_url url) p 1.
Proof.
  intro Hp. apply (sends_weaken _ p p (1 + 0 + 0) 1); [auto | lia |].
  apply sends_try; [| apply sends_ret].
  apply sends_bind; [apply sends_request, Hp | intro; apply sends_ret].
Qed.

Lemma first_accessible_sends (urls : list string) (p : Request -> Prop) :
  Forall (fun u => p (Head u)) urls ->
  Spec.sends (Scraper.first_accessible urls) p (List.length urls).
Proof.
  induction 1 as [| url urls Hurl Hurls IH]; [apply sends_ret |].
  cbn [Scraper.first_accessible List.length].
  apply (sends_weaken _ p p (1 + List.length urls)); [auto | lia |].
  apply sends_bind; [apply test_linkedin_url_sends, Hurl |].
  intros []; [| exact IH].
  apply (sends_weaken _ p p 0); [auto | lia | apply sends_ret].
Qed.

Lemma first_accessible_returns (urls : list string) :
  Spec.returns (Scraper.first_accessible urls)
    (fun r => forall u, r = Some u -> In u urls).
Proof.
  induction urls as [| url urls IH].
  - apply returns_ret. discriminate.
  - cbn [Scraper.first_accessible].
    apply (returns_bind _ _ (fun _ => True)); [apply returns_any |].
    intros [] _.
    + apply returns_ret. intros u [= <-]. left. reflexivity.
    + intros st st' r Hrun u Hu. right. exact (IH _ _ _ Hrun u Hu).
Qed.

Lemma first_accessible_never_raises (urls : list string) :
  Spec.never_raises (Scraper.first_accessible urls).
Proof.
  induction urls as [| url urls IH]; [apply never_raises_ret |].
  apply never_raises_bind; [apply test_linkedin_url_never_raises |].
  intros []; [apply never_raises_ret | exact IH].
Qed.

Lemma construct_sends (person_name company_name : string) :
  Spec.sends (Scraper.construct_linkedin_url person_name company_name)
    Spec.search_request 14.
Proof.
  apply (sends_weaken _ Spec.search_request Spec.search_request (14 + 0));
    [auto | lia |].
  apply sends_try; [| apply sends_ret].
  pose proof (constructed_urls_run person_name) as Hrun.
  destruct (Scraper.constructed_urls person_name) as [urls |];
    [| apply (sends_weaken _ Spec.search_request Spec.search_request 0);
       [auto | lia | apply sends_ret]].
  destruct Hrun as [Hlen Hurls].
  apply (sends_weaken _ Spec.search_request Spec.search_request (List.length urls));
    [auto | simpl in Hlen; lia |].
  apply first_accessible_sends. exact Hurls.
Qed.

Lemma construct_returns (person_name company_name : string) :
  Spec.returns (Scraper.construct_linkedin_url person_name company_name)
    (fun r => forall u, r = Some u -> Spec.profile_url u).
Proof.
  apply returns_try; [| apply returns_ret; discriminate].
  pose proof (constructed_urls_run person_name) as Hrun.
  destruct (Scraper.constructed_urls person_name) as [urls |];
    [| apply returns_ret; discriminate].
  destruct Hrun as [_ Hurls]. intros st st' r Hr u Hu.
  rewrite Forall_forall in Hurls. apply Hurls.
  exact (first_accessible_returns urls _ _ _ Hr u Hu).
Qed.

End ConstructorProbes.

Lemma test_linkedin_url_fixed (url : string) (st : State Examples.FixedWorld) :
  Scraper.test_linkedin_url url st
  = (Some (Spec.probe_succeeds (world st) url),
     {| world := world st; log := (log st ++ [Head url])%list |}).
Proof.
  unfold Scraper.test_linkedin_url, try_except, bind, request, Spec.probe_succeeds.
  cbn [respond Examples.FixedWorld_World].
  destruct (Examples.answer (world st) (Head url)); reflexivity.
Qed.

Lemma first_accessible_fixed (urls : list string) (st : State Examples.FixedWorld) :
  Scraper.first_accessible urls st
  = (Some (List.find (Spec.probe_succeeds (world st)) urls),
     {| world := world st;
        log := (log st
                ++ map Head (Spec.up_to_first (Spec.probe_succeeds (world st)) urls))%list |}).
Proof.
  revert st. induction urls as [| url urls IH]; intro st.
  - simpl. rewrite app_nil_r. destruct st; reflexivity.
  - cbn [Scraper.first_accessible List.find Spec.up_to_first]. unfold bind.
    rewrite test_linkedin_url_fixed.
    destruct (Spec.probe_succeeds (world st) url); [reflexivity |].
    rewrite IH. cbn [world log map]. rewrite <- app_assoc. reflexivity.
Qed.

Lemma up_to_first_length {A : Type} (p : A -> bool) (l : list A) :
  List.length (Spec.up_to_first p l) <= List.length l.
Proof.
  induction l as [| x l IH]; simpl; [lia |].
  destruct (p x); simpl; lia.
Qed.

(** X11.  In a world without state, [construct_linkedin_url] returns the
    first of the URLs it constructs whose probe succeeds (a [HEAD] request
    answered with status 200, 301 or 302), and [None] when none does; it
    probes the URLs in their order and stops at the first success: its
    requests are the probes of the URLs up to that one, all of them when no
    probe succeeds, 14 requests at most. *)
Theorem construct_linkedin_url_first_success (person_name company_name : string)
    (st : State Examples.FixedWorld) :
  let urls :=
    match Scraper.constructed_urls person_name with
    | Some urls => urls
    | None => []
    end in
  let probed := Spec.up_to_first (Spec.probe_succeeds (world st)) urls in
  Scraper.construct_linkedin_url person_name company_name st
  = (Some (List.find (Spec.probe_succeeds (world st)) urls),
     {| world := world st; log := (log st ++ map Head probed)%list |})
  /\ List.length probed <= 14.
Proof.
  cbv zeta. unfold Scraper.construct_linkedin_url, try_except.
  pose proof (constructed_urls_run person_name) as Hshape.
  destruct (Scraper.constructed_urls person_name) as [urls |].
  - rewrite first_accessible_fixed. split; [reflexivity |].
    destruct Hshape as [Hlen _].
    pose proof (up_to_first_length (Spec.probe_succeeds (world st)) urls).
    simpl in Hlen. lia.
  - simpl. rewrite app_nil_r. destruct st. split; [reflexivity | lia].
Qed.

(** ** The resolution as a whole *)

Lemma first_kept_result {A : Type} (f : A -> option (list string)) (l : list A) :
  (forall x, exists found, f x = Some found /\ Forall Spec.canonical found) ->
  exists r, Scraper.first_kept f l = Some r /\ (forall u, r = Some u -> Spec.canonical u).
Proof.
  intro Hf. induction l as [| x l (r & Hr & Hcanonical)].
  - exists None. split; [reflexivity | discriminate].
  - destruct (Hf x) as (found & Hx & Hfound). simpl. rewrite Hx.
    destruct found as [| u more].
    + exists r. split; assumption.
    + exists (Some u). split; [reflexivity |]. intros v [= <-].
      inversion Hfound. assumption.
Qed.

Lemma search_queries_for_length (person_name company_name : string) :
  List.length (Scraper.search_queries_for person_name company_name) <= 3.
Proof.
  unfold Scraper.search_queries_for.
  match goal with |- List.length (filter ?f ?l) <= 3 =>
    pose proof (filter_length_le f l) as Hle; simpl in Hle |- *; exact Hle
  end.
Qed.

Section Resolution.
Context {W : Type} `{World W}.

(** The three properties of a computation, put together for one run. *)
Lemma run_summary {A : Type} (c : M W A) (Q : A -> Prop) (p : Request -> Prop)
    (n : nat) (st : State W) :
  Spec.never_raises c -> Spec.returns c Q -> Spec.sends c p n ->
  exists (a : A) (st' : State W) (sent : list Request),
    c st = (Some a, st')
    /\ Q a
    /\ log st' = (log st ++ sent)%list
    /\ Forall p sent
    /\ List.length sent <= n.
Proof.
  intros Hsafe Hreturns Hsends.
  destruct (Hsafe st) as (a & st' & Hrun).
  destruct (Hsends st) as (sent & Hlog & Hp & Hlen). rewrite Hrun in Hlog.
  exists a, st', sent. split; [exact Hrun |]. split; [exact (Hreturns _ _ _ Hrun) |].
  split; [exact Hlog |]. split; assumption.
Qed.

Lemma sends_bind_returns {A B : Type} (c : M W A) (k : A -> M W B)
    (P : A -> Prop) (p : Request -> Prop) (n m : nat) :
  Spec.returns c P -> Spec.sends c p n -> (forall a, P a -> Spec.sends (k a) p m) ->
  Spec.sends (bind c k) p (n + m).
Proof.
  intros Hreturns Hc Hk st. unfold bind. destruct (Hc st) as (sent & Hlog & Hp & Hlen).
  destruct (c st) as [[a |] st1] eqn:Hrun; cbn [snd] in *.
  - destruct (Hk a (Hreturns _ _ _ Hrun) st1) as (sent' & Hlog' & Hp' & Hlen').
    exists (sent ++ sent')%list. rewrite Hlog', Hlog, app_assoc.
    split; [reflexivity |]. split; [apply Forall_app; auto | rewrite List.length_app; lia].
  - exists sent. split; [exact Hlog |]. split; [exact Hp | lia].
Qed.

Lemma google_search_never_raises (query : string) :
  Spec.never_raises (Scraper.google_search_linkedin query).
Proof. apply never_raises_try, never_raises_ret. Qed.

Lemma google_search_returns (query : string) :
  Spec.returns (Scraper.google_search_linkedin query) (Forall Spec.canonical).
Proof.
  intros st st' found Hrun.
  destruct (google_search_run query st) as (found' & st1 & n & Hrun' & _ & _ & Hfound & _).
  rewrite Hrun in Hrun'. injection Hrun' as -> _. exact Hfound.
Qed.

Lemma google_search_sends (query : string) :
  Spec.sends (Scraper.google_search_linkedin query) Spec.search_request 3.
Proof.
  intro st.
  destruct (google_search_run query st) as (found & st1 & n & Hrun & _ & _ & _ & Hn & Hlog).
  rewrite Hrun. cbn [snd]. eexists. split; [exact Hlog |]. split.
  - apply Forall_forall. intros r Hr. apply in_map_iff in Hr as (url & <- & Hurl).
    apply firstn_In in Hurl. left.
    cbn [In] in Hurl. destruct Hurl as [<- | [<- | [<- | []]]]; reflexivity.
  - rewrite length_map, length_firstn. lia.
Qed.

Lemma search_attempts_never_raises (person_name : string) (queries : list string) :
  Spec.never_raises (Scraper.search_attempts person_name queries).
Proof.
  induction queries as [| q queries IH]; [apply never_raises_ret |].
  apply never_raises_bind; [apply google_search_never_raises |].
  intros [| first_url more]; [exact IH |].
  destruct (List.find _ _); apply never_raises_ret.
Qed.

Lemma search_attempts_returns (person_name : string) (queries : list string) :
  Spec.returns (Scraper.search_attempts person_name queries)
    (fun r => forall u, r = Some u -> Spec.canonical u).
Proof.
  induction queries as [| q queries IH]; [apply returns_ret; discriminate |].
  cbn [Scraper.search_attempts].
  apply (returns_bind _ _ (Forall Spec.canonical)); [apply google_search_returns |].
  intros [| first_url more] Hfound; [exact IH |].
  destruct (List.find _ _) as [url |] eqn:Hfind; apply returns_ret; intros u [= <-].
  - apply find_some in Hfind as [Hin _]. apply firstn_In in Hin.
    rewrite Forall_forall in Hfound. apply Hfound, Hin.
  - inversion Hfound. assumption.
Qed.

Lemma search_attempts_sends (person_name : string) (queries : list string) :
  Spec.sends (Scraper.search_attempts person_name queries) Spec.search_request
    (3 * List.length queries).
Proof.
  induction queries as [| q queries IH]; [apply sends_ret |].
  cbn [Scraper.search_attempts].
  apply (sends_weaken _ Spec.search_request Spec.search_request
           (3 + 3 * List.length queries)); [auto | simpl; lia |].
  apply sends_bind; [apply google_search_sends |].
  intros [| first_url more]; [exact IH |].
  apply (sends_weaken _ Spec.search_request Spec.search_request 0); [auto | lia |].
  destruct (List.find _ _); apply sends_ret.
Qed.

Lemma duckduckgo_attempts_returns (terms : list string) :
  Spec.returns (Scraper.duckduckgo_attempts terms)
    (fun r => forall u, r = Some u -> Spec.canonical u).
Proof.
  induction terms as [| term terms IH]; [apply returns_ret; discriminate |].
  cbn [Scraper.duckduckgo_attempts].
  apply (returns_bind _ _ (fun _ => True)); [apply returns_any |].
  intros response _. destruct (Nat.eqb (status_code response) 200); [| exact IH].
  match goal with |- Spec.returns (bind (lift (Scraper.first_kept ?f ?l)) _) _ =>
    destruct (first_kept_result f l) as (from_links & Hlinks & Hcanonical)
  end.
  { intro href. destruct (contains "linkedin.com/in/" href);
      [apply keep_clean_result | exists []; split; [reflexivity | constructor]]. }
  apply (returns_bind _ _ (fun r => r = from_links)).
  { apply returns_lift. intros a Ha. congruence. }
  intros r ->. destruct from_links as [clean_url |]; [apply returns_ret, Hcanonical |].
  destruct (first_kept_result Scraper.keep_clean
              (Scraper.findall_profile_urls (get_text (content response)))
              keep_clean_result) as (from_text & Htext & Hcanonical').
  apply (returns_bind _ _ (fun r => r = from_text)).
  { apply returns_lift. intros a Ha. congruence. }
  intros r ->. destruct from_text as [clean_url |]; [apply returns_ret, Hcanonical' | exact IH].
Qed.

Lemma duckduckgo_attempts_sends (terms : list string) (p : Request -> Prop) :
  (forall term, p (Get ("https://duckduckgo.com/html/?q=" ++ quote term))) ->
  Spec.sends (Scraper.duckduckgo_attempts terms) p (List.length terms).
Proof.
  intro Hp. induction terms as [| term terms IH]; [apply sends_ret |].
  cbn [Scraper.duckduckgo_attempts List.length].
  apply (sends_weaken _ p p (1 + List.length terms)); [auto | lia |].
  apply sends_bind; [apply sends_request, Hp |].
  intro response. destruct (Nat.eqb (status_code response) 200); [| exact IH].
  apply (sends_weaken _ p p (0 + List.length terms)); [auto | lia |].
  apply sends_bind; [apply sends_lift |].
  intros [clean_url |];
    [apply (sends_weaken _ p p 0); [auto | lia | apply sends_ret] |].
  apply (sends_weaken _ p p (0 + List.length terms)); [auto | lia |].
  apply sends_bind; [apply sends_lift |].
  intros [clean_url |];
    [apply (sends_weaken _ p p 0); [auto | lia | apply sends_ret] | exact IH].
Qed.

Lemma duckduckgo_returns (person_name company_name : string) :
  Spec.returns (Scraper.duckduckgo_search_linkedin person_name company_name)
    (fun r => forall u, r = Some u -> Spec.canonical u).
Proof.
  apply returns_try; [apply duckduckgo_attempts_returns | apply returns_ret; discriminate].
Qed.

Lemma duckduckgo_sends (person_name company_name : string) (p : Request -> Prop) :
  (forall term, p (Get ("https://duckduckgo.com/html/?q=" ++ quote term))) ->
  Spec.sends (Scraper.duckduckgo_search_linkedin person_name company_name) p
    (if truthy company_name then 5 else 3).
Proof.
  intro Hp.
  apply (sends_weaken _ p p ((if truthy company_name then 5 else 3) + 0)); [auto | lia |].
  apply sends_try; [| apply sends_ret].
  match goal with |- Spec.sends (Scraper.duckduckgo_attempts ?terms) _ _ =>
    apply (sends_weaken _ p p (List.length terms));
      [auto | | apply duckduckgo_attempts_sends, Hp]
  end.
  rewrite List.length_app. destruct (truthy company_name); simpl; lia.
Qed.

(** X12.  [duckduckgo_search_linkedin] never raises; what it returns is
    [None] or a canonical profile URL; it sends at most three requests, or
    five when a company is given, all of them searches on DuckDuckGo. *)
Theorem duckduckgo_search_linkedin_result (person_name company_name : string)
    (st : State W) :
  exists (r : option string) (st' : State W) (sent : list Request),
    Scraper.duckduckgo_search_linkedin person_name company_name st = (Some r, st')
    /\ (forall u, r = Some u -> Spec.canonical u)
    /\ log st' = (log st ++ sent)%list
    /\ Forall (fun q => exists term,
                 q = Get ("https://duckduckgo.com/html/?q=" ++ quote term)) sent
    /\ List.length sent <= (if truthy company_name then 5 else 3).
Proof.
  apply run_summary.
  - apply never_raises_try, never_raises_ret.
  - apply duckduckgo_returns.
  - apply duckduckgo_sends. intro term. exists term. reflexivity.
Qed.

Lemma search_linkedin_profile_never_raises (person_name company_name : string) :
  Spec.never_raises (Scraper.search_linkedin_profile person_name company_name).
Proof. apply never_raises_try, never_raises_ret. Qed.

Lemma search_linkedin_profile_returns (person_name company_name : string) :
  Spec.returns (Scraper.search_linkedin_profile person_name company_name)
    (fun r => forall u, r = Some u -> Spec.profile_url u).
Proof.
  apply returns_try; [| apply returns_ret; discriminate].
  cbv zeta. destruct (Scraper.truthy_opt _).
  { apply returns_ret. intros u Hu. eapply manual_database_profile_urls, Hu. }
  eapply returns_bind; [apply search_attempts_returns |].
  intros [url |] Hurl.
  { apply returns_ret. intros u Hu. apply canonical_profile_url, Hurl, Hu. }
  eapply returns_bind; [apply duckduckgo_returns |].
  intros result Hresult. destruct (Scraper.truthy_opt result).
  { apply returns_ret. intros u Hu. apply canonical_profile_url, Hresult, Hu. }
  eapply returns_bind; [apply construct_returns |].
  intros [url |] Hconstructed; [| apply returns_ret; discriminate].
  destruct (truthy url); [| apply returns_ret; discriminate].
  eapply returns_bind; [apply returns_any |].
  intros [] _; apply returns_ret; [| discriminate].
  intros u [= <-]. apply Hconstructed. reflexivity.
Qed.

Lemma search_linkedin_profile_sends (person_name company_name : string) :
  Spec.sends (Scraper.search_linkedin_profile person_name company_name)
    Spec.search_request 29.
Proof.
  apply (sends_weaken _ Spec.search_request Spec.search_request (29 + 0)); [auto | lia |].
  apply sends_try; [| apply sends_ret].
  cbv zeta. destruct (Scraper.truthy_opt _).
  { apply (sends_weaken _ Spec.search_request Spec.search_request 0); [auto | lia |].
    apply sends_ret. }
  apply (sends_weaken _ Spec.search_request Spec.search_request (9 + 20)); [auto | lia |].
  apply sends_bind.
  { pose proof (search_queries_for_length person_name company_name).
    apply (sends_weaken _ Spec.search_request Spec.search_request
             (3 * List.length (Scraper.search_queries_for person_name company_name)) 9);
      [auto | lia | apply search_attempts_sends]. }
  intros [url |].
  { apply (sends_weaken _ Spec.search_request Spec.search_request 0); [auto | lia |].
    apply sends_ret. }
  apply (sends_weaken _ Spec.search_request Spec.search_request (5 + 15)); [auto | lia |].
  apply sends_bind.
  { apply (sends_weaken _ Spec.search_request Spec.search_request
             (if truthy company_name then 5 else 3) 5);
      [auto | destruct (truthy company_name); lia |].
    apply duckduckgo_sends. intro term. right. reflexivity. }
  intros result. destruct (Scraper.truthy_opt result).
  { apply (sends_weaken _ Spec.search_request Spec.search_request 0); [auto | lia |].
    apply sends_ret. }
  apply (sends_weaken _ Spec.search_request Spec.search_request (14 + 1)); [auto | lia |].
  eapply sends_bind_returns; [apply construct_returns | apply construct_sends |].
  intros [url |] Hurl;
    [| apply (sends_weaken _ Spec.search_request Spec.search_request 0);
       [auto | lia | apply sends_ret]].
  destruct (truthy url);
    [| apply (sends_weaken _ Spec.search_request Spec.search_request 0);
       [auto | lia | apply sends_ret]].
  apply (sends_weaken _ Spec.search_request Spec.search_request (1 + 0)); [auto | lia |].
  apply sends_bind; [apply test_linkedin_url_sends, (Hurl url eq_refl) |].
  intros []; apply sends_ret.
Qed.

(** X13.  [search_linkedin_profile] never raises; a URL that it returns is
    a profile URL, which [validate_linkedin_url] accepts; and one call
    sends 29 requests at most, each of them a search on one of the two
    backends or the probe of a profile URL. *)
Theorem search_linkedin_profile_result (person_name company_name : string)
    (st : State W) :
  exists (r : option string) (st' : State W) (sent : list Request),
    Scraper.search_linkedin_profile person_name company_name st = (Some r, st')
    /\ (forall u, r = Some u ->
          Spec.profile_url u /\ Scraper.validate_linkedin_url u = Some true)
    /\ log st' = (log st ++ sent)%list
    /\ Forall Spec.search_request sent
    /\ List.length sent <= 29.
Proof.
  apply run_summary.
  - apply search_linkedin_profile_never_raises.
  - intros st0 st1 r Hrun u Hu.
    pose proof (search_linkedin_profile_returns _ _ _ _ _ Hrun u Hu) as Hurl.
    split; [exact Hurl | apply profile_url_valid, Hurl].
  - apply search_linkedin_profile_sends.
Qed.

Lemma never_raises_bind_returns {A B : Type} (c : M W A) (k : A -> M W B)
    (P : A -> Prop) :
  Spec.never_raises c -> Spec.returns c P -> (forall a, P a -> Spec.never_raises (k a)) ->
  Spec.never_raises (bind c k).
Proof.
  intros Hc Hreturns Hk st. unfold bind. destruct (Hc st) as (a & st1 & Hrun).
  rewrite Hrun. apply Hk. exact (Hreturns _ _ _ Hrun).
Qed.

Lemma scrape_profile_never_raises (linkedin_url : string) :
  Scraper.validate_linkedin_url linkedin_url = Some true ->
  Spec.never_raises (Scraper.scrape_profile linkedin_url).
Proof.
  intros Hvalid st.
  destruct (scrape_profile_run linkedin_url st) as (r & st' & Hrun & _ & _ & _ & Hraise).
  destruct r as [r |]; [exists r, st'; exact Hrun |].
  specialize (Hraise eq_refl). congruence.
Qed.

Lemma scrape_profile_returns (linkedin_url : string) :
  Spec.returns (Scraper.scrape_profile linkedin_url)
    (fun r => forall data, r = Some data -> Scraper.url data = linkedin_url).
Proof.
  intros st st' r Hrun data ->.
  destruct (scrape_profile_run linkedin_url st) as (r' & st1 & Hrun' & _ & _ & Hurl & _).
  rewrite Hrun in Hrun'. injection Hrun' as <- _. apply Hurl. reflexivity.
Qed.

Lemma scrape_profile_sends (linkedin_url : string) (p : Request -> Prop) :
  p (SessionGet linkedin_url) -> Spec.sends (Scraper.scrape_profile linkedin_url) p 1.
Proof.
  intros Hp st.
  destruct (scrape_profile_run linkedin_url st) as (r & st' & -> & [Hlog | Hlog] & _).
  - exists []. cbn [snd]. rewrite Hlog, app_nil_r.
    split; [reflexivity |]. split; [constructor | simpl; lia].
  - exists [SessionGet linkedin_url]. cbn [snd].
    split; [exact Hlog |]. split; [constructor; [exact Hp | constructor] | simpl; lia].
Qed.

(** X14.  [scrape_profile_by_name] never raises; a profile that it returns
    has passed [validate_profile_match] for the searched name and company,
    and carries a URL that [validate_linkedin_url] accepts; one call sends
    30 requests at most: those of the search, then one fetch of the profile
    URL found. *)
Theorem scrape_profile_by_name_result (person_name company_name : string)
    (st : State W) :
  exists (r : option Scraper.ProfileData) (st' : State W) (sent : list Request),
    Scraper.scrape_profile_by_name person_name company_name st = (Some r, st')
    /\ (forall data, r = Some data ->
          Scraper.validate_profile_match data person_name company_name = true
          /\ Scraper.validate_linkedin_url (Scraper.url data) = Some true)
    /\ log st' = (log st ++ sent)%list
    /\ Forall (fun q => Spec.search_request q
                        \/ exists u, q = SessionGet u /\ Spec.profile_url u) sent
    /\ List.length sent <= 30.
Proof.
  apply run_summary.
  - eapply never_raises_bind_returns;
      [apply search_linkedin_profile_never_raises
      | apply search_linkedin_profile_returns |].
    intros [url |] Hurl; [| apply never_raises_ret].
    destruct (truthy url); [| apply never_raises_ret].
    apply never_raises_bind;
      [apply scrape_profile_never_raises, profile_url_valid, Hurl; reflexivity |].
    intros [data |]; [| apply never_raises_ret].
    destruct (Scraper.validate_profile_match _ _ _); apply never_raises_ret.
  - eapply returns_bind; [apply search_linkedin_profile_returns |].
    intros [url |] Hurl; [| apply returns_ret; discriminate].
    destruct (truthy url); [| apply returns_ret; discriminate].
    eapply returns_bind; [apply scrape_profile_returns |].
    intros [data |] Hdata; [| apply returns_ret; discriminate].
    destruct (Scraper.validate_profile_match data person_name company_name) eqn:Hmatch;
      apply returns_ret; [| discriminate].
    intros d [= <-]. split; [exact Hmatch |].
    rewrite (Hdata data eq_refl). apply profile_url_valid, Hurl. reflexivity.
  - set (p := fun q => Spec.search_request q
                       \/ exists u, q = SessionGet u /\ Spec.profile_url u).
    assert (Hnone : forall A (a : A) n, Spec.sends (W := W) (ret a) p n).
    { intros A a n. apply (sends_weaken _ p p 0); [auto | lia | apply sends_ret]. }
    apply (sends_weaken _ p p (29 + 1) 30); [auto | lia |].
    eapply sends_bind_returns.
    + apply search_linkedin_profile_returns.
    + apply (sends_weaken _ Spec.search_request p 29 29);
        [intros q Hq; left; exact Hq | lia | apply search_linkedin_profile_sends].
    + intros [url |] Hurl; [| apply Hnone].
      destruct (truthy url); [| apply Hnone].
      apply (sends_weaken _ p p (1 + 0) 1); [auto | lia |].
      apply sends_bind.
      * apply scrape_profile_sends. right. exists url. split; [reflexivity |].
        apply Hurl. reflexivity.
      * intros [data |]; [| apply Hnone].
        destruct (Scraper.validate_profile_match _ _ _); apply Hnone.
Qed.

End Resolution.


(** ** Processing and ranking of the news *)
Section NewsRanking.
Local Open Scope Z_scope.

Lemma process_article_kept (today : Z) (person_name company_name : string)
    (raw : News.RawArticle) (kept : News.ProcessedArticle) :
  News.process_article today person_name company_name raw = Some kept ->
  10 <= News.relevance_score kept
  /\ News.calculate_relevance_score today (News.scored kept) person_name company_name
     = Some (News.relevance_score kept)
  /\ News.truthy_opt (News.title (News.scored kept)) = true
  /\ News.truthy_opt (News.url kept) = true
  /\ News.url kept = News.get_or_empty (News.raw_url raw)
  /\ Spec.well_formed raw = true.
Proof.
  unfold News.process_article, Spec.well_formed.
  destruct (News.source_name (News.raw_source raw)) as [source_value |]; [| discriminate].
  cbv zeta. cbn [News.title].
  destruct (News.truthy_opt (News.get_or_empty (News.raw_title raw))) eqn:Htitle;
    [| discriminate].
  destruct (News.truthy_opt (News.get_or_empty (News.raw_url raw))) eqn:Hurl;
    [| discriminate].
  cbn [negb orb andb].
  destruct (News.calculate_relevance_score _ _ _ _) as [score |] eqn:Hscore;
    [| discriminate].
  destruct (Z.leb_spec 10 score); [| discriminate].
  intros [= <-]. cbn [News.relevance_score News.scored News.url News.title].
  repeat split; try assumption.
  destruct source_value; [reflexivity |].
  unfold News.calculate_relevance_score in Hscore. cbn [News.source] in Hscore.
  discriminate.
Qed.

Lemma process_articles_kept_scores (today : Z) (articles : list News.RawArticle)
    (person_name company_name : string) :
  Forall
    (fun kept =>
       10 <= News.relevance_score kept
       /\ News.calculate_relevance_score today (News.scored kept) person_name company_name
          = Some (News.relevance_score kept)
       /\ News.truthy_opt (News.title (News.scored kept)) = true
       /\ News.truthy_opt (News.url kept) = true)
    (News.process_articles today articles person_name company_name)
  /\ (List.length (News.process_articles today articles person_name company_name)
      <= List.length articles)%nat.
Proof.
  induction articles as [| raw articles [IHkept IHlen]]; [split; [constructor | reflexivity] |].
  cbn [News.process_articles].
  destruct (News.process_article today person_name company_name raw) as [kept |] eqn:Hraw.
  - apply process_article_kept in Hraw as (Hscore & Hcalc & Htitle & Hurl & _).
    split; [constructor; [auto | exact IHkept] | simpl; lia].
  - split; [exact IHkept | simpl; lia].
Qed.

(** X15.  Every article that [process_articles] keeps has a title and a
    URL and scores 10 at least, its score being the one that
    [calculate_relevance_score] gives it; the articles kept are no more than
    the articles received. *)
Theorem process_articles_kept (today : Z) (articles : list News.RawArticle)
    (person_name company_name : string) :
  Forall
    (fun kept =>
       10 <= News.relevance_score kept
       /\ News.calculate_relevance_score today (News.scored kept) person_name company_name
          = Some (News.relevance_score kept)
       /\ News.truthy_opt (News.title (News.scored kept)) = true
       /\ News.truthy_opt (News.url kept) = true)
    (News.process_articles today articles person_name company_name)
  /\ (List.length (News.process_articles today articles person_name company_name)
      <= List.length articles)%nat.
Proof. apply process_articles_kept_scores. Qed.

Lemma empty_name_in_content (content : string) : contains (lower "") content = true.
Proof. destruct content; reflexivity. Qed.

(** With an empty person name, the score of an article with a source that
    is a string cannot fall below 10. *)
Lemma company_news_score (today : Z) (article : News.Article) (company_name : string) :
  News.source article <> None ->
  exists score,
    News.calculate_relevance_score today article "" company_name = Some score
    /\ 10 <= score.
Proof.
  intro Hsource. rewrite score_terms.
  destruct (News.source article) as [source_text |]; [| congruence].
  eexists. split; [reflexivity |].
  pose proof (matched_negative_bound (News.content_of article)) as Hneg.
  unfold Spec.person_points, Spec.organization_points, Spec.recency_points,
    Spec.credibility_points, Spec.keyword_points.
  rewrite empty_name_in_content.
  destruct (truthy company_name && _)%bool; destruct (News.days_ago today article);
    destruct (existsb _ News.credible_sources); lia.
Qed.

Lemma process_article_company (today : Z) (company_name : string)
    (raw : News.RawArticle) :
  Spec.well_formed raw = true ->
  exists kept,
    News.process_article today "" company_name raw = Some kept
    /\ News.url kept = News.get_or_empty (News.raw_url raw).
Proof.
  unfold Spec.well_formed, News.process_article. intro Hraw.
  apply andb_true_iff in Hraw as [Hraw Hsource].
  apply andb_true_iff in Hraw as [Htitle Hurl].
  destruct (News.source_name (News.raw_source raw)) as [[source_text |] |];
    try discriminate.
  cbv zeta. cbn [News.title]. rewrite Htitle, Hurl. cbn [negb orb].
  match goal with |- context [News.calculate_relevance_score today ?a "" company_name] =>
    destruct (company_news_score today a company_name) as (score & -> & Hscore);
      [discriminate |]
  end.
  destruct (Z.leb_spec 10 score); [| lia].
  eexists. split; reflexivity.
Qed.

(** With an empty person name [process_articles] keeps every article
    that has a title, a URL and a usable source, in the order of the
    answer. *)
Lemma process_articles_company (today : Z) (articles : list News.RawArticle)
    (company_name : string) :
  map News.url (News.process_articles today articles "" company_name)
  = map (fun raw => News.get_or_empty (News.raw_url raw))
        (filter Spec.well_formed articles).
Proof.
  induction articles as [| raw articles IH]; [reflexivity |].
  cbn [News.process_articles filter].
  destruct (Spec.well_formed raw) eqn:Hraw.
  - destruct (process_article_company today company_name raw Hraw) as (kept & -> & Hurl).
    cbn [map]. rewrite Hurl, IH. reflexivity.
  - destruct (News.process_article today "" company_name raw) as [kept |] eqn:Hkept;
      [| exact IH].
    apply process_article_kept in Hkept as (_ & _ & _ & _ & _ & Hwell). congruence.
Qed.

(** X16.  [get_company_news] filters nothing by relevance: it scores the
    articles for an empty person name, which is in every text and earns the
    30 points of a person match, and the negative keywords cannot bring the
    score below 10.  For an answer of status 200 it returns the first three
    articles that have a title, a URL and a usable source, in the order of
    the answer, whatever they are about. *)
Theorem get_company_news_first_three (api_key : string) (today : Z)
    (r : News.NewsResponse) (data : News.NewsData) (found : list News.RawArticle)
    (company_name : string) :
  truthy company_name = true ->
  News.validate_api_key api_key = true ->
  News.news_status_code r = 200%nat ->
  News.json r = Some data ->
  News.articles data = Some found ->
  map News.url (News.get_company_news api_key today (Some r) company_name)
  = firstn 3 (map (fun raw => News.get_or_empty (News.raw_url raw))
                  (filter Spec.well_formed found)).
Proof.
  intros Hcompany Hkey Hstatus Hjson Hfound.
  unfold News.get_company_news.
  rewrite Hcompany, Hkey, Hstatus, Hjson, Hfound. cbn [negb orb Nat.eqb].
  rewrite <- firstn_map, process_articles_company. reflexivity.
Qed.

Lemma get_company_news_first_three_witness :
  map News.url
    (News.get_company_news "key" Examples.evaluation_day
       (Some {| News.news_status_code := 200;
                News.json := Some {| News.status := News.Str "ok";
                                     News.articles := Some Examples.company_answer |} |})
       "Acme")
  = [Some "https://news.example/a"; Some "https://news.example/b"]%string.
Proof.
  exact (get_company_news_first_three "key" Examples.evaluation_day
           {| News.news_status_code := 200;
              News.json := Some {| News.status := News.Str "ok";
                                   News.articles := Some Examples.company_answer |} |}
           {| News.status := News.Str "ok";
              News.articles := Some Examples.company_answer |}
           Examples.company_answer "Acme"
           eq_refl eq_refl eq_refl eq_refl eq_refl).
Defined.

Lemma insert_by_score_perm (a : News.ProcessedArticle) (l : list News.ProcessedArticle) :
  Permutation (News.insert_by_score a l) (a :: l).
Proof.
  induction l as [| b l IH]; simpl; [reflexivity |].
  destruct (News.relevance_score b <=? News.relevance_score a); [reflexivity |].
  rewrite IH. apply perm_swap.
Qed.

Lemma sort_by_score_perm (l : list News.ProcessedArticle) :
  Permutation (News.sort_by_score l) l.
Proof.
  induction l as [| a l IH]; simpl; [constructor |].
  rewrite insert_by_score_perm. constructor. exact IH.
Qed.

Lemma insert_by_score_sorted (a : News.ProcessedArticle) (l : list News.ProcessedArticle) :
  Spec.by_score_descending l -> Spec.by_score_descending (News.insert_by_score a l).
Proof.
  unfold Spec.by_score_descending.
  induction 1 as [| b l Hsorted IH Hb]; simpl; [repeat constructor |].
  destruct (Z.leb_spec (News.relevance_score b) (News.relevance_score a)) as [Hle | Hlt].
  - constructor; [constructor; assumption |].
    constructor; [exact Hle |].
    eapply Forall_impl; [| exact Hb]. cbv beta. intros c Hc. lia.
  - constructor; [exact IH |].
    apply Forall_forall. intros c Hc.
    apply (Permutation_in _ (insert_by_score_perm a l)) in Hc.
    destruct Hc as [<- | Hc]; [lia |].
    rewrite Forall_forall in Hb. apply Hb, Hc.
Qed.

Lemma sort_by_score_sorted (l : list News.ProcessedArticle) :
  Spec.by_score_descending (News.sort_by_score l).
Proof.
  induction l as [| a l IH]; simpl; [constructor | apply insert_by_score_sorted, IH].
Qed.

Lemma insert_by_score_stable (k : Z) (a : News.ProcessedArticle)
    (l : list News.ProcessedArticle) :
  filter (fun x => News.relevance_score x =? k) (News.insert_by_score a l)
  = filter (fun x => News.relevance_score x =? k) (a :: l).
Proof.
  induction l as [| b l IH]; [reflexivity |].
  cbn [News.insert_by_score].
  destruct (Z.leb_spec (News.relevance_score b) (News.relevance_score a)) as [Hle | Hlt];
    [reflexivity |].
  cbn [filter] in *. rewrite IH.
  destruct (Z.eqb_spec (News.relevance_score a) k), (Z.eqb_spec (News.relevance_score b) k);
    try reflexivity.
  lia.
Qed.

Lemma sort_by_score_stable (k : Z) (l : list News.ProcessedArticle) :
  filter (fun x => News.relevance_score x =? k) (News.sort_by_score l)
  = filter (fun x => News.relevance_score x =? k) l.
Proof.
  induction l as [| a l IH]; [reflexivity |].
  cbn [News.sort_by_score fold_right]. rewrite insert_by_score_stable.
  cbn [filter]. fold (News.sort_by_score l). rewrite IH. reflexivity.
Qed.

Lemma firstn_sorted (n : nat) (l : list News.ProcessedArticle) :
  Spec.by_score_descending l -> Spec.by_score_descending (firstn n l).
Proof.
  unfold Spec.by_score_descending. intro Hl. revert n.
  induction Hl as [| a l Hsorted IH Ha]; intros [| n]; simpl; try constructor.
  - apply IH.
  - apply firstn_Forall, Ha.
Qed.

Lemma search_person_news_ranked (api_key : string) (today : Z)
    (response : option News.NewsResponse)
    (person_name company_name person_title : string) :
  News.search_person_news api_key today response person_name company_name person_title = []
  \/ exists articles,
       News.search_person_news api_key today response person_name company_name person_title
       = firstn News.MAX_NEWS_ARTICLES
           (News.sort_by_score
              (News.process_articles today articles person_name company_name)).
Proof.
  unfold News.search_person_news.
  repeat match goal with
         | |- [] = [] \/ _ => left; reflexivity
         | |- context [if ?b then _ else _] => destruct b
         | |- context [match ?x with _ => _ end] => destruct x
         end.
  right. eexists. reflexivity.
Qed.

(** X17.  [search_person_news] returns five articles at most, in the order
    of their scores, highest first, each with a score of 10 at least; it
    returns nothing when the key is not configured, when the request
    raises, and when the answer has a status other than 200. *)
Theorem search_person_news_shape (api_key : string) (today : Z)
    (response : option News.NewsResponse)
    (person_name company_name person_title : string) :
  let found :=
    News.search_person_news api_key today response person_name company_name person_title in
  (List.length found <= 5)%nat
  /\ Spec.by_score_descending found
  /\ Forall (fun a => 10 <= News.relevance_score a) found
  /\ (News.validate_api_key api_key = false -> found = [])
  /\ (response = None -> found = [])
  /\ (forall r, response = Some r -> News.news_status_code r <> 200%nat -> found = []).
Proof.
  cbv zeta.
  split; [| split; [| split; [| split; [| split]]]].
  - destruct (search_person_news_ranked api_key today response person_name company_name
                person_title) as [-> | [articles ->]];
      [simpl; lia | apply firstn_le_length].
  - destruct (search_person_news_ranked api_key today response person_name company_name
                person_title) as [-> | [articles ->]];
      [constructor | apply firstn_sorted, sort_by_score_sorted].
  - destruct (search_person_news_ranked api_key today response person_name company_name
                person_title) as [-> | [articles ->]]; [constructor |].
    apply firstn_Forall. apply Forall_forall. intros a Ha.
    apply (Permutation_in _ (sort_by_score_perm _)) in Ha.
    destruct (process_articles_kept_scores today articles person_name company_name)
      as [Hkept _].
    rewrite Forall_forall in Hkept. apply Hkept, Ha.
  - unfold News.search_person_news. intros ->. reflexivity.
  - unfold News.search_person_news. intros ->.
    destruct (negb _); reflexivity.
  - unfold News.search_person_news. intros r -> Hstatus.
    apply Nat.eqb_neq in Hstatus. rewrite Hstatus.
    destruct (negb (News.validate_api_key api_key)),
      (Nat.eqb (News.news_status_code r) 429), (Nat.eqb (News.news_status_code r) 401);
      reflexivity.
Qed.

(** X18.  What [search_person_news] returns is the head of a ranking of
    all the articles that [process_articles] keeps: the ranking holds the
    same articles, highest score first, and articles of equal score stand
    in it in the order of the answer, so an article left out scores no more
    than any article returned. *)
Theorem search_person_news_ranking (api_key : string) (today : Z)
    (r : News.NewsResponse) (data : News.NewsData) (articles : list News.RawArticle)
    (person_name company_name person_title : string) :
  News.validate_api_key api_key = true ->
  News.news_status_code r = 200%nat ->
  News.json r = Some data ->
  News.status data = News.Str "ok" ->
  News.articles data = Some articles ->
  let kept := News.process_articles today articles person_name company_name in
  exists ranking,
    News.search_person_news api_key today (Some r) person_name company_name person_title
    = firstn 5 ranking
    /\ Permutation ranking kept
    /\ Spec.by_score_descending ranking
    /\ forall k,
         filter (fun a => News.relevance_score a =? k) ranking
         = filter (fun a => News.relevance_score a =? k) kept.
Proof.
  intros Hkey Hstatus Hjson Hok Harticles. cbv zeta.
  exists (News.sort_by_score (News.process_articles today articles person_name company_name)).
  split; [| split; [apply sort_by_score_perm |
                    split; [apply sort_by_score_sorted |
                            intro k; apply sort_by_score_stable]]].
  unfold News.search_person_news.
  rewrite Hkey, Hstatus, Hjson, Hok, Harticles. cbn [negb Nat.eqb].
  destruct articles as [| article rest]; reflexivity.
Qed.

Lemma search_person_news_ranking_witness :
  exists ranking,
    News.search_person_news "key" Examples.evaluation_day
      (Some {| News.news_status_code := 200;
               News.json := Some {| News.status := News.Str "ok";
                                    News.articles := Some Examples.company_answer |} |})
      "Acme" "Acme" ""
    = firstn 5 ranking
    /\ Permutation ranking
         (News.process_articles Examples.evaluation_day Examples.company_answer "Acme" "Acme")
    /\ Spec.by_score_descending ranking
    /\ forall k,
         filter (fun a => News.relevance_score a =? k) ranking
         = filter (fun a => News.relevance_score a =? k)
             (News.process_articles Examples.evaluation_day Examples.company_answer
                "Acme" "Acme").
Proof.
  exact (search_person_news_ranking "key" Examples.evaluation_day
           {| News.news_status_code := 200;
              News.json := Some {| News.status := News.Str "ok";
                                   News.articles := Some Examples.company_answer |} |}
           {| News.status := News.Str "ok";
              News.articles := Some Examples.company_answer |}
           Examples.company_answer "Acme" "Acme" ""
           eq_refl eq_refl eq_refl eq_refl eq_refl).
Defined.

(** X19.  The score of an article that is not dated after the day of the
    evaluation lies between 0 and 112: 30 for the person, 20 for the
    company, 20 for the date, 10 for the source and 2 for each of the 16
    keywords.  (The date term is [max(0, 20 - days_ago)], which has no upper
    bound for an article dated in the future.) *)
Theorem relevance_score_range (today : Z) (article : News.Article)
    (person_name company_name : string) (score : Z) :
  News.calculate_relevance_score today article person_name company_name = Some score ->
  (forall days, News.days_ago today article = Some days -> 0 <= days) ->
  0 <= score <= 112.
Proof.
  rewrite score_terms. destruct (News.source article) as [source_text |]; [| discriminate].
  intros [= <-] Hdays.
  assert (Hkeywords :
            (List.length (Spec.matched_keywords (News.content_of article)) <= 16)%nat)
    by apply (filter_length_le _ News.business_keywords).
  unfold Spec.person_points, Spec.organization_points, Spec.recency_points,
    Spec.credibility_points, Spec.keyword_points.
  destruct (News.days_ago today article) as [days |];
    [specialize (Hdays days eq_refl) |];
    destruct (contains (lower person_name) _), (truthy company_name && _)%bool,
      (existsb _ News.credible_sources); lia.
Qed.

Lemma relevance_score_range_witness :
  0 <= 54 <= 112.
Proof.
  apply (relevance_score_range Examples.evaluation_day Examples.acme_item "" "Acme Corp" 54).
  - vm_compute. reflexivity.
  - intros days Hdays. vm_compute in Hdays. injection Hdays as <-. lia.
Defined.

End NewsRanking.


(** ** The fields read from a profile page *)

Lemma substring_length (n : nat) (s : string) :
  length (substring 0 n s) = Nat.min n (length s).
Proof.
  revert n. induction s as [| c s IH]; intros [| n]; simpl; try reflexivity.
  rewrite IH. reflexivity.
Qed.

Lemma first_text_cases (f : string -> option string) (selectors : list string) :
  Scraper.first_text f selectors = ""
  \/ exists selector,
       In selector selectors /\ f selector = Some (Scraper.first_text f selectors).
Proof.
  induction selectors as [| selector rest IH]; [left; reflexivity |].
  cbn [Scraper.first_text].
  destruct (f selector) as [value |] eqn:Hvalue.
  - right. exists selector. split; [left; reflexivity | exact Hvalue].
  - destruct IH as [IH | (s & Hs & IH)]; [left; exact IH |].
    right. exists s. split; [right; exact Hs | exact IH].
Qed.

Lemma stripped_text_kept (soup : Soup) (keep : string -> bool) (selector value : string) :
  Scraper.stripped_text soup keep selector = Some value -> keep value = true.
Proof.
  unfold Scraper.stripped_text.
  destruct (select_one soup selector) as [element |]; [| discriminate].
  cbv zeta. destruct (keep (strip (text element))) eqn:Hkeep; [| discriminate].
  intros [= <-]. exact Hkeep.
Qed.

Lemma titled_items_bound (limit : nat) (section : option (list ListItem)) :
  List.length (Scraper.titled_items limit section) <= limit
  /\ Forall (fun item => Scraper.span_text (aria_hidden_span item) <> "")
       (Scraper.titled_items limit section).
Proof.
  unfold Scraper.titled_items. destruct section as [items |];
    [| split; [simpl; lia | constructor]].
  split.
  - etransitivity; [apply filter_length_le | apply firstn_le_length].
  - apply Forall_forall. intros item Hitem. apply filter_In in Hitem as [_ Hitem].
    intros Hempty. rewrite Hempty in Hitem. discriminate.
Qed.

(** X20.  The fields that the [extract_*] functions read from a page are
    bounded: the summary is empty or has 51 to 500 characters, the location
    is empty or has 3 characters at least, there are at most three
    experiences and two educations, and none of these has an empty title or
    school. *)
Theorem extracted_fields_bounds (soup : Soup) :
  (Scraper.extract_about soup = ""
   \/ 51 <= length (Scraper.extract_about soup) <= 500)
  /\ (Scraper.extract_location soup = ""
      \/ 3 <= length (Scraper.extract_location soup))
  /\ List.length (Scraper.extract_experience soup) <= 3
  /\ Forall (fun e => Scraper.exp_title e <> "") (Scraper.extract_experience soup)
  /\ List.length (Scraper.extract_education soup) <= 2
  /\ Forall (fun e => Scraper.edu_school e <> "") (Scraper.extract_education soup).
Proof.
  split; [| split; [| split; [| split; [| split]]]].
  - unfold Scraper.extract_about.
    match goal with |- context [Scraper.first_text ?f ?l] =>
      destruct (first_text_cases f l) as [-> | (selector & _ & Hkept)]
    end; [left; reflexivity |].
    right. apply stripped_text_kept in Hkept.
    apply andb_true_iff in Hkept as [_ Hlong]. apply Nat.ltb_lt in Hlong.
    unfold slice. rewrite substring_length. lia.
  - unfold Scraper.extract_location.
    match goal with |- context [Scraper.first_text ?f ?l] =>
      destruct (first_text_cases f l) as [-> | (selector & _ & Hkept)]
    end; [left; reflexivity |].
    right. apply stripped_text_kept in Hkept.
    apply andb_true_iff in Hkept as [_ Hlong]. apply Nat.ltb_lt in Hlong. lia.
  - unfold Scraper.extract_experience. rewrite length_map. apply titled_items_bound.
  - unfold Scraper.extract_experience. apply Forall_map.
    cbn [Scraper.exp_title]. apply titled_items_bound.
  - unfold Scraper.extract_education. rewrite length_map. apply titled_items_bound.
  - unfold Scraper.extract_education. apply Forall_map.
    cbn [Scraper.edu_school]. apply titled_items_bound.
Qed.
